(** * AttendEase: descriptor matching, session resolution and the two ledgers

    A shallow embedding of the back-end core of the attendance system:

    - [euclideanDistance] and [findBestMatch] of [routes/attendance.js],
    - [getCurrentTimeSlot] of the same module,
    - the handler of [POST /api/attendance/mark] ([post_mark], with its ledger
      part [markAttendance]),
    - the handler of [POST /api/meal/mark] of [server.js] ([post_meal_mark],
      with its ledger part [markMeal]),
    - [compareFaces], [euclideanDistance] and [validateDescriptor] of the
      class [FaceRecognitionUtils] ([utils/faceRecognition.js]).

    JavaScript numbers are IEEE 754 binary64 values: they are modelled by the
    primitive floats of the kernel, whose operations are the hardware ones.
    The wall clock, [Date.now()], [Math.random()] and the outcome of the write
    to the JSON file are inputs of the handlers (the record [Env]). *)

From Stdlib Require Import ZArith List String Ascii Bool Lia Floats.
From Stdlib Require Uint63 DecimalString.
Import ListNotations.

Set Warnings "-inexact-float".

(* ================================================================== *)
(** * JavaScript values and primitives *)
(* ================================================================== *)

Module JS.

Local Open Scope float_scope.

(** The global [Infinity]. *)
Definition Infinity : float := infinity.

(** [Number.isNaN]: NaN is the only number different from itself. *)
Definition isNaN (x : float) : bool := negb (x =? x).

(** Truthiness of a number: every number but [+0], [-0] and [NaN]. *)
Definition truthy_number (x : float) : bool := negb (x =? 0) && negb (isNaN x).

(** Truthiness of a string: every string but the empty one. *)
Definition truthy_string (s : string) : bool := negb (String.eqb s "").

(** An optional string property of a JSON body: [None] when it is absent. *)
Definition truthy_opt (s : option string) : bool :=
  match s with
  | Some s => truthy_string s
  | None => false
  end.

(** [a || b] where [a] is an optional string property and [b] a string. *)
Definition or_string (a : option string) (b : string) : string :=
  match a with
  | Some s => if truthy_string s then s else b
  | None => b
  end.

(** [a || b] where [a] is an optional number property and [b] a number. *)
Definition or_number (a : option float) (b : float) : float :=
  match a with
  | Some x => if truthy_number x then x else b
  | None => b
  end.

(** The integer [n], for [|n| <= 2^53], as a number. *)
Definition of_Z (n : Z) : float :=
  let a := of_uint63 (Uint63.of_Z (Z.abs n)) in
  if (n <? 0)%Z then - a else a.

(** [Math.round]: the integer closest to [x], a tie going towards
    [+Infinity]; NaN, the infinities, the zeros and the integers are returned
    as they are, and a result of zero keeps the sign of [x].  A finite [x] is
    [m * 2^e]: for [e < 0] the result is [floor (x + 1/2)], computed on
    integers. *)
Definition Math_round (x : float) : float :=
  match Prim2SF x with
  | S754_finite s m e =>
      if (0 <=? e)%Z then x
      else
        let sm := if s then Z.neg m else Z.pos m in
        let n := ((sm * 2 + 2 ^ (- e)) / 2 ^ (1 - e))%Z in
        if (n =? 0)%Z then (if s then -0 else 0) else of_Z n
  | _ => x
  end.

(** [Math.max] of two numbers: NaN when one of them is; [+0] is larger
    than [-0]. *)
Definition Math_max (a b : float) : float :=
  if isNaN a || isNaN b then nan
  else if a <? b then b
  else if b <? a then a
  else if get_sign a then b else a.

(** An element of a JSON array that is used as a descriptor.  Strings and
    nested containers are left out: their coercion to a number needs the
    grammar of numeric string literals, and nothing below depends on it. *)
Inductive JsElem : Type :=
| ENum (x : float)
| ENull
| EBool (b : bool).

(** [typeof value === 'number'] *)
Definition is_number (v : JsElem) : bool :=
  match v with
  | ENum _ => true
  | _ => false
  end.

(** The coercion [ToNumber] that the subtraction applies to its operands. *)
Definition ToNumber (v : JsElem) : float :=
  match v with
  | ENum x => x
  | ENull => 0
  | EBool true => 1
  | EBool false => 0
  end.

(** A property of a JSON request body. *)
Inductive JsValue : Type :=
| VUndefined
| VNull
| VBool (b : bool)
| VNum (x : float)
| VStr (s : string)
| VArr (elems : list JsElem)
| VObj.

Definition truthy (v : JsValue) : bool :=
  match v with
  | VUndefined | VNull => false
  | VBool b => b
  | VNum x => truthy_number x
  | VStr s => truthy_string s
  | VArr _ | VObj => true
  end.

(** [s.slice(0, n)] on a string. *)
Definition slice0 (n : nat) (s : string) : string := substring 0 n s.

(** [s.split('T')[0]]: what comes before the first ['T']. *)
Fixpoint split_T_0 (s : string) : string :=
  match s with
  | EmptyString => EmptyString
  | String c r => if Ascii.eqb c "T" then EmptyString else String c (split_T_0 r)
  end.

(** The decimal rendering of a non-negative integer in a template string. *)
Definition decimal (n : N) : string :=
  DecimalString.NilZero.string_of_uint (N.to_uint n).

End JS.

Import JS.

(* ================================================================== *)
(** * The stored document *)
(* ================================================================== *)

(** A descriptor as the comparator receives it: [None] stands for a missing
    value ([undefined] or [null]), [Some l] for an array. *)
Definition Descriptor : Type := option (list JsElem).

Module FaceData.
Record t : Type := mk {
  descriptors : option (list Descriptor)
}.
End FaceData.

Module Student.
Record t : Type := mk {
  studentId : string;
  name : string;
  class : string;
  status : string;
  faceData : option FaceData.t
}.
End Student.

Module Attendance.
Record t : Type := mk {
  id : string;
  studentId : string;
  studentName : string;
  studentClass : string;
  timestamp : string;
  date : string;
  session : string;
  sessionType : string;
  status : string;
  confidence : float;
  createdAt : string
}.
End Attendance.

Module Meal.
Record t : Type := mk {
  id : string;
  studentId : string;
  studentName : string;
  studentClass : string;
  date : string;
  timestamp : string;
  status : string;
  createdAt : string;
  ip : string;
  userAgent : string
}.
End Meal.

Module Settings.
Record t : Type := mk {
  recognitionThreshold : option float
}.
End Settings.

Module Statistics.
Record t : Type := mk {
  totalAttendance : option float;
  totalMealsServed : option float;
  lastUpdated : option string
}.
End Statistics.

(** The JSON document [database.json], in the shape [initializeDatabase]
    gives it. *)
Module Database.
Record t : Type := mk {
  students : list Student.t;
  attendance : list Attendance.t;
  meals : list Meal.t;
  settings : Settings.t;
  statistics : Statistics.t
}.
End Database.

(* ================================================================== *)
(** * Descriptor comparator and matcher ([routes/attendance.js]) *)
(* ================================================================== *)

Local Open Scope string_scope.
Local Open Scope list_scope.
Local Open Scope float_scope.

(** The body of the [for] loop of [euclideanDistance], [sum] being the
    accumulator; both arrays have the same length when it runs. *)
Fixpoint sum_squares (desc1 desc2 : list JsElem) (sum : float) : float :=
  match desc1, desc2 with
  | a :: r1, b :: r2 =>
      let diff := ToNumber a - ToNumber b in
      sum_squares r1 r2 (sum + diff * diff)
  | _, _ => sum
  end.

Definition euclideanDistance (desc1 desc2 : Descriptor) : float :=
  match desc1, desc2 with
  | Some d1, Some d2 =>
      if negb (List.length d1 =? List.length d2)%nat then Infinity
      else sqrt (sum_squares d1 d2 0)
  | _, _ => Infinity
  end.

Record BestMatch : Type := mkBestMatch {
  distance : float;
  confidence : float
}.

(** The pair [{ bestMatch, matchedStudent }]; [None] is [null]. *)
Definition MatchResult : Type := (option BestMatch * option Student.t)%type.

(** The body of the inner loop: one stored descriptor of [student]. *)
Definition try_descriptor (inputDescriptor : Descriptor) (threshold : float)
    (student : Student.t) (acc : MatchResult) (descriptor : Descriptor) : MatchResult :=
  let dist := euclideanDistance inputDescriptor descriptor in
  if (dist <? threshold)
     && match fst acc with
        | None => true
        | Some bestMatch => dist <? distance bestMatch
        end
  then (Some {| distance := dist; confidence := Math_round ((1 - dist) * 100) |},
        Some student)
  else acc.

(** The body of the outer loop: the [continue] guard, then the inner loop. *)
Definition try_student (inputDescriptor : Descriptor) (threshold : float)
    (acc : MatchResult) (student : Student.t) : MatchResult :=
  if negb (String.eqb (Student.status student) "active") then acc
  else
    match Student.faceData student with
    | None => acc
    | Some fd =>
        match FaceData.descriptors fd with
        | None => acc
        | Some ds => fold_left (try_descriptor inputDescriptor threshold student) ds acc
        end
    end.

(** [findBestMatch(inputDescriptor, students, threshold)]; the default value
    [0.6] of [threshold] is for a call that omits it, which the handler never
    does. *)
Definition findBestMatch (inputDescriptor : Descriptor) (students : list Student.t)
    (threshold : float) : MatchResult :=
  fold_left (try_student inputDescriptor threshold) students (None, None).

(* ================================================================== *)
(** * Session resolver ([getCurrentTimeSlot]) *)
(* ================================================================== *)

(** The local time of day of a [Date]: [getHours()] and [getMinutes()]. *)
Record TimeOfDay : Type := mkTime {
  hours : nat;
  minutes : nat
}.

(** What a [Date] always satisfies. *)
Definition valid_time (t : TimeOfDay) : Prop := (hours t < 24 /\ minutes t < 60)%nat.

Definition minutes_of_day (t : TimeOfDay) : nat := (60 * hours t + minutes t)%nat.

Definition digit (d : nat) : ascii := ascii_of_nat (48 + d).

(** A number below 100 on two digits. *)
Definition pad2 (n : nat) (rest : string) : string :=
  String (digit (n / 10)) (String (digit (n mod 10)) rest).

(** [now.toTimeString().slice(0, 5)]: the text [HH:MM]. *)
Definition toTimeString_slice_0_5 (now : TimeOfDay) : string :=
  pad2 (hours now) (String ":" (pad2 (minutes now) EmptyString)).

(** A value of the object literal [slots]. *)
Record Slot : Type := mkSlot {
  slot_start : string;
  slot_end : string;
  slot_name : string
}.

(** [Object.entries(slots)]: the keys are not integer-like, so the entries
    come in the order the literal declares them. *)
Definition slots : list (string * Slot) :=
  [ ("morning",   {| slot_start := "08:00"; slot_end := "12:00"; slot_name := "Morning Session" |});
    ("meal",      {| slot_start := "12:00"; slot_end := "13:00"; slot_name := "Mid-Day Meal" |});
    ("afternoon", {| slot_start := "13:00"; slot_end := "17:00"; slot_name := "Afternoon Session" |}) ].

(** The object [{ type, name, active }] that the resolver returns. *)
Record TimeSlot : Type := mkTimeSlot {
  slot_type : string;
  name : string;
  active : bool
}.

Definition no_active_session : TimeSlot :=
  {| slot_type := "none"; name := "No Active Session"; active := false |}.

(** The [for] loop over the entries; [>=] and [<=] compare strings, code unit
    by code unit. *)
Fixpoint first_slot (entries : list (string * Slot)) (time : string) : TimeSlot :=
  match entries with
  | [] => no_active_session
  | (key, slot) :: rest =>
      if String.leb (slot_start slot) time && String.leb time (slot_end slot)
      then {| slot_type := key; name := slot_name slot; active := true |}
      else first_slot rest time
  end.

Definition getCurrentTimeSlot (now : TimeOfDay) : TimeSlot :=
  first_slot slots (toTimeString_slice_0_5 now).

(** A slot configuration given by times of day, and the entry it stands for. *)
Record SlotConfig : Type := mkSlotConfig {
  cfg_key : string;
  cfg_name : string;
  cfg_start : TimeOfDay;
  cfg_end : TimeOfDay
}.

Definition entry_of (c : SlotConfig) : string * Slot :=
  (cfg_key c,
   {| slot_start := toTimeString_slice_0_5 (cfg_start c);
      slot_end := toTimeString_slice_0_5 (cfg_end c);
      slot_name := cfg_name c |}).

Definition default_boundaries : list SlotConfig :=
  [ {| cfg_key := "morning"; cfg_name := "Morning Session";
       cfg_start := mkTime 8 0; cfg_end := mkTime 12 0 |};
    {| cfg_key := "meal"; cfg_name := "Mid-Day Meal";
       cfg_start := mkTime 12 0; cfg_end := mkTime 13 0 |};
    {| cfg_key := "afternoon"; cfg_name := "Afternoon Session";
       cfg_start := mkTime 13 0; cfg_end := mkTime 17 0 |} ].

(** [t] lies in the closed interval of [c]. *)
Definition contains (c : SlotConfig) (t : TimeOfDay) : bool :=
  ((minutes_of_day (cfg_start c) <=? minutes_of_day t)
   && (minutes_of_day t <=? minutes_of_day (cfg_end c)))%nat.

(* ================================================================== *)
(** * The attendance handler ([POST /api/attendance/mark]) *)
(* ================================================================== *)

(** What a request reads from its environment. *)
Record Env : Type := mkEnv {
  now : TimeOfDay;          (* new Date(), local time of day *)
  Date_now : N;             (* Date.now() *)
  toISOString : string;     (* new Date().toISOString() *)
  random_suffix : string;   (* Math.random().toString(36).substring(2, 8) *)
  writeOk : bool            (* whether fs.writeFile succeeds *)
}.

(** [req.body] of the attendance route.  The timestamp and the two labels
    are strings or absent.  A truthy [timestamp] of another type is not in
    this type: for a recognised face [timestamp.slice] then throws and the
    [catch] block answers 500. *)
Record MarkBody : Type := mkMarkBody {
  faceDescriptor : JsValue;
  timestamp : option string;
  session : option string;
  sessionType : option string
}.

Inductive MarkResponse : Type :=
| BadRequest (message : string)
    (* status 400, success: false *)
| NotRecognized
    (* success: false, recognized: false, confidence: 0 *)
| AlreadyMarked (studentName studentId session timestamp : string)
    (* success: true, recognized: true, alreadyMarked: true *)
| Marked (studentName studentId session timestamp : string) (confidence : float)
    (* success: true, recognized: true, alreadyMarked: false *)
| InternalError.
    (* status 500, from the catch block *)

(** The callback of [db.attendance.find]. *)
Definition same_bucket (studentId date session : string) (a : Attendance.t) : bool :=
  String.eqb (Attendance.studentId a) studentId
  && String.eqb (Attendance.date a) date
  && String.eqb (Attendance.session a) session.

(** [db.statistics.totalAttendance = (db.statistics.totalAttendance || 0) + 1];
    the document has its [statistics], so [db.statistics || {}] is
    [db.statistics]. *)
Definition count_attendance (s : Statistics.t) : Statistics.t :=
  {| Statistics.totalAttendance := Some (or_number (Statistics.totalAttendance s) 0 + 1);
     Statistics.totalMealsServed := Statistics.totalMealsServed s;
     Statistics.lastUpdated := Statistics.lastUpdated s |}.

Definition push_attendance (record : Attendance.t) (db : Database.t) : Database.t :=
  {| Database.students := Database.students db;
     Database.attendance := Database.attendance db ++ [record];
     Database.meals := Database.meals db;
     Database.settings := Database.settings db;
     Database.statistics := count_attendance (Database.statistics db) |}.

(** The ledger part of the handler, from [attendanceDate] to the update of
    the statistics: the answer and the document [db] as the handler holds it
    in memory afterwards. *)
Definition markAttendance (env : Env) (matchedStudent : Student.t) (bestMatch : BestMatch)
    (timestamp : string) (session sessionType : option string) (db : Database.t)
    : MarkResponse * Database.t :=
  let attendanceDate := slice0 10 timestamp in
  let slot := getCurrentTimeSlot (now env) in
  let sessionName := or_string session (name slot) in
  match find (same_bucket (Student.studentId matchedStudent) attendanceDate sessionName)
             (Database.attendance db) with
  | Some existing =>
      (AlreadyMarked (Student.name matchedStudent) (Student.studentId matchedStudent)
                     sessionName (Attendance.timestamp existing),
       db)
  | None =>
      let record :=
        {| Attendance.id := ("att_" ++ decimal (Date_now env))%string;
           Attendance.studentId := Student.studentId matchedStudent;
           Attendance.studentName := Student.name matchedStudent;
           Attendance.studentClass := Student.class matchedStudent;
           Attendance.timestamp := timestamp;
           Attendance.date := attendanceDate;
           Attendance.session := sessionName;
           Attendance.sessionType := or_string sessionType (slot_type slot);
           Attendance.status := "present";
           Attendance.confidence := confidence bestMatch;
           Attendance.createdAt := toISOString env |} in
      (Marked (Attendance.studentName record) (Attendance.studentId record)
              (Attendance.session record) (Attendance.timestamp record)
              (Attendance.confidence record),
       push_attendance record db)
  end.

(** The whole handler: the answer and the stored document after the request.
    The result of [writeDatabase] is not looked at: when the write fails the
    answer is the same and the stored document stays as it was. *)
Definition post_mark (env : Env) (body : MarkBody) (stored : Database.t)
    : MarkResponse * Database.t :=
  if negb (truthy (faceDescriptor body)) || negb (truthy_opt (timestamp body))
  then (BadRequest "Face descriptor and timestamp required", stored)
  else
    match faceDescriptor body, timestamp body with
    | VArr elems, Some timestamp =>
        if negb (List.length elems =? 128)%nat
        then (BadRequest "Invalid face descriptor", stored)
        else
          let db := stored in
          let threshold :=
            or_number (Settings.recognitionThreshold (Database.settings db)) 0.6 in
          match findBestMatch (Some elems) (Database.students db) threshold with
          | (_, None) => (NotRecognized, stored)
          | (None, Some _) => (InternalError, stored)
          | (Some bestMatch, Some matchedStudent) =>
              let (response, db') :=
                markAttendance env matchedStudent bestMatch timestamp
                               (session body) (sessionType body) db in
              (response, if writeOk env then db' else stored)
          end
    | _, _ => (BadRequest "Invalid face descriptor", stored)
    end.

(* ================================================================== *)
(** * The meal handler ([POST /api/meal/mark], [server.js]) *)
(* ================================================================== *)

Module MealBody.
(** [req.body], with the two request properties that go into [metadata]. *)
Record t : Type := mk {
  studentId : option string;
  timestamp : option string;
  ip : string;                    (* req.ip || req.connection.remoteAddress *)
  userAgent : option string       (* req.get('User-Agent') *)
}.
End MealBody.

(** The object [{ name, studentId, class }] of the answers. *)
Record StudentSummary : Type := mkSummary {
  summary_name : string;
  summary_studentId : string;
  summary_class : string
}.

Definition summary (student : Student.t) : StudentSummary :=
  {| summary_name := Student.name student;
     summary_studentId := Student.studentId student;
     summary_class := Student.class student |}.

Inductive MealResponse : Type :=
| MealBadRequest (message : string)
    (* status 400 *)
| MealNotFound (message : string)
    (* status 404 *)
| MealAlreadyMarked (mealRecord : Meal.t) (student : StudentSummary)
    (* success: true, alreadyMarked: true *)
| MealServed (mealRecord : Meal.t) (student : StudentSummary)
    (* success: true, alreadyMarked: false *)
| MealSaveFailed (message : string).
    (* status 500 *)

(** The callback of [db.students.find]. *)
Definition active_with_id (studentId : string) (s : Student.t) : bool :=
  String.eqb (Student.studentId s) studentId && String.eqb (Student.status s) "active".

(** The callback of [db.meals.find]. *)
Definition same_day (studentId mealDate : string) (meal : Meal.t) : bool :=
  String.eqb (Meal.studentId meal) studentId && String.eqb (Meal.date meal) mealDate.

(** [if (!totalMealsServed) totalMealsServed = 0; totalMealsServed++] *)
Definition count_meal (s : Statistics.t) : Statistics.t :=
  {| Statistics.totalAttendance := Statistics.totalAttendance s;
     Statistics.totalMealsServed := Some (or_number (Statistics.totalMealsServed s) 0 + 1);
     Statistics.lastUpdated := Statistics.lastUpdated s |}.

Definition push_meal (mealRecord : Meal.t) (db : Database.t) : Database.t :=
  {| Database.students := Database.students db;
     Database.attendance := Database.attendance db;
     Database.meals := Database.meals db ++ [mealRecord];
     Database.settings := Database.settings db;
     Database.statistics := count_meal (Database.statistics db) |}.

(** The ledger part of the handler, from [mealDate] to the update of the
    statistics: the answer it prepares and the document in memory. *)
Definition markMeal (env : Env) (studentId timestamp : string) (ip : string)
    (userAgent : option string) (db : Database.t) : MealResponse * Database.t :=
  let mealDate := split_T_0 timestamp in
  match find (active_with_id studentId) (Database.students db) with
  | None => (MealNotFound "Student not found or inactive", db)
  | Some student =>
      match find (same_day studentId mealDate) (Database.meals db) with
      | Some existingMeal => (MealAlreadyMarked existingMeal (summary student), db)
      | None =>
          let mealRecord :=
            {| Meal.id := ("MEAL_" ++ decimal (Date_now env) ++ "_" ++ random_suffix env)%string;
               Meal.studentId := studentId;
               Meal.studentName := Student.name student;
               Meal.studentClass := Student.class student;
               Meal.date := mealDate;
               Meal.timestamp := timestamp;
               Meal.status := "served";
               Meal.createdAt := toISOString env;
               Meal.ip := ip;
               Meal.userAgent := or_string userAgent "Unknown" |} in
          (MealServed mealRecord (summary student), push_meal mealRecord db)
      end
  end.

(** [writeDatabase] of [server.js] stamps [statistics.lastUpdated] and writes
    the document: the stored document afterwards, and whether it was saved. *)
Definition writeDatabase (env : Env) (stored data : Database.t) : Database.t * bool :=
  if writeOk env
  then ({| Database.students := Database.students data;
           Database.attendance := Database.attendance data;
           Database.meals := Database.meals data;
           Database.settings := Database.settings data;
           Database.statistics :=
             {| Statistics.totalAttendance := Statistics.totalAttendance (Database.statistics data);
                Statistics.totalMealsServed := Statistics.totalMealsServed (Database.statistics data);
                Statistics.lastUpdated := Some (toISOString env) |} |},
        true)
  else (stored, false).

(** The whole handler: the answer and the stored document after the request. *)
Definition post_meal_mark (env : Env) (body : MealBody.t) (stored : Database.t)
    : MealResponse * Database.t :=
  match MealBody.studentId body, MealBody.timestamp body with
  | Some studentId, Some timestamp =>
      if negb (truthy_string studentId) || negb (truthy_string timestamp)
      then (MealBadRequest "Student ID and timestamp are required", stored)
      else
        match markMeal env studentId timestamp (MealBody.ip body)
                       (MealBody.userAgent body) stored with
        | (MealServed mealRecord student, db) =>
            let (stored', saved) := writeDatabase env stored db in
            if negb saved
            then (MealSaveFailed "Failed to save meal record", stored')
            else (MealServed mealRecord student, stored')
        | (response, _) => (response, stored)
        end
  | _, _ => (MealBadRequest "Student ID and timestamp are required", stored)
  end.

(* ================================================================== *)
(** * The class [FaceRecognitionUtils] ([utils/faceRecognition.js]) *)
(* ================================================================== *)

Module FaceRecognitionUtils.

(** A method either returns or throws an error with a message. *)
Inductive result (A : Type) : Type :=
| Return (a : A)
| Throw (message : string).
Arguments Return {A} a.
Arguments Throw {A} message.

(** The method [euclideanDistance]: reading [length] of a missing value is a
    [TypeError], and arrays of different lengths are refused. *)
Definition euclideanDistance (desc1 desc2 : Descriptor) : result float :=
  match desc1, desc2 with
  | Some d1, Some d2 =>
      if negb (List.length d1 =? List.length d2)%nat
      then Throw "Descriptors must have the same length"
      else Return (sqrt (sum_squares d1 d2 0))
  | _, _ => Throw "TypeError"
  end.

Record Comparison : Type := mkComparison {
  distance : float;
  similarity : float;
  isMatch : bool;
  confidence : float;
  threshold : float
}.

(** The method [compareFaces]; [recognitionThreshold] is the field of [this]. *)
Definition compareFaces (recognitionThreshold : float) (descriptor1 descriptor2 : JsValue)
    : result Comparison :=
  match descriptor1, descriptor2 with
  | VArr d1, VArr d2 =>
      if negb (List.length d1 =? 128)%nat || negb (List.length d2 =? 128)%nat
      then Throw "Face descriptors must be 128-dimensional arrays"
      else
        match euclideanDistance (Some d1) (Some d2) with
        | Throw message => Throw message
        | Return distance =>
            let similarity := Math_max 0 ((1 - distance) * 100) in
            Return {| distance := distance;
                      similarity := Math_round (similarity * 100) / 100;
                      isMatch := distance <? recognitionThreshold;
                      confidence := Math_round similarity;
                      threshold := recognitionThreshold |}
        end
  | _, _ => Throw "Descriptors must be arrays"
  end.

(** The method [validateDescriptor]. *)
Definition validateDescriptor (descriptor : JsValue) : bool :=
  match descriptor with
  | VArr elems =>
      if negb (List.length elems =? 128)%nat then false
      else forallb (fun value => is_number value && negb (isNaN (ToNumber value))) elems
  | _ => false
  end.

End FaceRecognitionUtils.

(* ================================================================== *)
(** * Reachable documents and their keys *)
(* ================================================================== *)

(** The time bucket of an attendance record. *)
Definition attendance_key (a : Attendance.t) : string * string * string :=
  (Attendance.studentId a, Attendance.date a, Attendance.session a).

(** The time bucket of a meal record. *)
Definition meal_key (m : Meal.t) : string * string :=
  (Meal.studentId m, Meal.date m).

(** The documents the two handlers can leave in the store, starting from a
    document without records ([initializeDatabase]); registration and the
    update of the settings change the students and the settings only.  A
    handler replaces the stored document by the one it computed from the
    document it read: each rule takes any reachable document for the one
    that was read. *)
Inductive reachable : Database.t -> Prop :=
| reachable_initial : forall students settings statistics,
    reachable {| Database.students := students;
                 Database.attendance := [];
                 Database.meals := [];
                 Database.settings := settings;
                 Database.statistics := statistics |}
| reachable_post_mark : forall env body db,
    reachable db -> reachable (snd (post_mark env body db))
| reachable_post_meal_mark : forall env body db,
    reachable db -> reachable (snd (post_meal_mark env body db))
| reachable_administration : forall students settings db,
    reachable db ->
    reachable {| Database.students := students;
                 Database.attendance := Database.attendance db;
                 Database.meals := Database.meals db;
                 Database.settings := settings;
                 Database.statistics := Database.statistics db |}.

(** The pairs (student, descriptor) that [findBestMatch] looks at, in the
    order of its two loops. *)
Definition stored_descriptors (student : Student.t) : list Descriptor :=
  if String.eqb (Student.status student) "active" then
    match Student.faceData student with
    | Some fd =>
        match FaceData.descriptors fd with
        | Some ds => ds
        | None => []
        end
    | None => []
    end
  else [].

Definition candidate_pairs (students : list Student.t) : list (Student.t * Descriptor) :=
  flat_map (fun student => map (pair student) (stored_descriptors student)) students.

(** One turn of the inner loop, on a pair. *)
Definition consider (inputDescriptor : Descriptor) (threshold : float)
    (acc : MatchResult) (p : Student.t * Descriptor) : MatchResult :=
  try_descriptor inputDescriptor threshold (fst p) acc (snd p).

(** The distance of the probe to the descriptor of a pair. *)
Definition dist_to (inputDescriptor : Descriptor) (p : Student.t * Descriptor) : float :=
  euclideanDistance inputDescriptor (snd p).

(** The match that [findBestMatch] reports when it selects the pair [p]. *)
Definition match_on (inputDescriptor : Descriptor) (p : Student.t * Descriptor) : MatchResult :=
  (Some {| distance := dist_to inputDescriptor p;
           confidence := Math_round ((1 - dist_to inputDescriptor p) * 100) |},
   Some (fst p)).

(** [r] is the outcome of the scan of [pairs]: no match when no distance is
    below the threshold, and otherwise the first pair, in the order of the
    list, whose distance is below the threshold and is not beaten: every
    pair before it that is below the threshold is strictly farther, and no
    pair after it is strictly closer. *)
Definition scan_outcome (inputDescriptor : Descriptor) (threshold : float)
    (pairs : list (Student.t * Descriptor)) (r : MatchResult) : Prop :=
  (r = (None, None)
   /\ forall q, In q pairs -> (dist_to inputDescriptor q <? threshold) = false)
  \/
  (exists pre p post,
      pairs = pre ++ p :: post
      /\ r = match_on inputDescriptor p
      /\ (dist_to inputDescriptor p <? threshold) = true
      /\ (forall q, In q pre ->
            (dist_to inputDescriptor q <? threshold) = true ->
            (dist_to inputDescriptor p <? dist_to inputDescriptor q) = true)
      /\ (forall q, In q post ->
            (dist_to inputDescriptor q <? threshold) = true ->
            (dist_to inputDescriptor q <? dist_to inputDescriptor p) = false)).

(** A number that is not NaN. *)
Definition ordered (x : float) : Prop := (x <=? x) = true.

(* ================================================================== *)
(** * Sample data *)
(* ================================================================== *)

Module Sample.

(** The descriptor whose first component is [x], the 127 others being 0. *)
Definition axis (x : float) : list JsElem := ENum x :: repeat (ENum 0) 127.

Definition zeros : list JsElem := axis 0.

(** An array of 128 [null]. *)
Definition nulls : list JsElem := repeat ENull 128.

(** An active student enrolled with one descriptor. *)
Definition enrolled (studentId name : string) (d : list JsElem) : Student.t :=
  {| Student.studentId := studentId;
     Student.name := name;
     Student.class := "5";
     Student.status := "active";
     Student.faceData := Some {| FaceData.descriptors := Some [Some d] |} |}.

Definition ann : Student.t := enrolled "S001" "Ann" zeros.
Definition bob : Student.t := enrolled "S002" "Bob" (axis 1.5).
Definition eve : Student.t := enrolled "S003" "Eve" (axis 0.25).

(** A document without records. *)
Definition fresh (threshold : option float) (students : list Student.t) : Database.t :=
  {| Database.students := students;
     Database.attendance := [];
     Database.meals := [];
     Database.settings := {| Settings.recognitionThreshold := threshold |};
     Database.statistics :=
       {| Statistics.totalAttendance := None;
          Statistics.totalMealsServed := None;
          Statistics.lastUpdated := None |} |}.

(** A request handled at [h]:[m], local time, whose write succeeds. *)
Definition at_time (h m : nat) : Env :=
  {| now := mkTime h m;
     Date_now := 1767348000000;
     toISOString := "2026-01-02T10:00:00.000Z";
     random_suffix := "k3x9qa";
     writeOk := true |}.

Definition morning_stamp : string := "2026-01-02T09:15:00.000Z".
Definition evening_stamp : string := "2026-01-02T22:40:00.000Z".

(** An attendance request with the descriptor [fd], stamped [stamp]. *)
Definition scan (fd : list JsElem) (stamp : string) (session sessionType : option string)
    : MarkBody :=
  {| faceDescriptor := VArr fd;
     timestamp := Some stamp;
     session := session;
     sessionType := sessionType |}.

(** A stored attendance record of [student], stamped [stamp]. *)
Definition attended (student : Student.t) (stamp session sessionType : string)
    : Attendance.t :=
  {| Attendance.id := "att_1767250800000";
     Attendance.studentId := Student.studentId student;
     Attendance.studentName := Student.name student;
     Attendance.studentClass := Student.class student;
     Attendance.timestamp := stamp;
     Attendance.date := slice0 10 stamp;
     Attendance.session := session;
     Attendance.sessionType := sessionType;
     Attendance.status := "present";
     Attendance.confidence := 97;
     Attendance.createdAt := stamp |}.

(** A stored meal record of [student], stamped [stamp]. *)
Definition served (student : Student.t) (stamp : string) : Meal.t :=
  {| Meal.id := "MEAL_1767268800000_p0q1r2";
     Meal.studentId := Student.studentId student;
     Meal.studentName := Student.name student;
     Meal.studentClass := Student.class student;
     Meal.date := split_T_0 stamp;
     Meal.timestamp := stamp;
     Meal.status := "served";
     Meal.createdAt := stamp;
     Meal.ip := "::1";
     Meal.userAgent := "Unknown" |}.

(** A student who has left: the identifier of [ann], not active. *)
Definition former : Student.t :=
  {| Student.studentId := "S001";
     Student.name := "Anna";
     Student.class := "4";
     Student.status := "inactive";
     Student.faceData := None |}.

(** A document with records of other students, other dates and other
    sessions: [bob] on the morning and at the meal of 2 January, [ann] on the
    morning and at the meal of 1 January and on the afternoon of 2 January. *)
Definition busy : Database.t :=
  {| Database.students := [bob; former; ann];
     Database.attendance :=
       [ attended bob "2026-01-02T08:55:00.000Z" "Morning Session" "morning";
         attended ann "2026-01-01T09:05:00.000Z" "Morning Session" "morning";
         attended ann "2026-01-02T14:30:00.000Z" "Afternoon Session" "afternoon" ];
     Database.meals :=
       [ served bob "2026-01-02T12:10:00.000Z";
         served ann "2026-01-01T12:20:00.000Z" ];
     Database.settings := {| Settings.recognitionThreshold := None |};
     Database.statistics :=
       {| Statistics.totalAttendance := Some 3;
          Statistics.totalMealsServed := Some 2;
          Statistics.lastUpdated := None |} |}.

(** A meal request for [studentId], stamped [stamp]. *)
Definition meal_request (studentId stamp : string) : MealBody.t :=
  {| MealBody.studentId := Some studentId;
     MealBody.timestamp := Some stamp;
     MealBody.ip := "::1";
     MealBody.userAgent := None |}.

(** The document after four meal requests on a school of two: [ann] on
    1 January, [ann] and [bob] on 2 January, and [ann] a second time on
    2 January. *)
Definition lunches : Database.t :=
  snd (post_meal_mark (at_time 12 40) (meal_request "S001" "2026-01-02T12:40:00.000Z")
    (snd (post_meal_mark (at_time 12 10) (meal_request "S002" "2026-01-02T12:10:00.000Z")
      (snd (post_meal_mark (at_time 12 5) (meal_request "S001" "2026-01-02T12:05:00.000Z")
        (snd (post_meal_mark (at_time 12 20) (meal_request "S001" "2026-01-01T12:20:00.000Z")
          (fresh None [ann; bob])))))))).

End Sample.

(* ================================================================== *)
(** * The method [findBestMatch] of [FaceRecognitionUtils] *)
(* ================================================================== *)

Module ClassMatcher.

(** The object that the method returns; [match_] is its property [match]. *)
Record Best : Type := mkBest {
  found : bool;
  match_ : option FaceRecognitionUtils.Comparison;
  index : Z;
  totalCompared : nat;
  threshold : float
}.

(** The three variables that the callback of [forEach] updates. *)
Record Vars : Type := mkVars {
  bestMatch : option FaceRecognitionUtils.Comparison;
  minDistance : float;
  bestIndex : Z
}.

(** The callback, on one stored descriptor: [compareFaces] may throw. *)
Definition callback (recognitionThreshold useThreshold : float) (targetDescriptor : JsValue)
    (vars : Vars) (storedDescriptor : JsValue) (index : Z)
    : FaceRecognitionUtils.result Vars :=
  match FaceRecognitionUtils.compareFaces recognitionThreshold targetDescriptor
          storedDescriptor with
  | FaceRecognitionUtils.Throw message => FaceRecognitionUtils.Throw message
  | FaceRecognitionUtils.Return comparison =>
      FaceRecognitionUtils.Return
        (if (FaceRecognitionUtils.distance comparison <? minDistance vars)
            && (FaceRecognitionUtils.distance comparison <? useThreshold)
         then {| bestMatch := Some comparison;
                 minDistance := FaceRecognitionUtils.distance comparison;
                 bestIndex := index |}
         else vars)
  end.

(** [storedDescriptors.forEach], from the position [index] on: an error
    thrown by the callback ends the loop. *)
Fixpoint forEach (recognitionThreshold useThreshold : float) (targetDescriptor : JsValue)
    (storedDescriptors : list JsValue) (index : Z) (vars : Vars)
    : FaceRecognitionUtils.result Vars :=
  match storedDescriptors with
  | [] => FaceRecognitionUtils.Return vars
  | storedDescriptor :: rest =>
      match callback recognitionThreshold useThreshold targetDescriptor vars
              storedDescriptor index with
      | FaceRecognitionUtils.Throw message => FaceRecognitionUtils.Throw message
      | FaceRecognitionUtils.Return vars' =>
          forEach recognitionThreshold useThreshold targetDescriptor rest (index + 1)%Z vars'
      end
  end.

(** [findBestMatch(targetDescriptor, storedDescriptors, threshold = null)];
    [recognitionThreshold] is the field of [this], and the [catch] block
    throws the error again. *)
Definition findBestMatch (recognitionThreshold : float) (targetDescriptor : JsValue)
    (storedDescriptors : list JsValue) (threshold : option float)
    : FaceRecognitionUtils.result Best :=
  let useThreshold := or_number threshold recognitionThreshold in
  match forEach recognitionThreshold useThreshold targetDescriptor storedDescriptors 0%Z
          {| bestMatch := None; minDistance := Infinity; bestIndex := (-1)%Z |} with
  | FaceRecognitionUtils.Throw message => FaceRecognitionUtils.Throw message
  | FaceRecognitionUtils.Return vars =>
      FaceRecognitionUtils.Return
        {| found := match bestMatch vars with Some _ => true | None => false end;
           match_ := bestMatch vars;
           index := bestIndex vars;
           totalCompared := List.length storedDescriptors;
           threshold := useThreshold |}
  end.

(** [setRecognitionThreshold(threshold)]: the new value of the field
    [recognitionThreshold] of [this], or the error. *)
Definition setRecognitionThreshold (threshold : float) : FaceRecognitionUtils.result float :=
  if (threshold <? 0) || (1 <? threshold)
  then FaceRecognitionUtils.Throw "Threshold must be between 0 and 1"
  else FaceRecognitionUtils.Return threshold.

End ClassMatcher.

(* ================================================================== *)
(** * The batch of images ([extractDescriptor], [processFaceImages]) *)
(* ================================================================== *)

Module ImageBatch.

Section Detector.

(** The image buffers, and [detectFaces] on a buffer: the descriptors of the
    faces it finds, or an error. *)
Variable Buffer : Type.
Variable detectFaces : Buffer -> FaceRecognitionUtils.result (list (list float)).

(** [extractDescriptor]: the descriptor of the first face. *)
Definition extractDescriptor (imageBuffer : Buffer) : FaceRecognitionUtils.result (list float) :=
  match detectFaces imageBuffer with
  | FaceRecognitionUtils.Throw message => FaceRecognitionUtils.Throw message
  | FaceRecognitionUtils.Return faces =>
      match faces with
      | [] => FaceRecognitionUtils.Throw "No face detected in the image"
      | face :: _ => FaceRecognitionUtils.Return face
      end
  end.

(** The object that [processFaceImages] returns; an error is the index of
    the image and the message. *)
Record Processed : Type := mkProcessed {
  descriptors : list (list float);
  successful : nat;
  failed : nat;
  errors : list (nat * string)
}.

(** The [for] loop, from the image [i] on: the two arrays it fills. *)
Fixpoint process_loop (imageBuffers : list Buffer) (i : nat)
    (descriptors : list (nat * list float)) (errors : list (nat * string))
    : list (nat * list float) * list (nat * string) :=
  match imageBuffers with
  | [] => (descriptors, errors)
  | imageBuffer :: rest =>
      match extractDescriptor imageBuffer with
      | FaceRecognitionUtils.Return descriptor =>
          process_loop rest (S i) (descriptors ++ [(i, descriptor)]) errors
      | FaceRecognitionUtils.Throw message =>
          process_loop rest (S i) descriptors (errors ++ [(i, message)])
      end
  end.

Definition processFaceImages (imageBuffers : list Buffer) : Processed :=
  let (descriptors, errors) := process_loop imageBuffers 0 [] [] in
  {| descriptors := map snd descriptors;
     successful := List.length descriptors;
     failed := List.length errors;
     errors := errors |}.

End Detector.

End ImageBatch.

(* ================================================================== *)
(** * The meal statistics ([GET /api/meal/stats], [server.js]) *)
(* ================================================================== *)

Module MealStats.
Record t : Type := mk {
  date : string;
  totalStudents : float;
  mealsServedToday : float;
  mealsRemaining : float;
  mealRate : float;
  totalMealsServedAllTime : float
}.
End MealStats.

(** The property [length] of an array, a number. *)
Definition length_number {A : Type} (l : list A) : float := JS.of_Z (Z.of_nat (List.length l)).

Definition is_active (s : Student.t) : bool := String.eqb (Student.status s) "active".

Definition on_date (targetDate : string) (meal : Meal.t) : bool :=
  String.eqb (Meal.date meal) targetDate.

(** The handler, for the query parameter [date]. *)
Definition get_meal_stats (env : Env) (date : option string) (db : Database.t) : MealStats.t :=
  let targetDate := or_string date (split_T_0 (toISOString env)) in
  let totalStudents := length_number (filter is_active (Database.students db)) in
  let mealsServedToday := length_number (filter (on_date targetDate) (Database.meals db)) in
  let mealRate :=
    if 0 <? totalStudents then Math_round ((mealsServedToday / totalStudents) * 100) else 0 in
  {| MealStats.date := targetDate;
     MealStats.totalStudents := totalStudents;
     MealStats.mealsServedToday := mealsServedToday;
     MealStats.mealsRemaining := Math_max 0 (totalStudents - mealsServedToday);
     MealStats.mealRate := mealRate;
     MealStats.totalMealsServedAllTime :=
       or_number (Statistics.totalMealsServed (Database.statistics db)) 0 |}.

(* ================================================================== *)
(** * The pages of the browser ([js/attendance.js], the meal page) *)
(* ================================================================== *)

Module Client.

(** [timeSlots] of the attendance page: afternoon is declared before meal. *)
Definition timeSlots : list (string * Slot) :=
  [ ("morning",   {| slot_start := "08:00"; slot_end := "12:00"; slot_name := "Morning Session" |});
    ("afternoon", {| slot_start := "13:00"; slot_end := "17:00"; slot_name := "Afternoon Session" |});
    ("meal",      {| slot_start := "12:00"; slot_end := "13:00"; slot_name := "Mid-Day Meal" |}) ].

(** The [for] loop of [getCurrentSession], and its default after the loop. *)
Fixpoint session_loop (entries : list (string * Slot)) (currentTime : string) : TimeSlot :=
  match entries with
  | [] => {| slot_type := "morning"; name := "Morning Session"; active := false |}
  | (key, slot) :: rest =>
      if String.leb (slot_start slot) currentTime && String.leb currentTime (slot_end slot)
      then {| slot_type := key; name := slot_name slot; active := true |}
      else session_loop rest currentTime
  end.

Definition getCurrentSession (now : TimeOfDay) : TimeSlot :=
  session_loop timeSlots (toTimeString_slice_0_5 now).

(** A number as [JSON.stringify] sends it and [JSON.parse] reads it: NaN
    and the infinities become [null], and [-0] becomes [0]. *)
Definition JSON_number (x : float) : JsElem :=
  if isNaN x || (abs x =? Infinity) then ENull
  else if x =? 0 then ENum 0
  else ENum x.

(** The body that [processAttendance] posts; [iso] is
    [new Date().toISOString()] and [now] the local time of the browser. *)
Definition attendancePayload (faceDescriptor : list float) (iso : string) (now : TimeOfDay)
    : MarkBody :=
  let currentSession := getCurrentSession now in
  {| faceDescriptor := VArr (map JSON_number faceDescriptor);
     timestamp := Some iso;
     session := Some (name currentSession);
     sessionType := Some (slot_type currentSession) |}.

(** The body that [processMealDistribution] posts to the attendance route. *)
Definition verificationPayload (faceDescriptor : list float) (iso : string) : MarkBody :=
  {| faceDescriptor := VArr (map JSON_number faceDescriptor);
     timestamp := Some iso;
     session := Some "Mid-Day Meal";
     sessionType := Some "meal" |}.

(** What the meal page shows in the end. *)
Inductive MealScreen : Type :=
| MealSuccess (studentName studentId : string) (mealRecord : Meal.t)
| MealError (message : string).

(** [processMealDistribution] with the server answering both requests:
    [envVerify] and [envMeal] are the environments of the two handlers,
    [iso1] and [iso2] the two timestamps of the page, [ip] and [userAgent]
    what the server sees of the second request. *)
Definition processMealDistribution (envVerify envMeal : Env) (iso1 iso2 : string)
    (ip : string) (userAgent : option string) (faceDescriptor : list float)
    (db : Database.t) : MealScreen * Database.t :=
  let (verifyResult, db1) := post_mark envVerify (verificationPayload faceDescriptor iso1) db in
  let recognized :=
    match verifyResult with
    | Marked studentName studentId _ _ _ => Some (studentName, studentId)
    | AlreadyMarked studentName studentId _ _ => Some (studentName, studentId)
    | _ => None
    end in
  match recognized with
  | Some (studentName, studentId) =>
      let mealPayload :=
        {| MealBody.studentId := Some studentId;
           MealBody.timestamp := Some iso2;
           MealBody.ip := ip;
           MealBody.userAgent := userAgent |} in
      let (mealResult, db2) := post_meal_mark envMeal mealPayload db1 in
      match mealResult with
      | MealAlreadyMarked _ _ =>
          (MealError (studentName ++ " has already received meal today.")%string, db2)
      | MealServed mealRecord _ => (MealSuccess studentName studentId mealRecord, db2)
      | MealBadRequest message | MealNotFound message | MealSaveFailed message =>
          (MealError ("Failed to process meal distribution: "
                      ++ or_string (Some message) "Failed to record meal distribution")%string,
           db2)
      end
  | None =>
      (MealError "Student not recognized. Please ensure student is registered in the system.",
       db1)
  end.

End Client.

(** How the variables of the loop of [ClassMatcher.findBestMatch] stand to
    the accumulator of the loop of [findBestMatch] on the descriptors [all]
    of [student]: nothing selected on either side, or the same distance
    selected, which is the distance of the probe [target] to the stored
    descriptor at the position [bestIndex]. *)
Definition matchers_related (target : list JsElem) (all : list (list JsElem))
    (student : Student.t) (vars : ClassMatcher.Vars) (acc : MatchResult) : Prop :=
  (ClassMatcher.bestMatch vars = None
   /\ ClassMatcher.minDistance vars = Infinity
   /\ ClassMatcher.bestIndex vars = (-1)%Z
   /\ acc = (None, None))
  \/
  (exists c b k d,
      ClassMatcher.bestMatch vars = Some c
      /\ ClassMatcher.minDistance vars = distance b
      /\ ClassMatcher.bestIndex vars = Z.of_nat k
      /\ acc = (Some b, Some student)
      /\ nth_error all k = Some d
      /\ distance b = euclideanDistance (Some target) (Some d)
      /\ FaceRecognitionUtils.distance c = distance b
      /\ FaceRecognitionUtils.confidence c = Math_round (Math_max 0 ((1 - distance b) * 100))).

(** The record that [markAttendance] builds when it finds none. *)
Definition new_attendance (env : Env) (matchedStudent : Student.t) (bestMatch : BestMatch)
    (timestamp : string) (session sessionType : option string) : Attendance.t :=
  let slot := getCurrentTimeSlot (now env) in
  {| Attendance.id := ("att_" ++ decimal (Date_now env))%string;
     Attendance.studentId := Student.studentId matchedStudent;
     Attendance.studentName := Student.name matchedStudent;
     Attendance.studentClass := Student.class matchedStudent;
     Attendance.timestamp := timestamp;
     Attendance.date := slice0 10 timestamp;
     Attendance.session := or_string session (name slot);
     Attendance.sessionType := or_string sessionType (slot_type slot);
     Attendance.status := "present";
     Attendance.confidence := confidence bestMatch;
     Attendance.createdAt := toISOString env |}.

(** The record that [markMeal] builds when it finds none. *)
Definition new_meal (env : Env) (student : Student.t) (studentId timestamp : string)
    (ip : string) (userAgent : option string) : Meal.t :=
  {| Meal.id := ("MEAL_" ++ decimal (Date_now env) ++ "_" ++ random_suffix env)%string;
     Meal.studentId := studentId;
     Meal.studentName := Student.name student;
     Meal.studentClass := Student.class student;
     Meal.date := split_T_0 timestamp;
     Meal.timestamp := timestamp;
     Meal.status := "served";
     Meal.createdAt := toISOString env;
     Meal.ip := ip;
     Meal.userAgent := or_string userAgent "Unknown" |}.

(** The slots of the attendance page, by times of day. *)
Definition client_boundaries : list SlotConfig :=
  [ {| cfg_key := "morning"; cfg_name := "Morning Session";
       cfg_start := mkTime 8 0; cfg_end := mkTime 12 0 |};
    {| cfg_key := "afternoon"; cfg_name := "Afternoon Session";
       cfg_start := mkTime 13 0; cfg_end := mkTime 17 0 |};
    {| cfg_key := "meal"; cfg_name := "Mid-Day Meal";
       cfg_start := mkTime 12 0; cfg_end := mkTime 13 0 |} ].

(* ================================================================== *)
(** * Registration ([routes/register.js]) *)
(* ================================================================== *)

Module Register.

(** Strings are sequences of code units below 256.  The white space that
    [trim] removes, among them: tab, line feed, vertical tab, form feed,
    carriage return, space and no-break space. *)
Definition is_space (c : ascii) : bool :=
  let n := nat_of_ascii c in
  ((9 <=? n) && (n <=? 13) || (n =? 32) || (n =? 160))%nat.

Fixpoint trimStart (s : string) : string :=
  match s with
  | EmptyString => EmptyString
  | String c r => if is_space c then trimStart r else s
  end.

Fixpoint trimEnd (s : string) : string :=
  match s with
  | EmptyString => EmptyString
  | String c r =>
      let r' := trimEnd r in
      if is_space c && String.eqb r' "" then EmptyString else String c r'
  end.

Definition trim (s : string) : string := trimEnd (trimStart s).

(** [toLowerCase] on a code unit below 256: the letters A to Z, and the
    capital letters of Latin-1 (the multiplication sign is not one). *)
Definition lower_char (c : ascii) : ascii :=
  let n := nat_of_ascii c in
  if ((65 <=? n) && (n <=? 90) || (192 <=? n) && (n <=? 222) && negb (n =? 215))%nat
  then ascii_of_nat (n + 32)
  else c.

Fixpoint toLowerCase (s : string) : string :=
  match s with
  | EmptyString => EmptyString
  | String c r => String (lower_char c) (toLowerCase r)
  end.

(** The class [[A-Za-z0-9]]. *)
Definition alnum (c : ascii) : bool :=
  let n := nat_of_ascii c in
  ((48 <=? n) && (n <=? 57) || (65 <=? n) && (n <=? 90) || (97 <=? n) && (n <=? 122))%nat.

Fixpoint all_alnum (s : string) : bool :=
  match s with
  | EmptyString => true
  | String c r => alnum c && all_alnum r
  end.

(** [/^[A-Za-z0-9]{3,10}$/.test(s)] *)
Definition test_studentId (s : string) : bool :=
  ((3 <=? String.length s) && (String.length s <=? 10))%nat && all_alnum s.

(** [data.faceData] *)
Record FaceDataIn : Type := mkFaceDataIn {
  descriptors : option (list JsValue);     (* an array, when it is there *)
  confidence : option float
}.

(** [req.body] of the registration; [class] is taken as a string. *)
Record Body : Type := mkBody {
  name : option string;
  studentId : option string;
  class : option string;
  parentName : option string;
  faceData : option FaceDataIn
}.

Definition classes : list string := ["1"; "2"; "3"; "4"; "5"; "6"; "7"; "8"; "9"; "10"].

(** [Array.isArray(d) && d.length === 128] *)
Definition array_of_128 (d : JsValue) : bool :=
  match d with
  | VArr elems => (List.length elems =? 128)%nat
  | _ => false
  end.

(** The [for] loop over the descriptors, from the index [i] on: the message
    for the first descriptor that is refused, then [break]. *)
Fixpoint descriptor_errors (ds : list JsValue) (i : nat) : list string :=
  match ds with
  | [] => []
  | d :: rest =>
      if negb (array_of_128 d)
      then [("Descriptor " ++ decimal (N.of_nat (i + 1)) ++ " must be an array of 128 numbers.")%string]
      else descriptor_errors rest (S i)
  end.

Definition too_short (field : option string) : bool :=
  negb (truthy_opt field)
  || match field with
     | Some s => (String.length (trim s) <? 2)%nat
     | None => true
     end.

Definition validateStudentData (data : Body) : list string :=
  (if too_short (name data) then ["Name must be at least 2 characters."] else [])
  ++ (if negb (truthy_opt (studentId data))
         || match studentId data with
            | Some s => negb (test_studentId (trim s))
            | None => true
            end
      then ["Student ID must be 3-10 alphanumeric."] else [])
  ++ (if negb (truthy_opt (class data))
         || match class data with
            | Some c => negb (existsb (String.eqb c) classes)
            | None => true
            end
      then ["Class must be between 1 and 10."] else [])
  ++ (if too_short (parentName data)
      then ["Parent/Guardian name must be at least 2 characters."] else [])
  ++ (if match faceData data with
         | Some fd =>
             match descriptors fd with
             | Some ds => (List.length ds =? 0)%nat
             | None => true
             end
         | None => true
         end
      then ["Face descriptors are required."] else [])
  ++ match faceData data with
     | Some fd =>
         match descriptors fd with
         | Some ds => descriptor_errors ds 0
         | None => []
         end
     | None => []
     end.

(** The callback of [db.students.some], in both routes. *)
Definition same_id_active (studentId : string) (s : Student.t) : bool :=
  String.eqb (toLowerCase (Student.studentId s)) (toLowerCase studentId)
  && String.eqb (Student.status s) "active".

Inductive CheckResponse : Type :=
| CheckBadRequest (message : string)      (* status 400 *)
| CheckAnswer (exists_ : bool).           (* success: true, exists *)

(** The route [POST /api/register/check]. *)
Definition post_check (studentId : option string) (db : Database.t) : CheckResponse :=
  if negb (truthy_opt studentId) then CheckBadRequest "Student ID is required."
  else
    match studentId with
    | Some studentId => CheckAnswer (existsb (same_id_active studentId) (Database.students db))
    | None => CheckBadRequest "Student ID is required."
    end.

Inductive Response : Type :=
| ValidationFailed (errors : list string)
    (* status 400 *)
| AlreadyExists
    (* status 409 *)
| SaveFailed
    (* status 500 *)
| Registered (id name studentId class parentName registrationTimestamp : string).
    (* status 201 *)

(** A stored descriptor as the matcher reads it. *)
Definition as_descriptor (d : JsValue) : Descriptor :=
  match d with
  | VArr elems => Some elems
  | _ => None
  end.

(** [newStudent], with the properties that the matcher and the two ledgers
    read. *)
Definition newStudent (name studentId class : string) (ds : list JsValue) : Student.t :=
  {| Student.studentId := trim studentId;
     Student.name := trim name;
     Student.class := class;
     Student.status := "active";
     Student.faceData := Some {| FaceData.descriptors := Some (map as_descriptor ds) |} |}.

Definition push_student (student : Student.t) (db : Database.t) : Database.t :=
  {| Database.students := Database.students db ++ [student];
     Database.attendance := Database.attendance db;
     Database.meals := Database.meals db;
     Database.settings := Database.settings db;
     Database.statistics := Database.statistics db |}.

(** The route [POST /api/register]: the answer and the stored document.
    The counter [statistics.totalRegistrations], which nothing else reads,
    is not a field of [Statistics.t]. *)
Definition post_register (env : Env) (data : Body) (stored : Database.t)
    : Response * Database.t :=
  match validateStudentData data with
  | (_ :: _) as validationErrors => (ValidationFailed validationErrors, stored)
  | [] =>
      match name data, studentId data, class data, parentName data, faceData data with
      | Some name, Some studentId, Some class, Some parentName, Some fd =>
          match descriptors fd with
          | Some ds =>
              if existsb (same_id_active studentId) (Database.students stored)
              then (AlreadyExists, stored)
              else if negb (writeOk env) then (SaveFailed, stored)
              else
                (Registered
                   ("stu_" ++ decimal (Date_now env) ++ "_" ++ random_suffix env)%string
                   (trim name) (trim studentId) class (trim parentName) (toISOString env),
                 push_student (newStudent name studentId class ds) stored)
          | None => (ValidationFailed [], stored)
          end
      | _, _, _, _, _ => (ValidationFailed [], stored)
      end
  end.

(** No two active students have the same identifier up to the case. *)
Definition ids_unique (students : list Student.t) : Prop :=
  NoDup (map (fun s => toLowerCase (Student.studentId s)) (filter is_active students)).

(** Some code unit of [s] is white space. *)
Fixpoint has_space (s : string) : bool :=
  match s with
  | EmptyString => false
  | String c r => is_space c || has_space r
  end.

End Register.

(** [Number.isFinite] of the number that an element of a descriptor stands
    for: it is neither NaN nor an infinity. *)
Definition finite_element (v : JsElem) : bool :=
  match Prim2SF (ToNumber v) with
  | S754_zero _ | S754_finite _ _ _ => true
  | _ => false
  end.

(* ================================================================== *)
(** * The registration page ([proceedToCapture], [captureImage], [registerFace]) *)
(* ================================================================== *)

Module RegisterPage.

(** An element of [capturedImages], with the two properties that are sent. *)
Record Captured : Type := mkCaptured {
  descriptor : list float;      (* Array.from(faceDescriptor) *)
  confidence : float            (* detections[0].detection.score *)
}.

(** [capturedImages.reduce((sum, img) => sum + img.confidence, 0)
     / capturedImages.length] *)
Definition mean_confidence (capturedImages : list Captured) : float :=
  fold_left (fun sum img => sum + confidence img) capturedImages 0
  / length_number capturedImages.

(** [registrationData] as the server reads it after [JSON.stringify] and
    [JSON.parse]: [studentData] holds the values of the four fields of the
    form, trimmed but for the class. *)
Definition registrationData (studentName studentId studentClass parentName : string)
    (capturedImages : list Captured) : Register.Body :=
  {| Register.name := Some (Register.trim studentName);
     Register.studentId := Some (Register.trim studentId);
     Register.class := Some studentClass;
     Register.parentName := Some (Register.trim parentName);
     Register.faceData :=
       Some {| Register.descriptors :=
                 Some (map (fun img => VArr (map Client.JSON_number (descriptor img)))
                           capturedImages);
               Register.confidence :=
                 match Client.JSON_number (mean_confidence capturedImages) with
                 | ENum x => Some x
                 | _ => None
                 end |} |}.

End RegisterPage.

(** A registration form and a school, for the examples. *)
Module Enrolment.

Definition form (studentId : string) (d : list JsElem) : Register.Body :=
  {| Register.name := Some "Dan";
     Register.studentId := Some studentId;
     Register.class := Some "7";
     Register.parentName := Some "Pat";
     Register.faceData :=
       Some {| Register.descriptors := Some [VArr d]; Register.confidence := None |} |}.

Definition school : Database.t := Sample.fresh (Some 0.6) [Sample.ann; Sample.bob].

End Enrolment.

(* ================================================================== *)
(** * The order of the numbers *)
(* ================================================================== *)

Module FloatOrder.

Ltac cmp_cases :=
  repeat match goal with
  | |- context [Z.compare ?a ?b] => destruct (Z.compare_spec a b)
  | H : context [Z.compare ?a ?b] |- _ => destruct (Z.compare_spec a b)
  | |- context [Pos.compare ?a ?b] => destruct (Pos.compare_spec a b)
  | H : context [Pos.compare ?a ?b] |- _ => destruct (Pos.compare_spec a b)
  end.

Ltac by_sign s := destruct s; simpl; try reflexivity; try discriminate; try congruence.

Lemma SFcompare_antisym (a b : spec_float) :
  SFcompare a b = option_map CompOpp (SFcompare b a).
Proof.
  destruct a as [sa|sa| |sa ma ea], b as [sb|sb| |sb mb eb]; simpl;
    try reflexivity; try (by_sign sa; fail); try (by_sign sb; fail);
    try (destruct sa; by_sign sb; fail).
  change (Pos.compare_cont Eq) with Pos.compare.
  destruct sa, sb; try reflexivity;
    destruct (Z.compare_spec ea eb), (Z.compare_spec eb ea);
    simpl; try reflexivity; try lia;
    destruct (Pos.compare_spec ma mb), (Pos.compare_spec mb ma);
    simpl; try reflexivity; lia.
Qed.

Lemma SFcompare_lt_trans (a b c : spec_float) :
  SFcompare a b = Some Lt -> SFcompare b c = Some Lt -> SFcompare a c = Some Lt.
Proof.
  destruct a as [sa|sa| |sa ma ea], b as [sb|sb| |sb mb eb], c as [sc|sc| |sc mc ec];
    simpl; try discriminate;
    try (destruct sa; try discriminate); try (destruct sb; try discriminate);
    try (destruct sc; try discriminate); try reflexivity; try discriminate;
    change (Pos.compare_cont Eq) with Pos.compare; intros H1 H2;
    injection H1 as H1; injection H2 as H2; f_equal;
    cmp_cases; simpl in *; try discriminate; try reflexivity; subst; try lia.
Qed.

Lemma SFcompare_lt_eq_trans (a b c : spec_float) :
  SFcompare a b = Some Lt -> SFcompare b c = Some Eq -> SFcompare a c = Some Lt.
Proof.
  destruct a as [sa|sa| |sa ma ea], b as [sb|sb| |sb mb eb], c as [sc|sc| |sc mc ec];
    simpl; try discriminate;
    try (destruct sa; try discriminate); try (destruct sb; try discriminate);
    try (destruct sc; try discriminate); try reflexivity; try discriminate;
    change (Pos.compare_cont Eq) with Pos.compare; intros H1 H2;
    injection H1 as H1; injection H2 as H2; f_equal;
    cmp_cases; simpl in *; try discriminate; try reflexivity; subst; try lia.
Qed.

Lemma ltb_trans (x y z : float) :
  (x <? y) = true -> (y <? z) = true -> (x <? z) = true.
Proof.
  rewrite !FloatAxioms.ltb_spec. unfold SFltb. intros H1 H2.
  destruct (SFcompare (Prim2SF x) (Prim2SF y)) as [[| |]|] eqn:E1; try discriminate.
  destruct (SFcompare (Prim2SF y) (Prim2SF z)) as [[| |]|] eqn:E2; try discriminate.
  now rewrite (SFcompare_lt_trans _ _ _ E1 E2).
Qed.

Lemma ltb_leb_trans (x y z : float) :
  (x <? y) = true -> (y <=? z) = true -> (x <? z) = true.
Proof.
  rewrite !FloatAxioms.ltb_spec, FloatAxioms.leb_spec. unfold SFltb, SFleb. intros H1 H2.
  destruct (SFcompare (Prim2SF x) (Prim2SF y)) as [[| |]|] eqn:E1; try discriminate.
  destruct (SFcompare (Prim2SF y) (Prim2SF z)) as [[| |]|] eqn:E2; try discriminate.
  - now rewrite (SFcompare_lt_eq_trans _ _ _ E1 E2).
  - now rewrite (SFcompare_lt_trans _ _ _ E1 E2).
Qed.

Lemma ltb_irrefl (x : float) : (x <? x) = false.
Proof.
  rewrite FloatAxioms.ltb_spec. unfold SFltb.
  pose proof (SFcompare_antisym (Prim2SF x) (Prim2SF x)) as H.
  destruct (SFcompare (Prim2SF x) (Prim2SF x)) as [[| |]|]; simpl in H; congruence.
Qed.

Lemma ltb_leb (x y : float) : (x <? y) = true -> (x <=? y) = true.
Proof.
  rewrite FloatAxioms.ltb_spec, FloatAxioms.leb_spec. unfold SFltb, SFleb.
  destruct (SFcompare (Prim2SF x) (Prim2SF y)) as [[| |]|]; congruence.
Qed.

Lemma ltb_ordered_l (x y : float) : (x <? y) = true -> ordered x.
Proof.
  unfold ordered. rewrite FloatAxioms.ltb_spec, FloatAxioms.leb_spec.
  unfold SFltb, SFleb.
  destruct (Prim2SF x) as [sx|sx| |sx mx ex]; try discriminate; intros _.
  - reflexivity.
  - now destruct sx.
  - simpl. change (Pos.compare_cont Eq) with Pos.compare.
    rewrite Z.compare_refl, Pos.compare_refl. now destruct sx.
Qed.

Lemma not_ltb_leb (x y : float) :
  ordered x -> ordered y -> (x <? y) = false -> (y <=? x) = true.
Proof.
  unfold ordered. rewrite FloatAxioms.ltb_spec, !FloatAxioms.leb_spec.
  unfold SFltb, SFleb.
  rewrite (SFcompare_antisym (Prim2SF y) (Prim2SF x)).
  destruct (Prim2SF x) as [sx|sx| |sx mx ex], (Prim2SF y) as [sy|sy| |sy my ey];
    simpl; try discriminate; intros _ _;
    try (destruct sx; simpl; congruence); try (destruct sy; simpl; congruence);
    try (destruct sx, sy; simpl; congruence).
  destruct sx, sy; simpl; try congruence;
  destruct (ex ?= ey)%Z; simpl; try congruence;
  destruct (Pos.compare_cont Eq mx my); simpl; congruence.
Qed.

(** Nothing is above [Infinity]. *)
Lemma Infinity_not_below (t : float) : (Infinity <? t) = false.
Proof.
  rewrite FloatAxioms.ltb_spec. unfold SFltb.
  change (Prim2SF Infinity) with (S754_infinity false).
  destruct (Prim2SF t) as [s|s| |s m e]; simpl; try reflexivity; now destruct s.
Qed.


End FloatOrder.

(* ================================================================== *)
(** * The matcher *)
(* ================================================================== *)

Section Matcher.

Variable inputDescriptor : Descriptor.
Variable threshold : float.

Lemma inner_loop_pairs (student : Student.t) (ds : list Descriptor) (acc : MatchResult) :
  fold_left (try_descriptor inputDescriptor threshold student) ds acc
  = fold_left (consider inputDescriptor threshold) (map (pair student) ds) acc.
Proof.
  revert acc. induction ds as [|d ds IH]; intros acc; simpl; [reflexivity|].
  apply IH.
Qed.

Lemma try_student_pairs (acc : MatchResult) (student : Student.t) :
  try_student inputDescriptor threshold acc student
  = fold_left (consider inputDescriptor threshold)
              (map (pair student) (stored_descriptors student)) acc.
Proof.
  unfold try_student, stored_descriptors.
  destruct (String.eqb (Student.status student) "active"); simpl; [|reflexivity].
  destruct (Student.faceData student) as [fd|]; [|reflexivity].
  destruct (FaceData.descriptors fd) as [ds|]; [|reflexivity].
  apply inner_loop_pairs.
Qed.

(** The two nested loops are one scan of [candidate_pairs]. *)
Lemma findBestMatch_pairs (students : list Student.t) :
  findBestMatch inputDescriptor students threshold
  = fold_left (consider inputDescriptor threshold) (candidate_pairs students) (None, None).
Proof.
  unfold findBestMatch. generalize (@None BestMatch, @None Student.t).
  induction students as [|s students IH]; intros acc; simpl; [reflexivity|].
  rewrite fold_left_app, <- try_student_pairs. apply IH.
Qed.

(** One turn of the loop: the pair replaces the best match exactly when its
    distance is strictly below the threshold and strictly below the best
    distance so far. *)
Lemma consider_cases (acc : MatchResult) (p : Student.t * Descriptor) :
  let d := dist_to inputDescriptor p in
  let beats :=
    (d <? threshold)
    && match fst acc with
       | None => true
       | Some best => d <? distance best
       end in
  consider inputDescriptor threshold acc p
  = if beats then match_on inputDescriptor p else acc.
Proof. reflexivity. Qed.

Lemma scan_outcome_step (pairs : list (Student.t * Descriptor)) (r : MatchResult)
    (x : Student.t * Descriptor) :
  scan_outcome inputDescriptor threshold pairs r ->
  scan_outcome inputDescriptor threshold (pairs ++ [x])
               (consider inputDescriptor threshold r x).
Proof.
  intros [[Hr Hall] | (pre & p & post & Hpairs & Hr & Hp & Hpre & Hpost)];
    rewrite consider_cases; cbv zeta; subst r.
  - (* no match so far *)
    simpl fst. rewrite andb_true_r.
    destruct (dist_to inputDescriptor x <? threshold) eqn:Hx.
    + right. exists pairs, x, []. repeat split; auto.
      * intros q Hq Hq'. rewrite (Hall q Hq) in Hq'. discriminate.
      * intros q [].
    + left. split; [reflexivity|].
      intros q Hq. apply in_app_or in Hq. destruct Hq as [Hq | [<- | []]]; auto.
  - (* [p] is the best so far *)
    simpl fst. simpl distance.
    destruct (dist_to inputDescriptor x <? threshold) eqn:Hx; simpl andb.
    + destruct (dist_to inputDescriptor x <? dist_to inputDescriptor p) eqn:Hxp.
      * right. exists pairs, x, []. repeat split; auto.
        -- intros q Hq Hq'. subst pairs. apply in_app_or in Hq.
           destruct Hq as [Hq | [<- | Hq]].
           ++ eapply FloatOrder.ltb_trans; [exact Hxp | auto].
           ++ exact Hxp.
           ++ eapply FloatOrder.ltb_leb_trans; [exact Hxp |].
              apply FloatOrder.not_ltb_leb; eauto using FloatOrder.ltb_ordered_l.
        -- intros q [].
      * right. exists pre, p, (post ++ [x]). subst pairs.
        rewrite <- app_assoc. repeat split; auto.
        intros q Hq Hq'. apply in_app_or in Hq. destruct Hq as [Hq | [<- | []]]; auto.
    + right. exists pre, p, (post ++ [x]). subst pairs.
      rewrite <- app_assoc. repeat split; auto.
      intros q Hq Hq'. apply in_app_or in Hq. destruct Hq as [Hq | [<- | []]]; auto.
      congruence.
Qed.

Lemma scan_outcome_fold (pairs : list (Student.t * Descriptor)) :
  scan_outcome inputDescriptor threshold pairs
    (fold_left (consider inputDescriptor threshold) pairs (None, None)).
Proof.
  induction pairs as [|x pairs IH] using rev_ind.
  - left. split; [reflexivity|]. intros q [].
  - rewrite fold_left_app. simpl. now apply scan_outcome_step.
Qed.

Lemma findBestMatch_outcome (students : list Student.t) :
  scan_outcome inputDescriptor threshold (candidate_pairs students)
    (findBestMatch inputDescriptor students threshold).
Proof. rewrite findBestMatch_pairs. apply scan_outcome_fold. Qed.

End Matcher.

Lemma In_candidate_pairs (students : list Student.t) (s : Student.t) (d : Descriptor) :
  In (s, d) (candidate_pairs students)
  <-> In s students
      /\ Student.status s = "active"
      /\ exists fd ds,
           Student.faceData s = Some fd /\ FaceData.descriptors fd = Some ds /\ In d ds.
Proof.
  unfold candidate_pairs. rewrite in_flat_map. split.
  - intros (s' & Hs' & Hin). apply in_map_iff in Hin.
    destruct Hin as (d' & Heq & Hd'). injection Heq as <- <-.
    unfold stored_descriptors in Hd'.
    destruct (String.eqb_spec (Student.status s') "active") as [Hst|]; [|contradiction].
    destruct (Student.faceData s') as [fd|] eqn:Hfd; [|contradiction].
    destruct (FaceData.descriptors fd) as [ds|] eqn:Hds; [|contradiction].
    repeat split; auto. now exists fd, ds.
  - intros (Hs & Hst & fd & ds & Hfd & Hds & Hd).
    exists s. split; [assumption|]. apply in_map.
    unfold stored_descriptors. rewrite Hst, Hfd, Hds. exact Hd.
Qed.

(** C1.  [findBestMatch] looks only at the descriptors of the students whose
    status is ['active'] and whose descriptor set is present, every such pair
    (student, descriptor) in the order of the list; a pair becomes the best
    match exactly when its distance is strictly below the threshold and
    strictly below the best distance so far.  Its result is no match
    exactly when no pair has a distance below the threshold; otherwise it is
    a pair whose distance is strictly below the threshold, strictly below the
    distance of every earlier pair under the threshold, and not strictly
    above the distance of any later one (a later tie does not replace it). *)
Theorem findBestMatch_first_minimum
    (inputDescriptor : Descriptor) (students : list Student.t) (threshold : float) :
  let r := findBestMatch inputDescriptor students threshold in
  let d := fun q : Student.t * Descriptor => euclideanDistance inputDescriptor (snd q) in
  let pairs := candidate_pairs students in
  (forall s x, In (s, x) pairs
      <-> In s students
          /\ Student.status s = "active"
          /\ exists fd ds,
               Student.faceData s = Some fd /\ FaceData.descriptors fd = Some ds /\ In x ds)
  /\ r = fold_left
           (fun acc p =>
              if (d p <? threshold)
                 && match fst acc with
                    | None => true
                    | Some best => d p <? distance best
                    end
              then (Some {| distance := d p; confidence := Math_round ((1 - d p) * 100) |},
                    Some (fst p))
              else acc)
           pairs (None, None)
  /\ (r = (None, None) <-> forall q, In q pairs -> (d q <? threshold) = false)
  /\ (r = (None, None)
      \/ exists pre p post,
           pairs = pre ++ p :: post
           /\ r = (Some {| distance := d p; confidence := Math_round ((1 - d p) * 100) |},
                   Some (fst p))
           /\ (d p <? threshold) = true
           /\ (forall q, In q pre -> (d q <? threshold) = true -> (d p <? d q) = true)
           /\ (forall q, In q post -> (d q <? threshold) = true -> (d q <? d p) = false)).
Proof.
  intros r d pairs.
  split; [intros s x; apply In_candidate_pairs|].
  split; [apply findBestMatch_pairs|].
  pose proof (findBestMatch_outcome inputDescriptor threshold students) as H.
  fold r pairs in H.
  destruct H as [[Hr Hall] | (pre & p & post & Hpairs & Hr & Hp & Hpre & Hpost)].
  - split; [tauto | now left].
  - split.
    + split.
      * intros Hnone. rewrite Hnone in Hr. discriminate.
      * intros Hall. specialize (Hall p). unfold d in Hall. unfold dist_to in Hp.
        rewrite Hall in Hp; [discriminate|].
        fold pairs. rewrite Hpairs. apply in_or_app. right. now left.
    + right. exists pre, p, post. repeat split; assumption.
Qed.

(** C7.  A match at threshold [T] gives a match at every larger threshold
    [T'], at a distance that is not larger. *)
Theorem findBestMatch_threshold_monotone
    (inputDescriptor : Descriptor) (students : list Student.t) (T T' : float)
    (best : BestMatch) (student : Student.t) :
  findBestMatch inputDescriptor students T = (Some best, Some student) ->
  (T <? T') = true ->
  exists best' student',
    findBestMatch inputDescriptor students T' = (Some best', Some student')
    /\ (distance best' <=? distance best) = true.
Proof.
  intros HT Hlt.
  pose proof (findBestMatch_outcome inputDescriptor T students) as H.
  rewrite HT in H.
  destruct H as [[Hr _] | (pre & p & post & Hpairs & Hr & Hp & _ & _)]; [discriminate|].
  injection Hr as Hbest _. subst best. simpl distance.
  assert (HpT' : (dist_to inputDescriptor p <? T') = true)
    by (eapply FloatOrder.ltb_trans; eassumption).
  assert (Hin : In p (candidate_pairs students))
    by (rewrite Hpairs; apply in_or_app; right; now left).
  pose proof (findBestMatch_outcome inputDescriptor T' students) as H'.
  destruct H' as [[_ Hall] | (pre' & p' & post' & Hpairs' & Hr' & Hp' & Hpre' & Hpost')].
  - rewrite (Hall p Hin) in HpT'. discriminate.
  - eexists _, _. split; [exact Hr'|]. simpl distance.
    rewrite Hpairs' in Hin. apply in_app_or in Hin. destruct Hin as [Hin | [<- | Hin]].
    + apply FloatOrder.ltb_leb. now apply Hpre'.
    + exact (FloatOrder.ltb_ordered_l _ _ Hp').
    + apply FloatOrder.not_ltb_leb; eauto using FloatOrder.ltb_ordered_l.
Qed.


Lemma findBestMatch_threshold_monotone_witness :
  exists best' student',
    findBestMatch (Some Sample.zeros) [Sample.bob; Sample.eve] 1
    = (Some best', Some student')
    /\ (distance best' <=? 0.25) = true.
Proof.
  apply (findBestMatch_threshold_monotone
           (Some Sample.zeros) [Sample.bob; Sample.eve] 0.5 1
           {| distance := 0.25; confidence := 75 |} Sample.eve);
    vm_compute; reflexivity.
Defined.


(* ================================================================== *)
(** * The session resolver *)
(* ================================================================== *)

Lemma digit_compare (x y : nat) :
  (x < 10)%nat -> (y < 10)%nat -> Ascii.compare (digit x) (digit y) = Nat.compare x y.
Proof.
  intros Hx Hy.
  do 10 (destruct x as [|x];
         [do 10 (destruct y as [|y]; [reflexivity|]); exfalso; lia|]).
  exfalso; lia.
Qed.

(** Two digits of a number below 100. *)
Lemma two_digits (n : nat) :
  (n < 100)%nat ->
  (n / 10 < 10 /\ n mod 10 < 10 /\ n = 10 * (n / 10) + n mod 10)%nat.
Proof.
  intros Hn. pose proof (Nat.div_mod_eq n 10) as Heq.
  pose proof (Nat.mod_upper_bound n 10 ltac:(discriminate)) as Hmod.
  repeat split; try assumption. lia.
Qed.

(** On the texts [HH:MM], the order of the strings is the order of the
    times. *)
Lemma compare_time_strings (a b : TimeOfDay) :
  valid_time a -> valid_time b ->
  String.compare (toTimeString_slice_0_5 a) (toTimeString_slice_0_5 b)
  = Nat.compare (minutes_of_day a) (minutes_of_day b).
Proof.
  intros [Hha Hma] [Hhb Hmb].
  destruct (two_digits (hours a)) as (A1 & A2 & A3); [lia|].
  destruct (two_digits (hours b)) as (B1 & B2 & B3); [lia|].
  destruct (two_digits (minutes a)) as (A4 & A5 & A6); [lia|].
  destruct (two_digits (minutes b)) as (B4 & B5 & B6); [lia|].
  unfold toTimeString_slice_0_5, pad2, minutes_of_day. cbn [String.compare].
  rewrite !digit_compare by assumption.
  change (Ascii.compare ":" ":") with Eq. cbv iota.
  symmetry.
  destruct (Nat.compare_spec (hours a / 10) (hours b / 10));
    [|apply Nat.compare_lt_iff; lia|apply Nat.compare_gt_iff; lia].
  destruct (Nat.compare_spec (hours a mod 10) (hours b mod 10));
    [|apply Nat.compare_lt_iff; lia|apply Nat.compare_gt_iff; lia].
  destruct (Nat.compare_spec (minutes a / 10) (minutes b / 10));
    [|apply Nat.compare_lt_iff; lia|apply Nat.compare_gt_iff; lia].
  destruct (Nat.compare_spec (minutes a mod 10) (minutes b mod 10));
    [apply Nat.compare_eq_iff; lia|apply Nat.compare_lt_iff; lia|apply Nat.compare_gt_iff; lia].
Qed.

Lemma leb_time_strings (a b : TimeOfDay) :
  valid_time a -> valid_time b ->
  String.leb (toTimeString_slice_0_5 a) (toTimeString_slice_0_5 b)
  = (minutes_of_day a <=? minutes_of_day b)%nat.
Proof.
  intros Ha Hb. unfold String.leb. rewrite compare_time_strings by assumption.
  destruct (Nat.compare_spec (minutes_of_day a) (minutes_of_day b));
    symmetry; [apply Nat.leb_le | apply Nat.leb_le | apply Nat.leb_gt]; lia.
Qed.

Lemma first_slot_find (cfg : list SlotConfig) (t : TimeOfDay) :
  valid_time t ->
  (forall c, In c cfg -> valid_time (cfg_start c) /\ valid_time (cfg_end c)) ->
  first_slot (map entry_of cfg) (toTimeString_slice_0_5 t)
  = match find (fun c => contains c t) cfg with
    | Some c => {| slot_type := cfg_key c; name := cfg_name c; active := true |}
    | None => no_active_session
    end.
Proof.
  intros Ht. induction cfg as [|c cfg IH]; intros Hcfg; [reflexivity|].
  destruct (Hcfg c (or_introl eq_refl)) as [Hs He].
  cbn [map entry_of first_slot find slot_start slot_end slot_name].
  rewrite !leb_time_strings by assumption. fold (contains c t).
  destruct (contains c t); [reflexivity|].
  apply IH. intros c' Hc'. apply Hcfg. now right.
Qed.

(** C5.  On every configuration of slots, given in the order of their
    declaration, and at every time of day, the loop of the resolver returns
    the first slot whose closed interval from start to end, both ends
    included, contains the time, and the object
    [{type: 'none', name: 'No Active Session', active: false}] when there is
    none; [getCurrentTimeSlot] runs it on morning, meal, afternoon. *)
Theorem getCurrentTimeSlot_first_containing (cfg : list SlotConfig) (t : TimeOfDay) :
  valid_time t ->
  (forall c, In c cfg -> valid_time (cfg_start c) /\ valid_time (cfg_end c)) ->
  first_slot (map entry_of cfg) (toTimeString_slice_0_5 t)
  = match find (fun c => (minutes_of_day (cfg_start c) <=? minutes_of_day t)%nat
                         && (minutes_of_day t <=? minutes_of_day (cfg_end c))%nat) cfg with
    | Some c => {| slot_type := cfg_key c; name := cfg_name c; active := true |}
    | None => {| slot_type := "none"; name := "No Active Session"; active := false |}
    end
  /\ map cfg_key default_boundaries = ["morning"; "meal"; "afternoon"]
  /\ slots = map entry_of default_boundaries
  /\ getCurrentTimeSlot t
     = match find (fun c => (minutes_of_day (cfg_start c) <=? minutes_of_day t)%nat
                            && (minutes_of_day t <=? minutes_of_day (cfg_end c))%nat)
                  default_boundaries with
       | Some c => {| slot_type := cfg_key c; name := cfg_name c; active := true |}
       | None => {| slot_type := "none"; name := "No Active Session"; active := false |}
       end.
Proof.
  intros Ht Hcfg.
  split; [exact (first_slot_find cfg t Ht Hcfg)|].
  split; [reflexivity|]. split; [reflexivity|].
  unfold getCurrentTimeSlot. change slots with (map entry_of default_boundaries).
  apply (first_slot_find default_boundaries t Ht).
  intros c Hc. simpl in Hc.
  destruct Hc as [<- | [<- | [<- | []]]]; unfold valid_time; simpl; lia.
Qed.

Lemma getCurrentTimeSlot_first_containing_witness :
  first_slot (map entry_of default_boundaries) "13:00"
  = {| slot_type := "meal"; name := "Mid-Day Meal"; active := true |}
  /\ map cfg_key default_boundaries = ["morning"; "meal"; "afternoon"]
  /\ slots = map entry_of default_boundaries
  /\ getCurrentTimeSlot (mkTime 13 0)
     = {| slot_type := "meal"; name := "Mid-Day Meal"; active := true |}.
Proof.
  apply (getCurrentTimeSlot_first_containing default_boundaries (mkTime 13 0)).
  - unfold valid_time; simpl; lia.
  - intros c Hc. simpl in Hc.
    destruct Hc as [<- | [<- | [<- | []]]]; unfold valid_time; simpl; lia.
Defined.

(** C4, as the code has it.  At 08:00, 11:59, 12:00, 12:30, 13:00, 13:01,
    17:00 and 23:00 the resolver answers morning, morning, morning, meal,
    meal, afternoon, afternoon and none: 12:00 is the end of the morning
    slot, which is declared before the meal slot. *)
Theorem getCurrentTimeSlot_partition :
  map getCurrentTimeSlot
      [mkTime 8 0; mkTime 11 59; mkTime 12 0; mkTime 12 30;
       mkTime 13 0; mkTime 13 1; mkTime 17 0; mkTime 23 0]
  = [ {| slot_type := "morning"; name := "Morning Session"; active := true |};
      {| slot_type := "morning"; name := "Morning Session"; active := true |};
      {| slot_type := "morning"; name := "Morning Session"; active := true |};
      {| slot_type := "meal"; name := "Mid-Day Meal"; active := true |};
      {| slot_type := "meal"; name := "Mid-Day Meal"; active := true |};
      {| slot_type := "afternoon"; name := "Afternoon Session"; active := true |};
      {| slot_type := "afternoon"; name := "Afternoon Session"; active := true |};
      no_active_session ].
Proof. reflexivity. Qed.

(** C4, as stated, fails at 12:00: the answer is the morning slot, not the
    meal slot. *)
Lemma getCurrentTimeSlot_noon_is_morning :
  toTimeString_slice_0_5 (mkTime 12 0) = "12:00"
  /\ slot_type (getCurrentTimeSlot (mkTime 12 0)) = "morning"
  /\ slot_type (getCurrentTimeSlot (mkTime 12 0)) <> "meal".
Proof. repeat split. discriminate. Qed.

(* ================================================================== *)
(** * The two ledgers *)
(* ================================================================== *)

Lemma find_snoc {A : Type} (f : A -> bool) (l : list A) (x : A) :
  find f (l ++ [x])
  = match find f l with
    | Some y => Some y
    | None => if f x then Some x else None
    end.
Proof.
  induction l as [|a l IH]; simpl; [reflexivity|].
  destruct (f a); [reflexivity | exact IH].
Qed.

Lemma NoDup_snoc {A : Type} (l : list A) (x : A) :
  NoDup l -> ~ In x l -> NoDup (l ++ [x]).
Proof.
  induction 1 as [|a l Ha Hl IH]; intros Hx; simpl.
  - constructor; [intros [] | constructor].
  - constructor.
    + intros Hin. apply in_app_or in Hin. destruct Hin as [Hin | [-> | []]].
      * contradiction.
      * apply Hx. now left.
    + apply IH. intros Hin. apply Hx. now right.
Qed.

Lemma same_bucket_key (studentId date session : string) (a : Attendance.t) :
  same_bucket studentId date session a = true
  <-> attendance_key a = (studentId, date, session).
Proof.
  unfold same_bucket, attendance_key. rewrite !andb_true_iff, !String.eqb_eq.
  split; [intros [[-> ->] ->]; reflexivity | intros [= -> -> ->]; auto].
Qed.

Lemma same_day_key (studentId mealDate : string) (m : Meal.t) :
  same_day studentId mealDate m = true <-> meal_key m = (studentId, mealDate).
Proof.
  unfold same_day, meal_key. rewrite andb_true_iff, !String.eqb_eq.
  split; [intros [-> ->]; reflexivity | intros [= -> ->]; auto].
Qed.

Lemma find_none_fresh_key {A K : Type} (f : A -> bool) (key : A -> K) (k : K) (l : list A) :
  (forall a, f a = true <-> key a = k) ->
  find f l = None -> ~ In k (map key l).
Proof.
  intros Hf Hnone Hin. apply in_map_iff in Hin. destruct Hin as (a & Hk & Ha).
  apply Hf in Hk. pose proof (find_none f l Hnone a Ha). congruence.
Qed.

(** The ledger step of the attendance handler appends at most one record,
    and only under a key that no record has. *)
Lemma markAttendance_unique env student bm ts sess st db :
  NoDup (map attendance_key (Database.attendance db)) ->
  NoDup (map attendance_key
             (Database.attendance (snd (markAttendance env student bm ts sess st db)))).
Proof.
  intros Hnd. unfold markAttendance.
  destruct (find _ (Database.attendance db)) eqn:Hfind;
    cbn [snd push_attendance Database.attendance]; [assumption|].
  rewrite map_app. apply NoDup_snoc; [assumption|].
  eapply find_none_fresh_key; [|exact Hfind].
  intros a. apply same_bucket_key.
Qed.

Lemma markAttendance_meals env student bm ts sess st db :
  Database.meals (snd (markAttendance env student bm ts sess st db)) = Database.meals db.
Proof.
  unfold markAttendance. now destruct (find _ (Database.attendance db)).
Qed.

Lemma post_mark_stored env body db :
  snd (post_mark env body db) = db
  \/ exists student bm ts,
       snd (post_mark env body db)
       = snd (markAttendance env student bm ts (session body) (sessionType body) db).
Proof.
  unfold post_mark.
  destruct (negb (truthy (faceDescriptor body)) || negb (truthy_opt (timestamp body)));
    [now left|].
  destruct (faceDescriptor body) as [| | | | |elems|]; try (now left).
  destruct (timestamp body) as [ts|]; [|now left].
  destruct (negb (List.length elems =? 128)%nat); [now left|].
  destruct (findBestMatch _ _ _) as [[bm|] [student|]]; try (now left).
  destruct (markAttendance env student bm ts (session body) (sessionType body) db)
    as [response db'] eqn:Hmark.
  destruct (writeOk env); [|now left].
  right. exists student, bm, ts. now rewrite Hmark.
Qed.

Lemma markMeal_unique env studentId ts ip ua db :
  NoDup (map meal_key (Database.meals db)) ->
  NoDup (map meal_key (Database.meals (snd (markMeal env studentId ts ip ua db)))).
Proof.
  intros Hnd. unfold markMeal.
  destruct (find (active_with_id studentId) _); [|assumption].
  destruct (find (same_day _ _) _) eqn:Hfind;
    cbn [snd push_meal Database.meals]; [assumption|].
  rewrite map_app. apply NoDup_snoc; [assumption|].
  eapply find_none_fresh_key; [|exact Hfind].
  intros m. apply same_day_key.
Qed.

Lemma markMeal_attendance env studentId ts ip ua db :
  Database.attendance (snd (markMeal env studentId ts ip ua db)) = Database.attendance db.
Proof.
  unfold markMeal.
  destruct (find (active_with_id studentId) _); [|reflexivity].
  now destruct (find (same_day _ _) _).
Qed.

Lemma post_meal_mark_stored env body db :
  Database.attendance (snd (post_meal_mark env body db)) = Database.attendance db
  /\ (Database.meals (snd (post_meal_mark env body db)) = Database.meals db
      \/ exists studentId ts,
           Database.meals (snd (post_meal_mark env body db))
           = Database.meals
               (snd (markMeal env studentId ts (MealBody.ip body) (MealBody.userAgent body) db))).
Proof.
  unfold post_meal_mark.
  destruct (MealBody.studentId body) as [studentId|]; [|now split; [|left]].
  destruct (MealBody.timestamp body) as [ts|]; [|now split; [|left]].
  destruct (negb (truthy_string studentId) || negb (truthy_string ts));
    [now split; [|left]|].
  pose proof (markMeal_attendance env studentId ts (MealBody.ip body)
                (MealBody.userAgent body) db) as Hatt.
  destruct (markMeal env studentId ts (MealBody.ip body) (MealBody.userAgent body) db)
    as [[m|m|r s|r s|m] db'] eqn:Hmeal; try (now split; [|left]).
  unfold writeDatabase. destruct (writeOk env); cbn [negb snd Database.attendance Database.meals];
    [|now split; [|left]].
  split; [exact Hatt|]. right. exists studentId, ts. now rewrite Hmeal.
Qed.

(** In every reachable document the keys of the attendance records are
    pairwise different, and so are the keys of the meal records. *)
Lemma reachable_unique (db : Database.t) :
  reachable db ->
  NoDup (map attendance_key (Database.attendance db))
  /\ NoDup (map meal_key (Database.meals db)).
Proof.
  induction 1 as [students settings statistics
                 | env body db Hreach [IHa IHm]
                 | env body db Hreach [IHa IHm]
                 | students settings db Hreach [IHa IHm]];
    cbn [Database.attendance Database.meals map].
  - split; constructor.
  - destruct (post_mark_stored env body db) as [-> | (student & bm & ts & ->)].
    + now split.
    + split; [now apply markAttendance_unique|]. now rewrite markAttendance_meals.
  - destruct (post_meal_mark_stored env body db) as [-> [-> | (studentId & ts & ->)]].
    + now split.
    + split; [assumption|]. now apply markMeal_unique.
  - now split.
Qed.

(** A request that passes the validation and whose face is recognised runs
    the ledger step; what it leaves in the store depends on the write. *)
Lemma post_mark_recognised env body db elems ts best student :
  faceDescriptor body = VArr elems ->
  List.length elems = 128%nat ->
  timestamp body = Some ts ->
  ts <> "" ->
  findBestMatch (Some elems) (Database.students db)
    (or_number (Settings.recognitionThreshold (Database.settings db)) 0.6)
  = (Some best, Some student) ->
  post_mark env body db
  = (fst (markAttendance env student best ts (session body) (sessionType body) db),
     if writeOk env
     then snd (markAttendance env student best ts (session body) (sessionType body) db)
     else db).
Proof.
  intros Hfd Hlen Hts Hne Hmatch.
  unfold post_mark. rewrite Hfd, Hts. cbn [truthy truthy_opt negb orb].
  unfold truthy_string. destruct (String.eqb_spec ts ""); [contradiction|].
  cbn [negb]. rewrite Hlen, Nat.eqb_refl. cbn [negb]. rewrite Hmatch.
  now destruct (markAttendance env student best ts (session body) (sessionType body) db).
Qed.

Lemma find_first {A : Type} (f : A -> bool) (pre : list A) (x : A) (post : list A) :
  f x = true -> (forall a, In a pre -> f a = false) ->
  find f (pre ++ x :: post) = Some x.
Proof.
  intros Hx. induction pre as [|a pre IH]; intros Hpre; cbn [app find].
  - now rewrite Hx.
  - rewrite (Hpre a (or_introl eq_refl)). apply IH. intros b Hb. apply Hpre. now right.
Qed.

Lemma find_some_first {A : Type} (f : A -> bool) (l : list A) (x : A) :
  find f l = Some x ->
  exists pre post, l = pre ++ x :: post /\ f x = true /\ forall a, In a pre -> f a = false.
Proof.
  induction l as [|a l IH]; cbn [find]; [discriminate|].
  destruct (f a) eqn:Ha.
  - intros [= ->]. exists [], l. repeat split; [exact Ha | intros b []].
  - intros Hfind. destruct (IH Hfind) as (pre & post & -> & Hx & Hpre).
    exists (a :: pre), post. repeat split; [exact Hx|].
    intros b [<- | Hb]; [exact Ha | now apply Hpre].
Qed.

Lemma fresh_key_find_none {A K : Type} (f : A -> bool) (key : A -> K) (k : K) (l : list A) :
  (forall a, f a = true <-> key a = k) ->
  ~ In k (map key l) -> find f l = None.
Proof.
  intros Hf Hfresh. destruct (find f l) as [a|] eqn:Hfind; [exfalso | reflexivity].
  apply find_some in Hfind. destruct Hfind as [Hin Ha].
  apply Hfresh, in_map_iff. exists a. split; [now apply Hf | exact Hin].
Qed.

Lemma fresh_key_false {A K : Type} (f : A -> bool) (key : A -> K) (k : K) (l : list A) :
  (forall a, f a = true <-> key a = k) ->
  ~ In k (map key l) -> forall a, In a l -> f a = false.
Proof.
  intros Hf Hfresh a Hin. destruct (f a) eqn:Ha; [exfalso | reflexivity].
  apply Hfresh, in_map_iff. exists a. split; [now apply Hf | exact Hin].
Qed.

(** The student that the meal handler finds: the first one of the list with
    that identifier and the status 'active'. *)
Lemma find_first_active (students pre post : list Student.t) (student : Student.t)
    (studentId : string) :
  students = pre ++ student :: post ->
  Student.studentId student = studentId ->
  Student.status student = "active" ->
  (forall s, In s pre -> Student.studentId s = studentId -> Student.status s <> "active") ->
  find (active_with_id studentId) students = Some student.
Proof.
  intros -> Hid Hactive Hpre. apply find_first.
  - unfold active_with_id. rewrite Hid, Hactive, !String.eqb_refl. reflexivity.
  - intros s Hs. unfold active_with_id.
    destruct (String.eqb_spec (Student.studentId s) studentId) as [Hsid|]; [|reflexivity].
    destruct (String.eqb_spec (Student.status s) "active") as [Hst|]; [|reflexivity].
    now destruct (Hpre s Hs Hsid).
Qed.

(** C2.  Two calls of the attendance ledger for the same student, the same
    date (the first ten characters of the timestamp) and the same session
    label.  The key of a record is its (studentId, date, session).  When no
    stored record has the key of the request, whatever other records the
    collection holds, the first call creates one record with that key and the
    timestamp of the request, and the second call answers [alreadyMarked] with
    that timestamp and leaves the collection as it is, so the collection has
    grown by exactly one.  When a stored record has the key, the call answers
    [alreadyMarked] with the timestamp of the first such record and appends
    nothing.  Whatever the collection was, the second call appends nothing and
    answers [alreadyMarked] with the timestamp of a stored record of that key.
    Two requests behave the same through the whole handler when the first
    write succeeds.  In every reachable document no two attendance records
    have the same key. *)
Theorem markAttendance_idempotent :
  (forall env1 env2 student bm1 bm2 ts1 ts2 sess1 sess2 st1 st2 db,
      let date := slice0 10 ts1 in
      let label := or_string sess1 (name (getCurrentTimeSlot (now env1))) in
      slice0 10 ts2 = date ->
      or_string sess2 (name (getCurrentTimeSlot (now env2))) = label ->
      ~ In (Student.studentId student, date, label)
           (map attendance_key (Database.attendance db)) ->
      exists record,
        let db1 := push_attendance record db in
        markAttendance env1 student bm1 ts1 sess1 st1 db
        = (Marked (Student.name student) (Student.studentId student) label ts1
                  (confidence bm1), db1)
        /\ attendance_key record = (Student.studentId student, date, label)
        /\ Attendance.timestamp record = ts1
        /\ Database.attendance db1 = Database.attendance db ++ [record]
        /\ markAttendance env2 student bm2 ts2 sess2 st2 db1
           = (AlreadyMarked (Student.name student) (Student.studentId student) label ts1,
              db1)
        /\ List.length (Database.attendance db1) = S (List.length (Database.attendance db)))
  /\ (forall env student bm ts sess st db pre existing post,
        let label := or_string sess (name (getCurrentTimeSlot (now env))) in
        Database.attendance db = pre ++ existing :: post ->
        attendance_key existing = (Student.studentId student, slice0 10 ts, label) ->
        ~ In (Student.studentId student, slice0 10 ts, label) (map attendance_key pre) ->
        markAttendance env student bm ts sess st db
        = (AlreadyMarked (Student.name student) (Student.studentId student) label
                         (Attendance.timestamp existing), db))
  /\ (forall env1 env2 student bm1 bm2 ts1 ts2 sess1 sess2 st1 st2 db,
        let label := or_string sess1 (name (getCurrentTimeSlot (now env1))) in
        slice0 10 ts2 = slice0 10 ts1 ->
        or_string sess2 (name (getCurrentTimeSlot (now env2))) = label ->
        let db1 := snd (markAttendance env1 student bm1 ts1 sess1 st1 db) in
        exists existing,
          In existing (Database.attendance db1)
          /\ attendance_key existing = (Student.studentId student, slice0 10 ts1, label)
          /\ markAttendance env2 student bm2 ts2 sess2 st2 db1
             = (AlreadyMarked (Student.name student) (Student.studentId student) label
                              (Attendance.timestamp existing), db1))
  /\ (forall env1 env2 body1 body2 db elems1 elems2 ts1 ts2 bm1 bm2 student,
        let threshold :=
          or_number (Settings.recognitionThreshold (Database.settings db)) 0.6 in
        let date := slice0 10 ts1 in
        let label := or_string (session body1) (name (getCurrentTimeSlot (now env1))) in
        faceDescriptor body1 = VArr elems1 -> List.length elems1 = 128%nat ->
        faceDescriptor body2 = VArr elems2 -> List.length elems2 = 128%nat ->
        timestamp body1 = Some ts1 -> ts1 <> "" ->
        timestamp body2 = Some ts2 -> ts2 <> "" ->
        findBestMatch (Some elems1) (Database.students db) threshold
        = (Some bm1, Some student) ->
        findBestMatch (Some elems2) (Database.students db) threshold
        = (Some bm2, Some student) ->
        slice0 10 ts2 = date ->
        or_string (session body2) (name (getCurrentTimeSlot (now env2))) = label ->
        ~ In (Student.studentId student, date, label)
             (map attendance_key (Database.attendance db)) ->
        writeOk env1 = true ->
        exists record,
          let db1 := push_attendance record db in
          post_mark env1 body1 db
          = (Marked (Student.name student) (Student.studentId student) label ts1
                    (confidence bm1), db1)
          /\ attendance_key record = (Student.studentId student, date, label)
          /\ Database.attendance db1 = Database.attendance db ++ [record]
          /\ post_mark env2 body2 db1
             = (AlreadyMarked (Student.name student) (Student.studentId student) label ts1,
                db1))
  /\ (forall db, reachable db -> NoDup (map attendance_key (Database.attendance db))).
Proof.
  match goal with |- ?A /\ _ => assert (Hledger : A) end;
    [|split; [exact Hledger|split; [|split; [|split]]]].
  - intros env1 env2 student bm1 bm2 ts1 ts2 sess1 sess2 st1 st2 db date label
           Hdate Hlabel Hfresh.
    assert (Hfind : find (same_bucket (Student.studentId student) date label)
                         (Database.attendance db) = None).
    { eapply fresh_key_find_none; [|exact Hfresh]. intros a. apply same_bucket_key. }
    pose (record :=
            {| Attendance.id := ("att_" ++ decimal (Date_now env1))%string;
               Attendance.studentId := Student.studentId student;
               Attendance.studentName := Student.name student;
               Attendance.studentClass := Student.class student;
               Attendance.timestamp := ts1;
               Attendance.date := date;
               Attendance.session := label;
               Attendance.sessionType :=
                 or_string st1 (slot_type (getCurrentTimeSlot (now env1)));
               Attendance.status := "present";
               Attendance.confidence := confidence bm1;
               Attendance.createdAt := toISOString env1 |}).
    exists record. cbv zeta.
    split.
    { unfold markAttendance. fold date label. rewrite Hfind. reflexivity. }
    split; [reflexivity|]. split; [reflexivity|]. split; [reflexivity|].
    assert (Hsome :
      find (same_bucket (Student.studentId student) date label)
           (Database.attendance db ++ [record]) = Some record).
    { rewrite find_snoc, Hfind. unfold same_bucket at 1.
      cbn [record Attendance.studentId Attendance.date Attendance.session].
      rewrite !String.eqb_refl. reflexivity. }
    split.
    { unfold markAttendance at 1. rewrite Hdate, Hlabel.
      cbn [Database.attendance push_attendance]. rewrite Hsome. reflexivity. }
    cbn [Database.attendance push_attendance]. rewrite length_app. simpl List.length. lia.
  - intros env student bm ts sess st db pre existing post label Hsplit Hkey Hfresh.
    unfold markAttendance. fold label. rewrite Hsplit.
    rewrite (find_first _ pre existing post); [reflexivity | |].
    + now apply same_bucket_key.
    + eapply fresh_key_false; [|exact Hfresh]. intros a. apply same_bucket_key.
  - intros env1 env2 student bm1 bm2 ts1 ts2 sess1 sess2 st1 st2 db label
           Hdate Hlabel db1.
    assert (Hfound : exists existing,
      find (same_bucket (Student.studentId student) (slice0 10 ts1) label)
           (Database.attendance db1) = Some existing).
    { subst db1. unfold markAttendance. fold label.
      destruct (find _ (Database.attendance db)) as [existing|] eqn:Hfind;
        cbn [snd Database.attendance push_attendance].
      - now exists existing.
      - eexists. rewrite find_snoc, Hfind. unfold same_bucket at 1.
        cbn [Attendance.studentId Attendance.date Attendance.session].
        rewrite !String.eqb_refl. reflexivity. }
    destruct Hfound as [existing Hfound].
    exists existing.
    pose proof (find_some _ _ Hfound) as [Hin Hsame].
    split; [exact Hin|]. split; [now apply same_bucket_key|].
    unfold markAttendance at 1. rewrite Hdate, Hlabel, Hfound. reflexivity.
  - intros env1 env2 body1 body2 db elems1 elems2 ts1 ts2 bm1 bm2 student
           threshold date label Hfd1 Hlen1 Hfd2 Hlen2 Hts1 Hne1 Hts2 Hne2
           Hmatch1 Hmatch2 Hdate Hlabel Hfresh Hwrite.
    destruct (Hledger env1 env2 student bm1 bm2 ts1 ts2 (session body1) (session body2)
                (sessionType body1) (sessionType body2) db Hdate Hlabel Hfresh)
      as (record & H1 & H2 & _ & H4 & H5 & _).
    exists record. cbv zeta. split; [|split; [|split]].
    + rewrite (post_mark_recognised env1 body1 db elems1 ts1 bm1 student) by assumption.
      rewrite H1, Hwrite. reflexivity.
    + exact H2.
    + exact H4.
    + rewrite (post_mark_recognised env2 body2 (push_attendance record db)
                 elems2 ts2 bm2 student) by assumption.
      rewrite H5. now destruct (writeOk env2).
  - intros db Hreach. now apply reachable_unique.
Qed.

Lemma markAttendance_idempotent_witness :
  exists record,
    markAttendance (Sample.at_time 9 15) Sample.ann {| distance := 0; confidence := 100 |}
                   Sample.morning_stamp None None Sample.busy
    = (Marked "Ann" "S001" "Morning Session" Sample.morning_stamp 100,
       push_attendance record Sample.busy)
    /\ attendance_key record = ("S001", "2026-01-02", "Morning Session")
    /\ Database.attendance (push_attendance record Sample.busy)
       = Database.attendance Sample.busy ++ [record]
    /\ markAttendance (Sample.at_time 9 50) Sample.ann {| distance := 0; confidence := 100 |}
                      "2026-01-02T09:50:00.000Z" (Some "Morning Session") None
                      (push_attendance record Sample.busy)
       = (AlreadyMarked "Ann" "S001" "Morning Session" Sample.morning_stamp,
          push_attendance record Sample.busy).
Proof.
  destruct markAttendance_idempotent as [H _].
  assert (Hfresh : ~ In ("S001", "2026-01-02", "Morning Session")
                        (map attendance_key (Database.attendance Sample.busy))).
  { vm_compute. intros [H1 | [H1 | [H1 | []]]]; discriminate H1. }
  destruct (H (Sample.at_time 9 15) (Sample.at_time 9 50) Sample.ann
              {| distance := 0; confidence := 100 |} {| distance := 0; confidence := 100 |}
              Sample.morning_stamp "2026-01-02T09:50:00.000Z" None (Some "Morning Session")
              None None Sample.busy
              eq_refl eq_refl Hfresh) as (record & H1 & H2 & _ & H4 & H5 & _).
  exists record. split; [exact H1|]. split; [exact H2|]. split; [exact H4 | exact H5].
Defined.

(** C6.  Two meal marks for the same active student whose timestamps have
    the same date and any times of day.  The student of a request is the
    first one of the list with the identifier of the request and the status
    'active'; the key of a meal record is its (studentId, date), the date
    being the timestamp up to its 'T', and no session enters it.  When no
    stored meal record has the key of the request, whatever other meal
    records there are, the first call creates one record with that key and
    the second call answers [alreadyMarked] with that record and appends
    nothing.  When a stored record has the key, the call answers
    [alreadyMarked] with the first such record and appends nothing.  The same
    holds through the whole handler when the first write succeeds.  In every
    reachable document no two meal records have the same key. *)
Theorem markMeal_once_per_day :
  (forall env1 env2 studentId ts1 ts2 ip1 ip2 ua1 ua2 db pre student post,
      Database.students db = pre ++ student :: post ->
      Student.studentId student = studentId ->
      Student.status student = "active" ->
      (forall s, In s pre -> Student.studentId s = studentId ->
                 Student.status s <> "active") ->
      split_T_0 ts2 = split_T_0 ts1 ->
      ~ In (studentId, split_T_0 ts1) (map meal_key (Database.meals db)) ->
      exists mealRecord,
        let db1 := push_meal mealRecord db in
        markMeal env1 studentId ts1 ip1 ua1 db
        = (MealServed mealRecord (summary student), db1)
        /\ meal_key mealRecord = (studentId, split_T_0 ts1)
        /\ Meal.timestamp mealRecord = ts1
        /\ Meal.status mealRecord = "served"
        /\ Database.meals db1 = Database.meals db ++ [mealRecord]
        /\ markMeal env2 studentId ts2 ip2 ua2 db1
           = (MealAlreadyMarked mealRecord (summary student), db1)
        /\ List.length (Database.meals db1) = S (List.length (Database.meals db)))
  /\ (forall env studentId ts ip ua db pre student post before existing after,
        Database.students db = pre ++ student :: post ->
        Student.studentId student = studentId ->
        Student.status student = "active" ->
        (forall s, In s pre -> Student.studentId s = studentId ->
                   Student.status s <> "active") ->
        Database.meals db = before ++ existing :: after ->
        meal_key existing = (studentId, split_T_0 ts) ->
        ~ In (studentId, split_T_0 ts) (map meal_key before) ->
        markMeal env studentId ts ip ua db
        = (MealAlreadyMarked existing (summary student), db))
  /\ (forall env1 env2 body1 body2 studentId ts1 ts2 db pre student post,
        MealBody.studentId body1 = Some studentId ->
        MealBody.studentId body2 = Some studentId ->
        MealBody.timestamp body1 = Some ts1 ->
        MealBody.timestamp body2 = Some ts2 ->
        studentId <> "" -> ts1 <> "" -> ts2 <> "" ->
        Database.students db = pre ++ student :: post ->
        Student.studentId student = studentId ->
        Student.status student = "active" ->
        (forall s, In s pre -> Student.studentId s = studentId ->
                   Student.status s <> "active") ->
        split_T_0 ts2 = split_T_0 ts1 ->
        ~ In (studentId, split_T_0 ts1) (map meal_key (Database.meals db)) ->
        writeOk env1 = true ->
        exists mealRecord db1,
          post_meal_mark env1 body1 db = (MealServed mealRecord (summary student), db1)
          /\ meal_key mealRecord = (studentId, split_T_0 ts1)
          /\ Database.meals db1 = Database.meals db ++ [mealRecord]
          /\ post_meal_mark env2 body2 db1
             = (MealAlreadyMarked mealRecord (summary student), db1))
  /\ (forall db, reachable db -> NoDup (map meal_key (Database.meals db))).
Proof.
  assert (Hledger :
    forall env1 studentId ts1 ip1 ua1 db student,
      find (active_with_id studentId) (Database.students db) = Some student ->
      find (same_day studentId (split_T_0 ts1)) (Database.meals db) = None ->
      let mealRecord :=
        {| Meal.id := ("MEAL_" ++ decimal (Date_now env1) ++ "_" ++ random_suffix env1)%string;
           Meal.studentId := studentId;
           Meal.studentName := Student.name student;
           Meal.studentClass := Student.class student;
           Meal.date := split_T_0 ts1;
           Meal.timestamp := ts1;
           Meal.status := "served";
           Meal.createdAt := toISOString env1;
           Meal.ip := ip1;
           Meal.userAgent := or_string ua1 "Unknown" |} in
      markMeal env1 studentId ts1 ip1 ua1 db
      = (MealServed mealRecord (summary student), push_meal mealRecord db)
      /\ forall stored,
           Database.students stored = Database.students db ->
           Database.meals stored = Database.meals db ++ [mealRecord] ->
           forall env2 ts2 ip2 ua2,
             split_T_0 ts2 = split_T_0 ts1 ->
             markMeal env2 studentId ts2 ip2 ua2 stored
             = (MealAlreadyMarked mealRecord (summary student), stored)).
  { intros env1 studentId ts1 ip1 ua1 db student Hstudent Hfind mealRecord.
    split.
    - unfold markMeal. rewrite Hstudent, Hfind. reflexivity.
    - intros stored Hstudents Hmeals env2 ts2 ip2 ua2 Hdate.
      unfold markMeal. rewrite Hstudents, Hstudent, Hdate, Hmeals, find_snoc, Hfind.
      unfold same_day at 1. cbn [mealRecord Meal.studentId Meal.date].
      rewrite !String.eqb_refl. reflexivity. }
  assert (Hnone : forall studentId date meals,
            ~ In (studentId, date) (map meal_key meals) ->
            find (same_day studentId date) meals = None).
  { intros studentId date meals Hfresh.
    eapply fresh_key_find_none; [|exact Hfresh]. intros m. apply same_day_key. }
  split; [|split; [|split]].
  - intros env1 env2 studentId ts1 ts2 ip1 ip2 ua1 ua2 db pre student post
           Hsplit Hid Hactive Hpre Hdate Hfresh.
    pose proof (find_first_active _ _ _ _ _ Hsplit Hid Hactive Hpre) as Hstudent.
    destruct (Hledger env1 studentId ts1 ip1 ua1 db student Hstudent (Hnone _ _ _ Hfresh))
      as [H1 H2].
    eexists. cbv zeta. split; [exact H1|].
    split; [reflexivity|]. split; [reflexivity|]. split; [reflexivity|].
    split; [reflexivity|].
    split; [now apply H2|].
    cbn [Database.meals push_meal]. rewrite length_app. simpl List.length. lia.
  - intros env studentId ts ip ua db pre student post before existing after
           Hsplit Hid Hactive Hpre Hmeals Hkey Hfresh.
    pose proof (find_first_active _ _ _ _ _ Hsplit Hid Hactive Hpre) as Hstudent.
    unfold markMeal. rewrite Hstudent, Hmeals.
    rewrite (find_first _ before existing after); [reflexivity | |].
    + now apply same_day_key.
    + eapply fresh_key_false; [|exact Hfresh]. intros m. apply same_day_key.
  - intros env1 env2 body1 body2 studentId ts1 ts2 db pre student post
           Hid1 Hid2 Hts1 Hts2 Hne Hne1 Hne2 Hsplit Hid Hactive Hpre Hdate Hfresh Hwrite.
    pose proof (find_first_active _ _ _ _ _ Hsplit Hid Hactive Hpre) as Hstudent.
    destruct (Hledger env1 studentId ts1 (MealBody.ip body1) (MealBody.userAgent body1)
                db student Hstudent (Hnone _ _ _ Hfresh)) as [H1 H2].
    assert (Htruthy : forall s, s <> "" -> truthy_string s = true).
    { intros s Hs. unfold truthy_string. now destruct (String.eqb_spec s ""). }
    eexists. eexists. split; [|split; [|split]].
    + unfold post_meal_mark. rewrite Hid1, Hts1, !Htruthy by assumption.
      cbn [negb orb]. rewrite H1. unfold writeDatabase. rewrite Hwrite.
      cbn [negb]. reflexivity.
    + reflexivity.
    + reflexivity.
    + unfold post_meal_mark. rewrite Hid2, Hts2, !Htruthy by assumption.
      cbn [negb orb]. rewrite H2; [reflexivity | reflexivity | reflexivity | exact Hdate].
  - intros db Hreach. now apply reachable_unique.
Qed.

Lemma markMeal_once_per_day_witness :
  exists mealRecord,
    markMeal (Sample.at_time 12 5) "S001" "2026-01-02T12:05:00.000Z" "::1" None Sample.busy
    = (MealServed mealRecord (summary Sample.ann), push_meal mealRecord Sample.busy)
    /\ meal_key mealRecord = ("S001", "2026-01-02")
    /\ Database.meals (push_meal mealRecord Sample.busy)
       = Database.meals Sample.busy ++ [mealRecord]
    /\ markMeal (Sample.at_time 18 30) "S001" "2026-01-02T18:30:00.000Z" "::1" None
                (push_meal mealRecord Sample.busy)
       = (MealAlreadyMarked mealRecord (summary Sample.ann),
          push_meal mealRecord Sample.busy).
Proof.
  destruct markMeal_once_per_day as [H _].
  assert (Hpre : forall s, In s [Sample.bob; Sample.former] ->
                           Student.studentId s = "S001" -> Student.status s <> "active").
  { intros s [<- | [<- | []]] Hid; vm_compute; discriminate. }
  assert (Hfresh : ~ In ("S001", split_T_0 "2026-01-02T12:05:00.000Z")
                        (map meal_key (Database.meals Sample.busy))).
  { vm_compute. intros [H1 | [H1 | []]]; discriminate H1. }
  destruct (H (Sample.at_time 12 5) (Sample.at_time 18 30) "S001"
              "2026-01-02T12:05:00.000Z" "2026-01-02T18:30:00.000Z" "::1" "::1" None None
              Sample.busy [Sample.bob; Sample.former] Sample.ann []
              eq_refl eq_refl eq_refl Hpre eq_refl Hfresh)
    as (mealRecord & H1 & H2 & _ & _ & H5 & H6 & _).
  exists mealRecord. split; [exact H1|]. split; [exact H2|]. split; [exact H5 | exact H6].
Defined.

Lemma inactive_slot (entries : list (string * Slot)) (time : string) :
  active (first_slot entries time) = false -> first_slot entries time = no_active_session.
Proof.
  induction entries as [|[key slot] entries IH]; simpl; [reflexivity|].
  destruct (String.leb (slot_start slot) time && String.leb time (slot_end slot));
    [discriminate | exact IH].
Qed.

Lemma or_string_falsy (a : option string) (b : string) :
  truthy_opt a = false -> or_string a b = b.
Proof.
  destruct a as [s|]; simpl; [|reflexivity]. now intros ->.
Qed.

Lemma or_string_truthy (s b : string) : s <> "" -> or_string (Some s) b = s.
Proof.
  intros Hs. unfold or_string, truthy_string. now destruct (String.eqb_spec s "").
Qed.

(** C10, as the code has it.  A recognised request that supplies neither a
    session label nor a sessionType, at a time outside every slot, for a
    student without a record of that date under 'No Active Session', is not
    rejected: the handler answers that the attendance is marked, and the new
    record has session 'No Active Session' and sessionType 'none'.  A
    sessionType of the request is stored in place of 'none'.  A session
    label of the request is the bucket, whatever the resolved slot. *)
Theorem markAttendance_outside_slots :
  (forall env body db elems ts best student,
      faceDescriptor body = VArr elems ->
      List.length elems = 128%nat ->
      timestamp body = Some ts ->
      ts <> "" ->
      findBestMatch (Some elems) (Database.students db)
        (or_number (Settings.recognitionThreshold (Database.settings db)) 0.6)
      = (Some best, Some student) ->
      truthy_opt (session body) = false ->
      truthy_opt (sessionType body) = false ->
      active (getCurrentTimeSlot (now env)) = false ->
      find (same_bucket (Student.studentId student) (slice0 10 ts) "No Active Session")
           (Database.attendance db) = None ->
      exists record,
        post_mark env body db
        = (Marked (Student.name student) (Student.studentId student) "No Active Session" ts
                  (confidence best),
           if writeOk env then push_attendance record db else db)
        /\ attendance_key record
           = (Student.studentId student, slice0 10 ts, "No Active Session")
        /\ Attendance.sessionType record = "none")
  /\ (forall env student best ts sess type db,
        type <> "" ->
        find (same_bucket (Student.studentId student) (slice0 10 ts)
                (or_string sess (name (getCurrentTimeSlot (now env)))))
             (Database.attendance db) = None ->
        exists record,
          snd (markAttendance env student best ts sess (Some type) db)
          = push_attendance record db
          /\ Attendance.sessionType record = type)
  /\ (forall env student best ts label type db,
        label <> "" ->
        match find (same_bucket (Student.studentId student) (slice0 10 ts) label)
                   (Database.attendance db) with
        | Some existing =>
            markAttendance env student best ts (Some label) type db
            = (AlreadyMarked (Student.name student) (Student.studentId student) label
                             (Attendance.timestamp existing), db)
        | None =>
            exists record,
              markAttendance env student best ts (Some label) type db
              = (Marked (Student.name student) (Student.studentId student) label ts
                        (confidence best), push_attendance record db)
              /\ attendance_key record = (Student.studentId student, slice0 10 ts, label)
        end).
Proof.
  split; [|split].
  - intros env body db elems ts best student Hfd Hlen Hts Hne Hmatch Hsess Htype Hslot Hfind.
    apply inactive_slot in Hslot. fold (getCurrentTimeSlot (now env)) in Hslot.
    eexists. split; [|split].
    + rewrite (post_mark_recognised env body db elems ts best student) by assumption.
      unfold markAttendance.
      rewrite Hslot, !or_string_falsy by assumption.
      cbn [name slot_type no_active_session]. rewrite Hfind.
      destruct (writeOk env); reflexivity.
    + reflexivity.
    + reflexivity.
  - intros env student best ts sess type db Htype Hfind.
    eexists. split.
    + unfold markAttendance. rewrite Hfind. reflexivity.
    + cbn [Attendance.sessionType]. now apply or_string_truthy.
  - intros env student best ts label type db Hlabel.
    unfold markAttendance. rewrite (or_string_truthy label _ Hlabel).
    destruct (find _ (Database.attendance db)) as [existing|]; [reflexivity|].
    eexists. split; reflexivity.
Qed.

Lemma markAttendance_outside_slots_witness :
  exists record,
    post_mark (Sample.at_time 23 0) (Sample.scan Sample.zeros Sample.evening_stamp None None)
              (Sample.fresh None [Sample.ann])
    = (Marked "Ann" "S001" "No Active Session" Sample.evening_stamp 100,
       push_attendance record (Sample.fresh None [Sample.ann]))
    /\ attendance_key record = ("S001", "2026-01-02", "No Active Session")
    /\ Attendance.sessionType record = "none".
Proof.
  destruct markAttendance_outside_slots as [H _].
  apply (H (Sample.at_time 23 0) (Sample.scan Sample.zeros Sample.evening_stamp None None)
           (Sample.fresh None [Sample.ann]) Sample.zeros Sample.evening_stamp
           {| distance := 0; confidence := 100 |} Sample.ann);
    try (vm_compute; reflexivity).
  discriminate.
Defined.

(** C10, as stated, fails when the request supplies a sessionType and no
    session label: the record is created under 'No Active Session' with the
    sessionType of the request, not 'none'. *)
Lemma sessionType_of_request_is_kept :
  session (Sample.scan Sample.zeros Sample.evening_stamp None (Some "custom")) = None
  /\ active (getCurrentTimeSlot (now (Sample.at_time 23 0))) = false
  /\ exists record,
       post_mark (Sample.at_time 23 0)
                 (Sample.scan Sample.zeros Sample.evening_stamp None (Some "custom"))
                 (Sample.fresh None [Sample.ann])
       = (Marked "Ann" "S001" "No Active Session" Sample.evening_stamp 100,
          push_attendance record (Sample.fresh None [Sample.ann]))
       /\ Attendance.session record = "No Active Session"
       /\ Attendance.sessionType record = "custom"
       /\ Attendance.sessionType record <> "none".
Proof.
  split; [reflexivity|]. split; [reflexivity|].
  eexists. split; [vm_compute; reflexivity|].
  split; [reflexivity|]. split; [reflexivity|]. discriminate.
Qed.

(* ================================================================== *)
(** * Confidence and validation *)
(* ================================================================== *)

(** The confidence of a match is [Math.round((1 - distance) * 100)], as the
    matcher computes it: nothing is clamped. *)
Lemma findBestMatch_confidence inputDescriptor students threshold best student :
  findBestMatch inputDescriptor students threshold = (Some best, Some student) ->
  confidence best = Math_round ((1 - distance best) * 100).
Proof.
  intros Hfind.
  pose proof (findBestMatch_outcome inputDescriptor threshold students) as H.
  rewrite Hfind in H.
  destruct H as [[Hr _] | (pre & p & post & _ & Hr & _)]; [discriminate|].
  injection Hr as -> _. reflexivity.
Qed.

(** C3, on the code.  With the threshold 2 in the settings, a probe at
    distance 1.5 of the descriptor of a student is matched by
    [findBestMatch] with the confidence -50, and the handler stores and
    answers that negative confidence; [compareFaces] reports the confidence 0
    for the same two descriptors. *)
Theorem findBestMatch_negative_confidence :
  euclideanDistance (Some Sample.zeros) (Some (Sample.axis 1.5)) = 1.5
  /\ findBestMatch (Some Sample.zeros) [Sample.bob] 2
     = (Some {| distance := 1.5; confidence := -50 |}, Some Sample.bob)
  /\ (exists record,
        post_mark (Sample.at_time 9 15)
                  (Sample.scan Sample.zeros Sample.morning_stamp None None)
                  (Sample.fresh (Some 2) [Sample.bob])
        = (Marked "Bob" "S002" "Morning Session" Sample.morning_stamp (-50),
           push_attendance record (Sample.fresh (Some 2) [Sample.bob]))
        /\ Attendance.confidence record = -50)
  /\ (-50 <? 0) = true
  /\ FaceRecognitionUtils.compareFaces 2 (VArr Sample.zeros) (VArr (Sample.axis 1.5))
     = FaceRecognitionUtils.Return
         {| FaceRecognitionUtils.distance := 1.5;
            FaceRecognitionUtils.similarity := 0;
            FaceRecognitionUtils.isMatch := true;
            FaceRecognitionUtils.confidence := 0;
            FaceRecognitionUtils.threshold := 2 |}.
Proof.
  split; [vm_compute; reflexivity|].
  split; [vm_compute; reflexivity|].
  split; [eexists; split; [vm_compute; reflexivity | reflexivity]|].
  split; vm_compute; reflexivity.
Qed.

(** The part of the validation that the handler does: a descriptor that is
    not an array, or an array whose length is not 128, is answered with the
    status 400, and the stored document is left as it is. *)
Lemma post_mark_rejects_malformed env body db :
  (forall elems, faceDescriptor body = VArr elems -> List.length elems <> 128%nat) ->
  exists message, post_mark env body db = (BadRequest message, db).
Proof.
  intros Hbad. unfold post_mark.
  destruct (negb (truthy (faceDescriptor body)) || negb (truthy_opt (timestamp body)));
    [eexists; reflexivity|].
  destruct (faceDescriptor body) as [| | | | |elems|]; try (eexists; reflexivity).
  destruct (timestamp body) as [ts|]; [|eexists; reflexivity].
  destruct (Nat.eqb_spec (List.length elems) 128) as [Hlen|_]; cbn [negb];
    [|eexists; reflexivity].
  now destruct (Hbad elems eq_refl).
Qed.

(** C9, on the code.  An array of 128 [null], which [validateDescriptor]
    refuses, passes the validation of the handler, reaches [findBestMatch]
    as the zero vector, matches a student and puts a record in the ledger. *)
Theorem post_mark_accepts_non_numbers :
  FaceRecognitionUtils.validateDescriptor (VArr Sample.nulls) = false
  /\ forallb is_number Sample.nulls = false
  /\ List.length Sample.nulls = 128%nat
  /\ findBestMatch (Some Sample.nulls) [Sample.ann] 0.6
     = (Some {| distance := 0; confidence := 100 |}, Some Sample.ann)
  /\ exists record,
       post_mark (Sample.at_time 9 15)
                 (Sample.scan Sample.nulls Sample.morning_stamp None None)
                 (Sample.fresh None [Sample.ann])
       = (Marked "Ann" "S001" "Morning Session" Sample.morning_stamp 100,
          push_attendance record (Sample.fresh None [Sample.ann]))
       /\ attendance_key record = ("S001", "2026-01-02", "Morning Session").
Proof.
  split; [vm_compute; reflexivity|].
  split; [vm_compute; reflexivity|].
  split; [vm_compute; reflexivity|].
  split; [vm_compute; reflexivity|].
  eexists; split; [vm_compute; reflexivity | reflexivity].
Qed.

(** The method of the class, unlike the function of the route, throws when
    the lengths differ or when an input is missing. *)
Lemma FaceRecognitionUtils_euclideanDistance_throws :
  FaceRecognitionUtils.euclideanDistance (Some [ENum 0]) (Some [ENum 0; ENum 1])
  = FaceRecognitionUtils.Throw "Descriptors must have the same length"
  /\ FaceRecognitionUtils.euclideanDistance None (Some [ENum 0])
     = FaceRecognitionUtils.Throw "TypeError".
Proof. split; reflexivity. Qed.

(* ================================================================== *)
(** * The sign of the numbers *)
(* ================================================================== *)

Module FloatSign.

Lemma ltb_asym (x y : float) : (x <? y) = true -> (y <? x) = false.
Proof.
  rewrite !FloatAxioms.ltb_spec. unfold SFltb.
  rewrite (FloatOrder.SFcompare_antisym (Prim2SF y) (Prim2SF x)).
  destruct (SFcompare (Prim2SF x) (Prim2SF y)) as [[| |]|]; simpl; congruence.
Qed.

(** What is below a threshold is below [Infinity]. *)
Lemma ltb_below_Infinity (d t : float) : (d <? t) = true -> (d <? Infinity) = true.
Proof.
  rewrite !FloatAxioms.ltb_spec. unfold SFltb.
  change (Prim2SF Infinity) with (S754_infinity false).
  destruct (Prim2SF d) as [s|s| |s m e], (Prim2SF t) as [s'|s'| |s' m' e'];
    simpl; try discriminate; try reflexivity; destruct s; try reflexivity;
    try discriminate; destruct s'; discriminate.
Qed.

(** The rounding of a non-negative integer to a number is not negative. *)
Lemma binary_normalize_not_negative (z : Z) :
  (0 <= z)%Z ->
  SFltb (binary_normalize prec emax z 0 false) (S754_zero false) = false.
Proof.
  intros Hz. destruct z as [|p|p]; [reflexivity| |lia].
  unfold binary_normalize, binary_round, binary_round_aux.
  destruct (shl_align _ _ _) as [mz ez].
  destruct (shr_fexp _ _ _ _ _) as [mrs' e'].
  destruct (shr_fexp _ _ _ _ _) as [mrs'' e''].
  destruct (shr_m mrs''); try reflexivity.
  destruct (Z.leb _ _); reflexivity.
Qed.

Lemma of_uint63_not_negative (n : PrimInt63.int) : (of_uint63 n <? 0) = false.
Proof.
  rewrite FloatAxioms.ltb_spec, FloatAxioms.of_uint63_spec.
  change (Prim2SF 0) with (S754_zero false).
  apply binary_normalize_not_negative. apply Uint63.to_Z_bounded.
Qed.

(** [Math.max(0, x)] is never negative. *)
Lemma Math_max_0_not_negative (x : float) : (Math_max 0 x <? 0) = false.
Proof.
  unfold Math_max.
  destruct (isNaN 0 || isNaN x); [reflexivity|].
  destruct (0 <? x) eqn:H0x; [now apply ltb_asym|].
  destruct (x <? 0) eqn:Hx0; [reflexivity|].
  change (get_sign 0) with false. reflexivity.
Qed.

(** [Math.round] of a number that is not negative is not negative. *)
Lemma Math_round_not_negative (x : float) :
  (x <? 0) = false -> (Math_round x <? 0) = false.
Proof.
  intros Hx. unfold Math_round.
  destruct (Prim2SF x) as [s|s| |s m e] eqn:Hsf; try exact Hx.
  destruct (0 <=? e)%Z eqn:He; [exact Hx|].
  destruct s.
  - rewrite FloatAxioms.ltb_spec, Hsf in Hx. discriminate.
  - set (n := ((Z.pos m * 2 + 2 ^ (- e)) / 2 ^ (1 - e))%Z).
    assert (Hn : (0 <= n)%Z).
    { apply Z.div_pos; [|apply Z.pow_pos_nonneg; lia].
      assert (0 <= 2 ^ (- e))%Z by (apply Z.pow_nonneg; lia). lia. }
    destruct (n =? 0)%Z; [reflexivity|].
    unfold JS.of_Z. destruct (Z.ltb_spec n 0); [lia|].
    apply of_uint63_not_negative.
Qed.

End FloatSign.

(* ================================================================== *)
(** * The class [FaceRecognitionUtils] *)
(* ================================================================== *)

Lemma compareFaces_valid (recognitionThreshold : float) (a b : list JsElem) :
  List.length a = 128%nat -> List.length b = 128%nat ->
  FaceRecognitionUtils.compareFaces recognitionThreshold (VArr a) (VArr b)
  = FaceRecognitionUtils.Return
      {| FaceRecognitionUtils.distance := sqrt (sum_squares a b 0);
         FaceRecognitionUtils.similarity :=
           Math_round (Math_max 0 ((1 - sqrt (sum_squares a b 0)) * 100) * 100) / 100;
         FaceRecognitionUtils.isMatch := sqrt (sum_squares a b 0) <? recognitionThreshold;
         FaceRecognitionUtils.confidence :=
           Math_round (Math_max 0 ((1 - sqrt (sum_squares a b 0)) * 100));
         FaceRecognitionUtils.threshold := recognitionThreshold |}.
Proof.
  intros Ha Hb. unfold FaceRecognitionUtils.compareFaces, FaceRecognitionUtils.euclideanDistance.
  rewrite Ha, Hb. reflexivity.
Qed.

Lemma compareFaces_returns (recognitionThreshold : float) (d1 d2 : JsValue)
    (c : FaceRecognitionUtils.Comparison) :
  FaceRecognitionUtils.compareFaces recognitionThreshold d1 d2 = FaceRecognitionUtils.Return c ->
  exists a b,
    d1 = VArr a /\ d2 = VArr b /\ List.length a = 128%nat /\ List.length b = 128%nat.
Proof.
  unfold FaceRecognitionUtils.compareFaces.
  destruct d1 as [| |b1|x1|s1|a|], d2 as [| |b2|x2|s2|b|]; try discriminate.
  destruct (Nat.eqb_spec (List.length a) 128) as [Ha|]; [|discriminate].
  destruct (Nat.eqb_spec (List.length b) 128) as [Hb|]; [|discriminate].
  intros _. now exists a, b.
Qed.

(** X1.  [compareFaces] returns only on two arrays of 128 elements.  When
    it returns, the distance is the one
    [euclideanDistance] of the route computes, [isMatch] compares it with
    the threshold of the instance, and the confidence is
    [Math.round(Math.max(0, (1 - distance) * 100))], which is never
    negative. *)
Theorem compareFaces_confidence_not_negative
    (recognitionThreshold : float) (d1 d2 : JsValue) (c : FaceRecognitionUtils.Comparison) :
  FaceRecognitionUtils.compareFaces recognitionThreshold d1 d2 = FaceRecognitionUtils.Return c ->
  (exists a b,
      d1 = VArr a /\ d2 = VArr b /\ List.length a = 128%nat /\ List.length b = 128%nat
      /\ FaceRecognitionUtils.distance c = euclideanDistance (Some a) (Some b))
  /\ FaceRecognitionUtils.isMatch c = (FaceRecognitionUtils.distance c <? recognitionThreshold)
  /\ FaceRecognitionUtils.threshold c = recognitionThreshold
  /\ FaceRecognitionUtils.confidence c
     = Math_round (Math_max 0 ((1 - FaceRecognitionUtils.distance c) * 100))
  /\ (FaceRecognitionUtils.confidence c <? 0) = false.
Proof.
  intros Hc. destruct (compareFaces_returns _ _ _ _ Hc) as (a & b & -> & -> & Ha & Hb).
  rewrite (compareFaces_valid _ a b Ha Hb) in Hc. injection Hc as <-.
  cbn [FaceRecognitionUtils.distance FaceRecognitionUtils.isMatch
       FaceRecognitionUtils.threshold FaceRecognitionUtils.confidence].
  split.
  { exists a, b. repeat split; auto.
    unfold euclideanDistance. now rewrite Ha, Hb. }
  repeat split.
  apply FloatSign.Math_round_not_negative, FloatSign.Math_max_0_not_negative.
Qed.

Lemma compareFaces_confidence_not_negative_witness :
  (exists a b,
      VArr Sample.zeros = VArr a /\ VArr (Sample.axis 1.5) = VArr b
      /\ List.length a = 128%nat /\ List.length b = 128%nat
      /\ 1.5 = euclideanDistance (Some a) (Some b))
  /\ true = (1.5 <? 2)
  /\ 2 = 2
  /\ 0 = Math_round (Math_max 0 ((1 - 1.5) * 100))
  /\ (0 <? 0) = false.
Proof.
  apply (compareFaces_confidence_not_negative 2 (VArr Sample.zeros) (VArr (Sample.axis 1.5))
           {| FaceRecognitionUtils.distance := 1.5;
              FaceRecognitionUtils.similarity := 0;
              FaceRecognitionUtils.isMatch := true;
              FaceRecognitionUtils.confidence := 0;
              FaceRecognitionUtils.threshold := 2 |}).
  vm_compute. reflexivity.
Defined.

(** X2.  The two distance functions: where the method of the class returns
    a number, the function of the route returns the same number; where the
    method throws (a missing input, two lengths), the function of the route
    returns [Infinity]. *)
Theorem euclideanDistance_class_and_route (desc1 desc2 : Descriptor) :
  match FaceRecognitionUtils.euclideanDistance desc1 desc2 with
  | FaceRecognitionUtils.Return x =>
      euclideanDistance desc1 desc2 = x
      /\ exists d1 d2,
           desc1 = Some d1 /\ desc2 = Some d2 /\ List.length d1 = List.length d2
  | FaceRecognitionUtils.Throw _ =>
      euclideanDistance desc1 desc2 = Infinity
      /\ (desc1 = None \/ desc2 = None
          \/ exists d1 d2,
               desc1 = Some d1 /\ desc2 = Some d2 /\ List.length d1 <> List.length d2)
  end.
Proof.
  unfold FaceRecognitionUtils.euclideanDistance, euclideanDistance.
  destruct desc1 as [d1|], desc2 as [d2|]; try (split; [reflexivity | tauto]).
  destruct (Nat.eqb_spec (List.length d1) (List.length d2)) as [Hlen|Hlen]; cbn [negb].
  - split; [reflexivity|]. now exists d1, d2.
  - split; [reflexivity|]. right. right. now exists d1, d2.
Qed.

Section Matchers.

Variable recognitionThreshold : float.
Variable useThreshold : float.
Variable target : list JsElem.
Variable student : Student.t.
Hypothesis target_length : List.length target = 128%nat.

(** One stored descriptor, on both sides. *)
Lemma matchers_step (all : list (list JsElem)) (k : nat) (d : list JsElem)
    (vars : ClassMatcher.Vars) (acc : MatchResult) :
  List.length d = 128%nat ->
  nth_error all k = Some d ->
  matchers_related target all student vars acc ->
  exists vars',
    ClassMatcher.callback recognitionThreshold useThreshold (VArr target) vars (VArr d)
      (Z.of_nat k)
    = FaceRecognitionUtils.Return vars'
    /\ matchers_related target all student vars'
         (try_descriptor (Some target) useThreshold student acc (Some d)).
Proof.
  intros Hd Hk Hrel.
  unfold ClassMatcher.callback. rewrite (compareFaces_valid _ target d target_length Hd).
  cbn [FaceRecognitionUtils.distance].
  eexists. split; [reflexivity|].
  assert (Hdist : euclideanDistance (Some target) (Some d) = sqrt (sum_squares target d 0)).
  { unfold euclideanDistance. now rewrite target_length, Hd. }
  unfold try_descriptor. rewrite Hdist.
  set (dd := sqrt (sum_squares target d 0)) in *.
  destruct Hrel as [(Hb & Hmin & Hidx & ->)
                   | (c & b & k0 & d0 & Hb & Hmin & Hidx & -> & Hk0 & Hd0 & Hc & Hconf)];
    cbn [fst]; rewrite Hmin.
  - (* nothing selected so far *)
    rewrite andb_true_r.
    destruct (dd <? useThreshold) eqn:Hlt.
    + rewrite (FloatSign.ltb_below_Infinity dd useThreshold Hlt). cbn [andb].
      right. eexists _, _, k, d. cbn. repeat split; auto.
    + rewrite andb_false_r. left. now repeat split.
  - (* something selected *)
    rewrite andb_comm.
    destruct ((dd <? useThreshold) && (dd <? distance b)).
    + right. eexists _, _, k, d. cbn. repeat split; auto.
    + right. exists c, b, k0, d0. now repeat split.
Qed.

Lemma matchers_loop (pre ds : list (list JsElem)) (vars : ClassMatcher.Vars)
    (acc : MatchResult) :
  Forall (fun d => List.length d = 128%nat) ds ->
  matchers_related target (pre ++ ds) student vars acc ->
  exists vars',
    ClassMatcher.forEach recognitionThreshold useThreshold (VArr target) (map VArr ds)
      (Z.of_nat (List.length pre)) vars
    = FaceRecognitionUtils.Return vars'
    /\ matchers_related target (pre ++ ds) student vars'
         (fold_left (try_descriptor (Some target) useThreshold student) (map Some ds) acc).
Proof.
  revert pre vars acc. induction ds as [|d ds IH]; intros pre vars acc Hall Hrel.
  - exists vars. now split.
  - inversion Hall as [|? ? Hd Hds]; subst.
    destruct (matchers_step (pre ++ d :: ds) (List.length pre) d vars acc Hd)
      as (vars1 & Hcall & Hrel1); [|exact Hrel|].
    { rewrite nth_error_app2, Nat.sub_diag; [reflexivity | lia]. }
    cbn [map ClassMatcher.forEach fold_left]. rewrite Hcall.
    specialize (IH (pre ++ [d]) vars1
                  (try_descriptor (Some target) useThreshold student acc (Some d)) Hds).
    rewrite <- app_assoc in IH. cbn [app] in IH.
    destruct (IH Hrel1) as (vars' & Hloop & Hrel').
    exists vars'. split; [|exact Hrel'].
    rewrite <- Hloop. f_equal. rewrite length_app. cbn [List.length]. lia.
Qed.

End Matchers.

(** X3.  On a probe of 128 elements and stored descriptors of 128 elements
    each, the method [findBestMatch] of the class returns, and it selects
    what [findBestMatch] of the route selects for an active student who has
    those descriptors, at the threshold [threshold || this.recognitionThreshold]:
    nothing on both sides (index -1), or the same distance, found at the
    position of a stored descriptor that is at that distance; the confidence
    of the class is the clamped one. *)
Theorem ClassMatcher_agrees_with_route
    (recognitionThreshold : float) (threshold : option float)
    (target : list JsElem) (ds : list (list JsElem))
    (student : Student.t) (fd : FaceData.t) :
  List.length target = 128%nat ->
  Forall (fun d => List.length d = 128%nat) ds ->
  Student.status student = "active" ->
  Student.faceData student = Some fd ->
  FaceData.descriptors fd = Some (map Some ds) ->
  exists best,
    ClassMatcher.findBestMatch recognitionThreshold (VArr target) (map VArr ds) threshold
    = FaceRecognitionUtils.Return best
    /\ ClassMatcher.totalCompared best = List.length ds
    /\ ClassMatcher.threshold best = or_number threshold recognitionThreshold
    /\ match findBestMatch (Some target) [student]
               (or_number threshold recognitionThreshold) with
       | (None, _) =>
           ClassMatcher.found best = false
           /\ ClassMatcher.match_ best = None
           /\ ClassMatcher.index best = (-1)%Z
       | (Some b, _) =>
           ClassMatcher.found best = true
           /\ exists c k d,
                ClassMatcher.match_ best = Some c
                /\ ClassMatcher.index best = Z.of_nat k
                /\ nth_error ds k = Some d
                /\ distance b = euclideanDistance (Some target) (Some d)
                /\ FaceRecognitionUtils.distance c = distance b
                /\ FaceRecognitionUtils.confidence c
                   = Math_round (Math_max 0 ((1 - distance b) * 100))
       end.
Proof.
  intros Htarget Hds Hstatus Hfd Hdescs.
  set (T := or_number threshold recognitionThreshold).
  destruct (matchers_loop recognitionThreshold T target student Htarget [] ds
              {| ClassMatcher.bestMatch := None;
                 ClassMatcher.minDistance := Infinity;
                 ClassMatcher.bestIndex := (-1)%Z |}
              (None, None) Hds)
    as (vars & Hloop & Hrel).
  { left. now repeat split. }
  cbn [List.length app] in Hloop, Hrel.
  unfold ClassMatcher.findBestMatch. fold T.
  change (Z.of_nat 0) with 0%Z in Hloop. rewrite Hloop.
  eexists. split; [reflexivity|].
  cbn [ClassMatcher.totalCompared ClassMatcher.threshold ClassMatcher.found
       ClassMatcher.match_ ClassMatcher.index].
  split; [apply length_map|]. split; [reflexivity|].
  assert (Hroute : findBestMatch (Some target) [student] T
                   = fold_left (try_descriptor (Some target) T student) (map Some ds)
                               (None, None)).
  { unfold findBestMatch. cbn [fold_left]. unfold try_student.
    rewrite Hstatus, Hfd, Hdescs. reflexivity. }
  rewrite Hroute.
  destruct Hrel as [(Hb & _ & Hidx & ->)
                   | (c & b & k & d & Hb & _ & Hidx & -> & Hk & Hd & Hc & Hconf)].
  - rewrite Hb. now repeat split.
  - rewrite Hb. split; [reflexivity|]. exists c, k, d. now repeat split.
Qed.

Lemma ClassMatcher_agrees_with_route_witness :
  exists best,
    ClassMatcher.findBestMatch 0.6 (VArr Sample.zeros)
      (map VArr [Sample.axis 1.5; Sample.axis 0.25; Sample.zeros]) None
    = FaceRecognitionUtils.Return best
    /\ ClassMatcher.totalCompared best = 3%nat
    /\ ClassMatcher.threshold best = 0.6.
Proof.
  destruct (ClassMatcher_agrees_with_route 0.6 None Sample.zeros
              [Sample.axis 1.5; Sample.axis 0.25; Sample.zeros]
              {| Student.studentId := "S009"; Student.name := "Ida"; Student.class := "4";
                 Student.status := "active";
                 Student.faceData :=
                   Some {| FaceData.descriptors :=
                             Some (map Some [Sample.axis 1.5; Sample.axis 0.25; Sample.zeros]) |} |}
              {| FaceData.descriptors :=
                   Some (map Some [Sample.axis 1.5; Sample.axis 0.25; Sample.zeros]) |}
              eq_refl
              ltac:(repeat constructor) eq_refl eq_refl eq_refl)
    as (best & Hbest & Htotal & Hthr & _).
  exists best. split; [exact Hbest|]. split; [exact Htotal | exact Hthr].
Defined.

Lemma forEach_returns_iff recognitionThreshold useThreshold targetDescriptor
    (stored : list JsValue) (index : Z) (vars : ClassMatcher.Vars) :
  (exists vars',
      ClassMatcher.forEach recognitionThreshold useThreshold targetDescriptor stored index vars
      = FaceRecognitionUtils.Return vars')
  <-> Forall (fun d => exists c,
                FaceRecognitionUtils.compareFaces recognitionThreshold targetDescriptor d
                = FaceRecognitionUtils.Return c) stored.
Proof.
  revert index vars. induction stored as [|d stored IH]; intros index vars.
  - split; [constructor | now exists vars].
  - cbn [ClassMatcher.forEach]. unfold ClassMatcher.callback.
    destruct (FaceRecognitionUtils.compareFaces recognitionThreshold targetDescriptor d)
      as [c|message] eqn:Hc.
    + rewrite IH. split.
      * intros Hall. constructor; [now exists c | exact Hall].
      * intros Hall. now inversion Hall.
    + split.
      * intros [vars' Hv]. discriminate.
      * intros Hall. inversion Hall as [|? ? [c Hc'] ?]. congruence.
Qed.

(** X4.  The method [findBestMatch] of the class is all or nothing: it
    returns exactly when the list of stored descriptors is empty or the probe
    and every stored descriptor are arrays of 128 elements, and throws
    otherwise, whatever it had selected before the bad descriptor.  On the
    empty list it reports nothing found, index -1, for any probe. *)
Theorem ClassMatcher_all_or_nothing
    (recognitionThreshold : float) (targetDescriptor : JsValue)
    (storedDescriptors : list JsValue) (threshold : option float) :
  let r := ClassMatcher.findBestMatch recognitionThreshold targetDescriptor
             storedDescriptors threshold in
  let array128 := fun v : JsValue => exists l, v = VArr l /\ List.length l = 128%nat in
  ((exists best, r = FaceRecognitionUtils.Return best)
   <-> storedDescriptors = []
       \/ (array128 targetDescriptor /\ Forall array128 storedDescriptors))
  /\ (storedDescriptors = [] ->
      r = FaceRecognitionUtils.Return
            {| ClassMatcher.found := false;
               ClassMatcher.match_ := None;
               ClassMatcher.index := (-1)%Z;
               ClassMatcher.totalCompared := 0;
               ClassMatcher.threshold := or_number threshold recognitionThreshold |}).
Proof.
  intros r array128. split; [|intros ->; reflexivity].
  assert (Hshape : forall d,
    (exists c, FaceRecognitionUtils.compareFaces recognitionThreshold targetDescriptor d
               = FaceRecognitionUtils.Return c)
    <-> array128 targetDescriptor /\ array128 d).
  { intros d. split.
    - intros [c Hc]. destruct (compareFaces_returns _ _ _ _ Hc) as (a & b & -> & -> & Ha & Hb).
      split; eexists; eauto.
    - intros [(a & -> & Ha) (b & -> & Hb)]. rewrite (compareFaces_valid _ a b Ha Hb).
      eexists. reflexivity. }
  assert (Hloop :
    (exists best, r = FaceRecognitionUtils.Return best)
    <-> Forall (fun d => exists c,
                  FaceRecognitionUtils.compareFaces recognitionThreshold targetDescriptor d
                  = FaceRecognitionUtils.Return c) storedDescriptors).
  { rewrite <- (forEach_returns_iff recognitionThreshold
                  (or_number threshold recognitionThreshold) targetDescriptor
                  storedDescriptors 0%Z
                  {| ClassMatcher.bestMatch := None;
                     ClassMatcher.minDistance := Infinity;
                     ClassMatcher.bestIndex := (-1)%Z |}).
    subst r. unfold ClassMatcher.findBestMatch.
    destruct (ClassMatcher.forEach _ _ _ _ _ _) as [vars|message].
    - split; intros _; eexists; reflexivity.
    - split; intros [x Hx]; discriminate. }
  rewrite Hloop. rewrite Forall_forall. split.
  - intros Hall. destruct storedDescriptors as [|d rest]; [now left|]. right.
    split.
    + apply (Hshape d), Hall. now left.
    + apply Forall_forall. intros x Hx. apply (Hshape x), Hall, Hx.
  - intros [-> | [Ht Hall]]; [intros x []|].
    intros x Hx. apply Hshape. split; [exact Ht|].
    rewrite Forall_forall in Hall. now apply Hall.
Qed.

(* ================================================================== *)
(** * More on the matcher and on the two handlers *)
(* ================================================================== *)

Lemma findBestMatch_student
    (inputDescriptor : Descriptor) (students : list Student.t) (threshold : float) :
  let r := findBestMatch inputDescriptor students threshold in
  (fst r = None <-> snd r = None)
  /\ (forall s, snd r = Some s -> In s students /\ Student.status s = "active").
Proof.
  intros r.
  pose proof (findBestMatch_outcome inputDescriptor threshold students) as H. fold r in H.
  destruct H as [[Hr _] | (pre & [s x] & post & Hpairs & Hr & _)]; rewrite Hr.
  - repeat split; auto; discriminate.
  - assert (Hin : In (s, x) (candidate_pairs students))
      by (rewrite Hpairs; apply in_or_app; right; now left).
    apply In_candidate_pairs in Hin. destruct Hin as (Hs & Hst & _).
    cbn [match_on fst snd]. split; [split; discriminate|].
    intros s' [= <-]. now split.
Qed.

(** X5.  [findBestMatch] returns a distance and a student together or
    neither; a student it returns is one of the list and has the status
    ['active']; a list without an active student, the empty list among them,
    gives no match. *)
Theorem findBestMatch_matches_active_only
    (inputDescriptor : Descriptor) (students : list Student.t) (threshold : float) :
  let r := findBestMatch inputDescriptor students threshold in
  (fst r = None <-> snd r = None)
  /\ (forall s, snd r = Some s -> In s students /\ Student.status s = "active")
  /\ ((forall s, In s students -> Student.status s <> "active") -> r = (None, None)).
Proof.
  intros r.
  destruct (findBestMatch_student inputDescriptor students threshold) as [Hboth Hactive].
  fold r in Hboth, Hactive.
  split; [exact Hboth|]. split; [exact Hactive|].
  intros Hnone.
  destruct r as [[best|] [s|]] eqn:Hr; cbn [fst snd] in *.
  - destruct (Hactive s eq_refl) as [Hin Hst]. now destruct (Hnone s Hin).
  - now destruct (proj2 Hboth eq_refl).
  - now destruct (proj1 Hboth eq_refl).
  - reflexivity.
Qed.

Lemma attendance_key_fields (a : Attendance.t) (studentId date session : string) :
  attendance_key a = (studentId, date, session) ->
  Attendance.studentId a = studentId
  /\ Attendance.date a = date
  /\ Attendance.session a = session.
Proof. unfold attendance_key. intros [= H1 H2 H3]. auto. Qed.

Lemma push_attendance_frame (record : Attendance.t) (db : Database.t) :
  Database.students (push_attendance record db) = Database.students db
  /\ Database.meals (push_attendance record db) = Database.meals db
  /\ Database.settings (push_attendance record db) = Database.settings db.
Proof. now repeat split. Qed.

(** The answer and the document of a recognised request. *)
Lemma markAttendance_cases env student best ts sess type db :
  let date := slice0 10 ts in
  let label := or_string sess (name (getCurrentTimeSlot (now env))) in
  (exists existing,
      find (same_bucket (Student.studentId student) date label) (Database.attendance db)
      = Some existing
      /\ markAttendance env student best ts sess type db
         = (AlreadyMarked (Student.name student) (Student.studentId student) label
                          (Attendance.timestamp existing), db))
  \/ (exists record,
        find (same_bucket (Student.studentId student) date label) (Database.attendance db)
        = None
        /\ markAttendance env student best ts sess type db
           = (Marked (Student.name student) (Student.studentId student) label ts
                     (confidence best), push_attendance record db)
        /\ attendance_key record = (Student.studentId student, date, label)
        /\ Attendance.timestamp record = ts
        /\ Attendance.confidence record = confidence best
        /\ Attendance.status record = "present").
Proof.
  intros date label. unfold markAttendance. fold date label.
  destruct (find _ (Database.attendance db)) as [existing|] eqn:Hfind.
  - left. now exists existing.
  - right. eexists. split; [reflexivity|]. now repeat split.
Qed.

(** What [post_mark] does, by the validation and the outcome of the match. *)
Lemma post_mark_cases env body db :
  (snd (post_mark env body db) = db
   /\ ((exists message, fst (post_mark env body db) = BadRequest message)
       \/ fst (post_mark env body db) = NotRecognized))
  \/ (exists elems ts best student,
        faceDescriptor body = VArr elems
        /\ timestamp body = Some ts
        /\ findBestMatch (Some elems) (Database.students db)
             (or_number (Settings.recognitionThreshold (Database.settings db)) 0.6)
           = (Some best, Some student)
        /\ post_mark env body db
           = (fst (markAttendance env student best ts (session body) (sessionType body) db),
              if writeOk env
              then snd (markAttendance env student best ts (session body) (sessionType body) db)
              else db)).
Proof.
  unfold post_mark.
  destruct (negb (truthy (faceDescriptor body)) || negb (truthy_opt (timestamp body)));
    [left; split; [reflexivity | left; eexists; reflexivity]|].
  destruct (faceDescriptor body) as [| |b1|x1|s1|elems|];
    try (left; split; [reflexivity | left; eexists; reflexivity]).
  destruct (timestamp body) as [ts|];
    [|left; split; [reflexivity | left; eexists; reflexivity]].
  destruct (negb (List.length elems =? 128)%nat);
    [left; split; [reflexivity | left; eexists; reflexivity]|].
  pose proof (findBestMatch_student (Some elems) (Database.students db)
                (or_number (Settings.recognitionThreshold (Database.settings db)) 0.6))
    as [Hboth _].
  destruct (findBestMatch _ _ _) as [[best|] [student|]] eqn:Hmatch; cbn [fst snd] in Hboth.
  - right. exists elems, ts, best, student. repeat split.
    all: now destruct (markAttendance env student best ts (session body) (sessionType body) db).
  - left. split; [reflexivity | now right].
  - destruct Hboth as [Hboth _]. now specialize (Hboth eq_refl).
  - left. split; [reflexivity | now right].
Qed.

(** X6.  The attendance handler only appends: it never changes the
    students, the meal records or the settings, and the attendance records
    afterwards are the records before, in the same order and unchanged, with
    at most one new record at the end, whose status is ['present'] and whose
    date is the first ten characters of its timestamp. *)
Theorem post_mark_appends_only (env : Env) (body : MarkBody) (db : Database.t) :
  let db' := snd (post_mark env body db) in
  Database.students db' = Database.students db
  /\ Database.meals db' = Database.meals db
  /\ Database.settings db' = Database.settings db
  /\ (db' = db
      \/ exists record,
           Database.attendance db' = Database.attendance db ++ [record]
           /\ Attendance.status record = "present"
           /\ Attendance.date record = slice0 10 (Attendance.timestamp record)
           /\ ~ In (attendance_key record) (map attendance_key (Database.attendance db))).
Proof.
  intros db'. subst db'.
  assert (Hsame : forall d : Database.t,
            Database.students d = Database.students d
            /\ Database.meals d = Database.meals d
            /\ Database.settings d = Database.settings d
            /\ (d = d
                \/ exists record,
                     Database.attendance d = Database.attendance d ++ [record]
                     /\ Attendance.status record = "present"
                     /\ Attendance.date record = slice0 10 (Attendance.timestamp record)
                     /\ ~ In (attendance_key record)
                            (map attendance_key (Database.attendance d))))
    by (intros d; repeat split; now left).
  destruct (post_mark_cases env body db)
    as [[-> _] | (elems & ts & best & student & _ & _ & _ & ->)]; [apply Hsame|].
  cbn [snd]. destruct (writeOk env); [|apply Hsame].
  destruct (markAttendance_cases env student best ts (session body) (sessionType body) db)
    as [(existing & _ & ->) | (record & Hfind & -> & Hkey & Hts & _ & Hstatus)]; cbn [snd].
  - apply Hsame.
  - repeat split. right. exists record.
    destruct (attendance_key_fields _ _ _ _ Hkey) as (H1 & H2 & H3).
    split; [reflexivity|]. split; [exact Hstatus|]. split.
    + rewrite Hts. exact H2.
    + rewrite Hkey. eapply find_none_fresh_key; [|exact Hfind].
      intros a. apply same_bucket_key.
Qed.

(** X7.  The answer of the attendance handler and what it stores, for a
    request whose timestamp and labels are strings or absent.  A refusal
    (400) and an unrecognised face leave the document as it was.  The session
    of the two other answers is the label of the request, or the name of the
    slot of the server's clock when the request has none.  [alreadyMarked]
    leaves the document as it was: a stored record has the studentId and the
    session of the answer and the date of the request (the first ten
    characters of its timestamp), and the answer carries the timestamp of the
    first such record.  [Attendance marked successfully] carries the
    timestamp of the request and describes a record with that key, which no
    stored record had: it is stored at the end when the write succeeds, and
    when the write fails the answer is the same while nothing is stored.
    Nothing is stated about the answer 500 of the [catch] block. *)
Theorem post_mark_answer_and_store (env : Env) (body : MarkBody) (db : Database.t) :
  let db' := snd (post_mark env body db) in
  let label := or_string (session body) (name (getCurrentTimeSlot (now env))) in
  match fst (post_mark env body db) with
  | BadRequest _ | NotRecognized => db' = db
  | InternalError => True
  | AlreadyMarked _ sid sess stamp =>
      db' = db
      /\ sess = label
      /\ exists ts pre a post,
           timestamp body = Some ts
           /\ Database.attendance db = pre ++ a :: post
           /\ attendance_key a = (sid, slice0 10 ts, sess)
           /\ ~ In (sid, slice0 10 ts, sess) (map attendance_key pre)
           /\ Attendance.timestamp a = stamp
  | Marked _ sid sess stamp conf =>
      timestamp body = Some stamp
      /\ sess = label
      /\ exists record,
           attendance_key record = (sid, slice0 10 stamp, sess)
           /\ Attendance.timestamp record = stamp
           /\ Attendance.confidence record = conf
           /\ ~ In (attendance_key record) (map attendance_key (Database.attendance db))
           /\ db' = if writeOk env then push_attendance record db else db
  end.
Proof.
  intros db' label. subst db'.
  destruct (post_mark_cases env body db)
    as [[Hdb [[message ->] | ->]] | (elems & ts & best & student & _ & Hts & _ & ->)];
    try exact Hdb.
  cbn [fst snd].
  destruct (markAttendance_cases env student best ts (session body) (sessionType body) db)
    as [(existing & Hfind & ->) | (record & Hfind & -> & Hkey & Hstamp & Hconf & _)];
    cbn [fst snd].
  - split; [now destruct (writeOk env)|]. split; [reflexivity|].
    destruct (find_some_first _ _ _ Hfind) as (pre & post & Hsplit & Hsame & Hpre).
    exists ts, pre, existing, post.
    split; [exact Hts|]. split; [exact Hsplit|].
    split; [now apply same_bucket_key|]. split; [|reflexivity].
    intros Hin. apply in_map_iff in Hin. destruct Hin as (a & Ha & Hin).
    apply same_bucket_key in Ha. rewrite (Hpre a Hin) in Ha. discriminate.
  - split; [exact Hts|]. split; [reflexivity|].
    exists record. split; [exact Hkey|]. split; [exact Hstamp|]. split; [exact Hconf|].
    split; [|reflexivity].
    rewrite Hkey. eapply find_none_fresh_key; [|exact Hfind].
    intros a. apply same_bucket_key.
Qed.

Lemma meal_key_fields (m : Meal.t) (studentId date : string) :
  meal_key m = (studentId, date) -> Meal.studentId m = studentId /\ Meal.date m = date.
Proof. unfold meal_key. intros [= H1 H2]. auto. Qed.

(** The three outcomes of the ledger step of the meal handler. *)
Lemma markMeal_cases env studentId ts ip ua db :
  (find (active_with_id studentId) (Database.students db) = None
   /\ markMeal env studentId ts ip ua db = (MealNotFound "Student not found or inactive", db))
  \/ (exists student existing,
        find (active_with_id studentId) (Database.students db) = Some student
        /\ find (same_day studentId (split_T_0 ts)) (Database.meals db) = Some existing
        /\ markMeal env studentId ts ip ua db
           = (MealAlreadyMarked existing (summary student), db))
  \/ (exists student record,
        find (active_with_id studentId) (Database.students db) = Some student
        /\ find (same_day studentId (split_T_0 ts)) (Database.meals db) = None
        /\ markMeal env studentId ts ip ua db
           = (MealServed record (summary student), push_meal record db)
        /\ meal_key record = (studentId, split_T_0 ts)
        /\ Meal.timestamp record = ts
        /\ Meal.status record = "served").
Proof.
  unfold markMeal.
  destruct (find (active_with_id studentId) _) as [student|]; [|now left].
  destruct (find (same_day _ _) _) as [existing|]; right.
  - left. now exists student, existing.
  - right. eexists student, _. repeat split; reflexivity.
Qed.

Lemma active_with_id_fields (studentId : string) (s : Student.t) :
  active_with_id studentId s = true
  <-> Student.studentId s = studentId /\ Student.status s = "active".
Proof. unfold active_with_id. now rewrite andb_true_iff, !String.eqb_eq. Qed.

(** X8.  The answer of the meal handler and what it stores.  The handler
    never changes the students, the attendance records or the settings.  A
    refusal (400), [Student not found or inactive] (404, given when no
    student with that identifier is active, whatever meal records exist) and
    [alreadyMarked] (with a stored record of that student and date) leave
    the document as it was.  The answer that the meal is served is given
    only when the write succeeded: the record is then the last one stored,
    with the status ['served'], for an active student, under a key that no
    stored record had; when the write fails the answer is the failure (500)
    and nothing is stored. *)
Theorem post_meal_mark_answer_and_store (env : Env) (body : MealBody.t) (db : Database.t) :
  let db' := snd (post_meal_mark env body db) in
  Database.students db' = Database.students db
  /\ Database.attendance db' = Database.attendance db
  /\ Database.settings db' = Database.settings db
  /\ match fst (post_meal_mark env body db) with
     | MealBadRequest _ =>
         db' = db
         /\ (truthy_opt (MealBody.studentId body) = false
             \/ truthy_opt (MealBody.timestamp body) = false)
     | MealNotFound _ =>
         db' = db
         /\ exists studentId,
              MealBody.studentId body = Some studentId
              /\ forall s, In s (Database.students db) ->
                   ~ (Student.studentId s = studentId /\ Student.status s = "active")
     | MealAlreadyMarked mealRecord _ =>
         db' = db
         /\ In mealRecord (Database.meals db)
         /\ exists studentId ts,
              MealBody.studentId body = Some studentId
              /\ MealBody.timestamp body = Some ts
              /\ meal_key mealRecord = (studentId, split_T_0 ts)
     | MealServed mealRecord student =>
         writeOk env = true
         /\ Database.meals db' = Database.meals db ++ [mealRecord]
         /\ ~ In (meal_key mealRecord) (map meal_key (Database.meals db))
         /\ Meal.status mealRecord = "served"
         /\ exists s,
              In s (Database.students db)
              /\ Student.status s = "active"
              /\ Student.studentId s = Meal.studentId mealRecord
              /\ student = summary s
     | MealSaveFailed _ => writeOk env = false /\ db' = db
     end.
Proof.
  intros db'. subst db'. unfold post_meal_mark.
  destruct (MealBody.studentId body) as [studentId|] eqn:Hid;
    [|repeat split; now left].
  destruct (MealBody.timestamp body) as [ts|] eqn:Hts;
    [|repeat split; now right].
  cbn [truthy_opt].
  destruct (truthy_string studentId) eqn:Htid; cbn [negb orb];
    [|repeat split; now left].
  destruct (truthy_string ts) eqn:Htts; cbn [negb orb];
    [|repeat split; now right].
  destruct (markMeal_cases env studentId ts (MealBody.ip body) (MealBody.userAgent body) db)
    as [[Hnone ->]
       | [(student & existing & Hstudent & Hfind & ->)
         | (student & record & Hstudent & Hfind & -> & Hkey & _ & Hstatus)]];
    cbn [fst snd].
  - repeat split. exists studentId. split; [reflexivity|].
    intros s Hs Hactive. apply active_with_id_fields in Hactive.
    pose proof (find_none _ _ Hnone s Hs). congruence.
  - repeat split.
    + apply find_some in Hfind. apply Hfind.
    + exists studentId, ts. repeat split.
      apply find_some in Hfind. now apply same_day_key.
  - unfold writeDatabase. destruct (writeOk env); cbn [negb fst snd]; [|now repeat split].
    cbn [Database.students Database.attendance Database.settings Database.meals push_meal].
    repeat split; try assumption.
    + rewrite Hkey. eapply find_none_fresh_key; [|exact Hfind].
      intros m. apply same_day_key.
    + apply find_some in Hstudent. destruct Hstudent as [Hin Hactive].
      apply active_with_id_fields in Hactive. destruct Hactive as [Hsid Hst].
      exists student. destruct (meal_key_fields _ _ _ Hkey) as [Hm _].
      repeat split; try assumption. now rewrite Hm.
Qed.

Lemma NoDup_students_of_day (targetDate : string) (meals : list Meal.t) :
  NoDup (map meal_key meals) ->
  NoDup (map Meal.studentId (filter (on_date targetDate) meals)).
Proof.
  induction meals as [|m meals IH]; intros Hnd; [constructor|].
  inversion Hnd as [|? ? Hnotin Hnd']; subst.
  cbn [filter]. destruct (on_date targetDate m) eqn:Hm; [|now apply IH].
  cbn [map]. constructor; [|now apply IH].
  intros Hin. apply in_map_iff in Hin. destruct Hin as (m' & Hid & Hm').
  apply filter_In in Hm'. destruct Hm' as [Hin' Hdate'].
  apply Hnotin. apply in_map_iff. exists m'. split; [|exact Hin'].
  unfold on_date in Hm, Hdate'. apply String.eqb_eq in Hm, Hdate'.
  unfold meal_key. congruence.
Qed.

Lemma filter_none {A : Type} (f : A -> bool) (l : list A) :
  (forall a, In a l -> f a = false) -> filter f l = [].
Proof.
  induction l as [|a l IH]; intros H; cbn [filter]; [reflexivity|].
  rewrite (H a (or_introl eq_refl)). apply IH. intros b Hb. apply H. now right.
Qed.

(** X9.  The meal statistics of a reachable document, for the day asked or
    else the day of the server's clock.  [mealsServedToday] is the number of
    students who have a meal record of that day: there is a list without
    repetition of exactly the identifiers that occur in a meal record of the
    day, and [mealsServedToday] is its length.  [mealsRemaining] is never
    negative; and when no student has the status 'active', [totalStudents]
    and [mealRate] are 0. *)
Theorem get_meal_stats_counts_students (env : Env) (date : option string) (db : Database.t) :
  reachable db ->
  let stats := get_meal_stats env date db in
  let day := or_string date (split_T_0 (toISOString env)) in
  MealStats.date stats = day
  /\ (exists students_served : list string,
        NoDup students_served
        /\ (forall studentId,
              In studentId students_served
              <-> exists meal, In meal (Database.meals db)
                               /\ Meal.studentId meal = studentId
                               /\ Meal.date meal = day)
        /\ MealStats.mealsServedToday stats = length_number students_served)
  /\ (MealStats.mealsRemaining stats <? 0) = false
  /\ ((forall s, In s (Database.students db) -> Student.status s <> "active") ->
      MealStats.totalStudents stats = 0 /\ MealStats.mealRate stats = 0).
Proof.
  intros Hreach stats day. subst stats. unfold get_meal_stats. fold day.
  cbn [MealStats.date MealStats.mealsServedToday MealStats.mealsRemaining
       MealStats.totalStudents MealStats.mealRate].
  split; [reflexivity|]. split.
  { exists (map Meal.studentId (filter (on_date day) (Database.meals db))).
    split; [apply NoDup_students_of_day; now apply reachable_unique|].
    split.
    - intros studentId. rewrite in_map_iff. split.
      + intros (meal & Hid & Hin). apply filter_In in Hin. destruct Hin as [Hin Hday].
        exists meal. repeat split; try assumption. now apply String.eqb_eq.
      + intros (meal & Hin & Hid & Hday). exists meal. split; [exact Hid|].
        apply filter_In. split; [exact Hin|]. now apply String.eqb_eq.
    - unfold length_number. now rewrite length_map. }
  split; [apply FloatSign.Math_max_0_not_negative|].
  intros Hnone.
  rewrite (filter_none is_active (Database.students db)).
  - split; reflexivity.
  - intros s Hs. unfold is_active.
    destruct (String.eqb_spec (Student.status s) "active") as [Hactive|]; [|reflexivity].
    now destruct (Hnone s Hs).
Qed.

Lemma get_meal_stats_counts_students_witness :
  (exists students_served : list string,
      NoDup students_served
      /\ (forall studentId,
            In studentId students_served
            <-> exists meal, In meal (Database.meals Sample.lunches)
                             /\ Meal.studentId meal = studentId
                             /\ Meal.date meal = "2026-01-02")
      /\ MealStats.mealsServedToday
           (get_meal_stats (Sample.at_time 12 45) (Some "2026-01-02") Sample.lunches)
         = length_number students_served)
  /\ MealStats.mealsServedToday
       (get_meal_stats (Sample.at_time 12 45) (Some "2026-01-02") Sample.lunches) = 2
  /\ MealStats.mealsRemaining
       (get_meal_stats (Sample.at_time 12 45) (Some "2026-01-02") Sample.lunches) = 0
  /\ List.length (Database.meals Sample.lunches) = 3%nat.
Proof.
  split.
  - assert (Hreach : reachable Sample.lunches).
    { unfold Sample.lunches. repeat apply reachable_post_meal_mark.
      exact (reachable_initial _ _ _). }
    exact (proj1 (proj2 (get_meal_stats_counts_students (Sample.at_time 12 45)
                           (Some "2026-01-02") Sample.lunches Hreach))).
  - vm_compute. repeat split; reflexivity.
Defined.

(* ================================================================== *)
(** * The pages of the browser *)
(* ================================================================== *)

Lemma session_loop_find (cfg : list SlotConfig) (t : TimeOfDay) :
  valid_time t ->
  (forall c, In c cfg -> valid_time (cfg_start c) /\ valid_time (cfg_end c)) ->
  Client.session_loop (map entry_of cfg) (toTimeString_slice_0_5 t)
  = match find (fun c => contains c t) cfg with
    | Some c => {| slot_type := cfg_key c; name := cfg_name c; active := true |}
    | None => {| slot_type := "morning"; name := "Morning Session"; active := false |}
    end.
Proof.
  intros Ht. induction cfg as [|c cfg IH]; intros Hcfg; [reflexivity|].
  destruct (Hcfg c (or_introl eq_refl)) as [Hs He].
  cbn [map entry_of Client.session_loop find slot_start slot_end slot_name].
  rewrite !leb_time_strings by assumption. fold (contains c t).
  destruct (contains c t); [reflexivity|].
  apply IH. intros c' Hc'. apply Hcfg. now right.
Qed.

Lemma three_valid (a b c : SlotConfig) :
  (valid_time (cfg_start a) /\ valid_time (cfg_end a)) ->
  (valid_time (cfg_start b) /\ valid_time (cfg_end b)) ->
  (valid_time (cfg_start c) /\ valid_time (cfg_end c)) ->
  forall x, In x [a; b; c] -> valid_time (cfg_start x) /\ valid_time (cfg_end x).
Proof. intros Ha Hb Hc x [<- | [<- | [<- | []]]]; assumption. Qed.

(** X10.  The session of the page and the session of the server at the same
    time of day.  Inside a slot they are the same, except at 13:00, where the
    server answers meal and the page afternoon (the page declares afternoon
    before meal).  Outside every slot the server answers 'No Active Session'
    and the page 'Morning Session', not active. *)
Theorem getCurrentSession_and_getCurrentTimeSlot (t : TimeOfDay) :
  valid_time t ->
  let page := Client.getCurrentSession t in
  let server := getCurrentTimeSlot t in
  let m := minutes_of_day t in
  active page = active server
  /\ (active server = true <-> (480 <= m <= 1020)%nat)
  /\ (active server = true -> m <> 780%nat -> page = server)
  /\ (m = 780%nat ->
      server = {| slot_type := "meal"; name := "Mid-Day Meal"; active := true |}
      /\ page = {| slot_type := "afternoon"; name := "Afternoon Session"; active := true |})
  /\ (active server = false ->
      server = no_active_session
      /\ page = {| slot_type := "morning"; name := "Morning Session"; active := false |}).
Proof.
  intros Ht page server m. subst page server.
  unfold Client.getCurrentSession, getCurrentTimeSlot.
  change Client.timeSlots with (map entry_of client_boundaries).
  change slots with (map entry_of default_boundaries).
  rewrite (session_loop_find client_boundaries t Ht),
          (first_slot_find default_boundaries t Ht);
    try (apply three_valid; unfold valid_time; cbn; lia).
  unfold client_boundaries, default_boundaries, contains.
  cbn [find cfg_start cfg_end cfg_key cfg_name].
  change (minutes_of_day (mkTime 8 0)) with 480%nat.
  change (minutes_of_day (mkTime 12 0)) with 720%nat.
  change (minutes_of_day (mkTime 13 0)) with 780%nat.
  change (minutes_of_day (mkTime 17 0)) with 1020%nat.
  fold m. clearbody m.
  destruct (Nat.leb_spec 480 m), (Nat.leb_spec m 720), (Nat.leb_spec 720 m),
           (Nat.leb_spec m 780), (Nat.leb_spec 780 m), (Nat.leb_spec m 1020);
    cbn [andb active]; try lia;
    repeat split; intros; try reflexivity; try discriminate; try lia.
Qed.

Lemma getCurrentSession_and_getCurrentTimeSlot_witness :
  active (Client.getCurrentSession (mkTime 13 0)) = active (getCurrentTimeSlot (mkTime 13 0))
  /\ (active (getCurrentTimeSlot (mkTime 13 0)) = true <-> (480 <= 780 <= 1020)%nat).
Proof.
  destruct (getCurrentSession_and_getCurrentTimeSlot (mkTime 13 0)) as (H1 & H2 & _).
  - unfold valid_time; cbn; lia.
  - split; [exact H1 | exact H2].
Defined.

(** The four objects that [getCurrentSession] can return. *)
Lemma getCurrentSession_values (t : TimeOfDay) :
  In (name (Client.getCurrentSession t), slot_type (Client.getCurrentSession t))
     [("Morning Session", "morning"); ("Afternoon Session", "afternoon");
      ("Mid-Day Meal", "meal")].
Proof.
  unfold Client.getCurrentSession, Client.timeSlots.
  cbn [Client.session_loop slot_start slot_end slot_name].
  repeat match goal with
         | |- context [if ?b then _ else _] => destruct b
         end; cbn [name slot_type In]; tauto.
Qed.

Lemma markAttendance_new env student best ts sess type db :
  find (same_bucket (Student.studentId student) (slice0 10 ts)
          (or_string sess (name (getCurrentTimeSlot (now env)))))
       (Database.attendance db) = None ->
  markAttendance env student best ts sess type db
  = (Marked (Student.name student) (Student.studentId student)
            (or_string sess (name (getCurrentTimeSlot (now env)))) ts (confidence best),
     push_attendance (new_attendance env student best ts sess type) db).
Proof. intros Hfind. unfold markAttendance. rewrite Hfind. reflexivity. Qed.

Lemma markAttendance_existing env student best ts sess type db existing :
  find (same_bucket (Student.studentId student) (slice0 10 ts)
          (or_string sess (name (getCurrentTimeSlot (now env)))))
       (Database.attendance db) = Some existing ->
  markAttendance env student best ts sess type db
  = (AlreadyMarked (Student.name student) (Student.studentId student)
                   (or_string sess (name (getCurrentTimeSlot (now env))))
                   (Attendance.timestamp existing), db).
Proof. intros Hfind. unfold markAttendance. rewrite Hfind. reflexivity. Qed.

Lemma snoc_inj {A : Type} (l : list A) (x y : A) : l ++ [x] = l ++ [y] -> x = y.
Proof. intros H. apply app_inv_head in H. now injection H. Qed.

Lemma not_snoc {A : Type} (l : list A) (x : A) : l <> l ++ [x].
Proof.
  intros H. apply (f_equal (@List.length A)) in H.
  rewrite length_app in H. cbn in H. lia.
Qed.

(** X11.  A request built by [processAttendance] always names its session:
    whatever the clock of the server says, the answer of the handler and the
    record it stores carry the session and the type that the page resolved,
    one of morning, afternoon and meal, and never 'No Active Session'. *)
Theorem processAttendance_session_wins
    (env : Env) (faceDescriptor : list float) (iso : string) (pageTime : TimeOfDay)
    (db : Database.t) :
  let body := Client.attendancePayload faceDescriptor iso pageTime in
  let page := Client.getCurrentSession pageTime in
  In (name page, slot_type page)
     [("Morning Session", "morning"); ("Afternoon Session", "afternoon");
      ("Mid-Day Meal", "meal")]
  /\ match fst (post_mark env body db) with
     | Marked _ _ session _ _ | AlreadyMarked _ _ session _ => session = name page
     | _ => True
     end
  /\ forall record,
       Database.attendance (snd (post_mark env body db))
       = Database.attendance db ++ [record] ->
       Attendance.session record = name page
       /\ Attendance.sessionType record = slot_type page
       /\ Attendance.session record <> "No Active Session".
Proof.
  intros body page.
  pose proof (getCurrentSession_values pageTime) as Hvalues. fold page in Hvalues.
  assert (Hname : name page <> "" /\ name page <> "No Active Session"
                  /\ slot_type page <> "").
  { revert Hvalues. generalize (name page) (slot_type page). intros n ty Hvalues.
    cbn [In] in Hvalues.
    destruct Hvalues as [H | [H | [H | []]]]; injection H as <- <-;
      repeat split; discriminate. }
  destruct Hname as (Hname & Hnot & Htype).
  split; [exact Hvalues|].
  assert (Hsess : forall fallback, or_string (session body) fallback = name page)
    by (intros fallback; apply or_string_truthy, Hname).
  assert (Hty : forall fallback, or_string (sessionType body) fallback = slot_type page)
    by (intros fallback; apply or_string_truthy, Htype).
  destruct (post_mark_cases env body db)
    as [[Hdb [[message Hfst] | Hfst]] | (elems & ts & best & student & _ & _ & _ & Heq)].
  - rewrite Hfst, Hdb. split; [exact I|]. intros record Hrec. now destruct (not_snoc _ _ Hrec).
  - rewrite Hfst, Hdb. split; [exact I|]. intros record Hrec. now destruct (not_snoc _ _ Hrec).
  - rewrite Heq. cbn [fst snd].
    destruct (find (same_bucket (Student.studentId student) (slice0 10 ts)
                      (or_string (session body) (name (getCurrentTimeSlot (now env)))))
                   (Database.attendance db)) as [existing|] eqn:Hfind.
    + rewrite (markAttendance_existing _ _ _ _ _ _ _ _ Hfind). cbn [fst snd].
      split; [apply Hsess|].
      intros record Hrec. destruct (writeOk env); now destruct (not_snoc _ _ Hrec).
    + rewrite (markAttendance_new _ _ _ _ _ _ _ Hfind). cbn [fst snd].
      split; [apply Hsess|].
      intros record Hrec. destruct (writeOk env); [|now destruct (not_snoc _ _ Hrec)].
      cbn [push_attendance Database.attendance] in Hrec. apply snoc_inj in Hrec. subst record.
      unfold new_attendance. cbn [Attendance.session Attendance.sessionType].
      rewrite Hsess, Hty. now repeat split.
Qed.

Lemma truthy_string_nonempty (s : string) : s <> "" -> truthy_string s = true.
Proof. intros Hs. unfold truthy_string. now destruct (String.eqb_spec s ""). Qed.

(** The stored document after a successful write of [server.js]. *)
Lemma writeDatabase_ok env stored data :
  writeOk env = true ->
  snd (writeDatabase env stored data) = true
  /\ Database.students (fst (writeDatabase env stored data)) = Database.students data
  /\ Database.attendance (fst (writeDatabase env stored data)) = Database.attendance data
  /\ Database.meals (fst (writeDatabase env stored data)) = Database.meals data
  /\ Database.settings (fst (writeDatabase env stored data)) = Database.settings data.
Proof. intros Hw. unfold writeDatabase. rewrite Hw. now repeat split. Qed.

Lemma post_meal_mark_served env body db studentId ts student :
  MealBody.studentId body = Some studentId ->
  MealBody.timestamp body = Some ts ->
  studentId <> "" -> ts <> "" ->
  find (active_with_id studentId) (Database.students db) = Some student ->
  find (same_day studentId (split_T_0 ts)) (Database.meals db) = None ->
  writeOk env = true ->
  let mealRecord :=
    new_meal env student studentId ts (MealBody.ip body) (MealBody.userAgent body) in
  post_meal_mark env body db
  = (MealServed mealRecord (summary student),
     fst (writeDatabase env db (push_meal mealRecord db))).
Proof.
  intros Hid Hts Hne1 Hne2 Hstudent Hfind Hw mealRecord.
  unfold post_meal_mark. rewrite Hid, Hts, !truthy_string_nonempty by assumption.
  cbn [negb orb]. unfold markMeal. rewrite Hstudent, Hfind.
  fold (new_meal env student studentId ts (MealBody.ip body) (MealBody.userAgent body)).
  fold mealRecord. unfold writeDatabase. rewrite Hw. reflexivity.
Qed.

Lemma post_meal_mark_already env body db studentId ts student existing :
  MealBody.studentId body = Some studentId ->
  MealBody.timestamp body = Some ts ->
  studentId <> "" -> ts <> "" ->
  find (active_with_id studentId) (Database.students db) = Some student ->
  find (same_day studentId (split_T_0 ts)) (Database.meals db) = Some existing ->
  post_meal_mark env body db = (MealAlreadyMarked existing (summary student), db).
Proof.
  intros Hid Hts Hne1 Hne2 Hstudent Hfind.
  unfold post_meal_mark. rewrite Hid, Hts, !truthy_string_nonempty by assumption.
  cbn [negb orb]. unfold markMeal. rewrite Hstudent, Hfind. reflexivity.
Qed.

Lemma find_active_student (students : list Student.t) (student : Student.t) :
  In student students ->
  Student.status student = "active" ->
  exists s,
    find (active_with_id (Student.studentId student)) students = Some s
    /\ Student.studentId s = Student.studentId student.
Proof.
  intros Hin Hactive.
  destruct (find (active_with_id (Student.studentId student)) students) as [s|] eqn:Hfind.
  - exists s. split; [reflexivity|]. apply find_some in Hfind.
    destruct Hfind as [_ Hs]. now apply active_with_id_fields in Hs.
  - pose proof (find_none _ _ Hfind student Hin) as Hno.
    assert (active_with_id (Student.studentId student) student = true)
      by now apply active_with_id_fields.
    congruence.
Qed.

(** X12.  Two scans of the same face on the meal page, on the same day.
    The page first posts the descriptor to the attendance route under the
    session 'Mid-Day Meal', then posts the recognised studentId to the meal
    route.  When the student had neither that attendance record nor a meal
    record of the day and both writes succeed, the first scan shows the
    success, and it has stored one attendance record, of session 'Mid-Day
    Meal' and type 'meal', and one meal record; the second scan stores
    nothing and shows that the student has already received the meal. *)
Theorem processMealDistribution_twice
    (envV1 envM1 envV2 envM2 : Env) (iso1 iso2 iso3 iso4 : string)
    (ip : string) (userAgent : option string) (faceDescriptor : list float)
    (db : Database.t) (best : BestMatch) (student : Student.t) :
  List.length faceDescriptor = 128%nat ->
  iso1 <> "" -> iso2 <> "" -> iso3 <> "" -> iso4 <> "" ->
  findBestMatch (Some (map Client.JSON_number faceDescriptor)) (Database.students db)
    (or_number (Settings.recognitionThreshold (Database.settings db)) 0.6)
  = (Some best, Some student) ->
  Student.studentId student <> "" ->
  find (same_bucket (Student.studentId student) (slice0 10 iso1) "Mid-Day Meal")
       (Database.attendance db) = None ->
  find (same_day (Student.studentId student) (split_T_0 iso2)) (Database.meals db) = None ->
  slice0 10 iso3 = slice0 10 iso1 ->
  split_T_0 iso4 = split_T_0 iso2 ->
  writeOk envV1 = true ->
  writeOk envM1 = true ->
  exists attendanceRecord mealRecord db1,
    Client.processMealDistribution envV1 envM1 iso1 iso2 ip userAgent faceDescriptor db
    = (Client.MealSuccess (Student.name student) (Student.studentId student) mealRecord, db1)
    /\ Database.students db1 = Database.students db
    /\ Database.attendance db1 = Database.attendance db ++ [attendanceRecord]
    /\ attendance_key attendanceRecord
       = (Student.studentId student, slice0 10 iso1, "Mid-Day Meal")
    /\ Attendance.sessionType attendanceRecord = "meal"
    /\ Database.meals db1 = Database.meals db ++ [mealRecord]
    /\ meal_key mealRecord = (Student.studentId student, split_T_0 iso2)
    /\ Client.processMealDistribution envV2 envM2 iso3 iso4 ip userAgent faceDescriptor db1
       = (Client.MealError
            (Student.name student ++ " has already received meal today.")%string,
          db1).
Proof.
  intros Hlen Hne1 Hne2 Hne3 Hne4 Hmatch Hsid Hatt Hmeal Hdate3 Hdate4 HwV HwM.
  pose proof (findBestMatch_student
                (Some (map Client.JSON_number faceDescriptor)) (Database.students db)
                (or_number (Settings.recognitionThreshold (Database.settings db)) 0.6))
    as (_ & Hactive).
  rewrite Hmatch in Hactive. destruct (Hactive student eq_refl) as [Hin Hstatus].
  destruct (find_active_student _ _ Hin Hstatus) as (s & Hfind & Hs).
  assert (Hlen' : List.length (map Client.JSON_number faceDescriptor) = 128%nat)
    by now rewrite length_map.
  set (sid := Student.studentId student) in *.
  set (att := new_attendance envV1 student best iso1 (Some "Mid-Day Meal") (Some "meal")).
  set (dbA := push_attendance att db).
  set (meal := new_meal envM1 s sid iso2 ip userAgent).
  set (db1 := fst (writeDatabase envM1 dbA (push_meal meal dbA))).
  destruct (writeDatabase_ok envM1 dbA (push_meal meal dbA) HwM)
    as (_ & Hst1 & Hat1 & Hme1 & Hse1).
  fold db1 in Hst1, Hat1, Hme1, Hse1.
  cbn [push_meal push_attendance dbA Database.students Database.attendance Database.meals
       Database.settings] in Hst1, Hat1, Hme1, Hse1.
  (* the first scan *)
  assert (Hverify1 :
    post_mark envV1 (Client.verificationPayload faceDescriptor iso1) db
    = (Marked (Student.name student) sid "Mid-Day Meal" iso1 (confidence best), dbA)).
  { rewrite (post_mark_recognised envV1 (Client.verificationPayload faceDescriptor iso1) db
               (map Client.JSON_number faceDescriptor) iso1 best student
               eq_refl Hlen' eq_refl Hne1 Hmatch).
    cbn [Client.verificationPayload session sessionType].
    rewrite (markAttendance_new envV1 student best iso1 (Some "Mid-Day Meal") (Some "meal") db)
      by exact Hatt.
    cbn [fst snd]. rewrite HwV. reflexivity. }
  assert (Hmeal1 :
    post_meal_mark envM1
      {| MealBody.studentId := Some sid; MealBody.timestamp := Some iso2;
         MealBody.ip := ip; MealBody.userAgent := userAgent |} dbA
    = (MealServed meal (summary s), db1)).
  { apply (post_meal_mark_served envM1
             {| MealBody.studentId := Some sid; MealBody.timestamp := Some iso2;
                MealBody.ip := ip; MealBody.userAgent := userAgent |}
             dbA sid iso2 s eq_refl eq_refl Hsid Hne2);
      [exact Hfind | exact Hmeal | exact HwM]. }
  (* the second scan *)
  assert (Hverify2 :
    post_mark envV2 (Client.verificationPayload faceDescriptor iso3) db1
    = (AlreadyMarked (Student.name student) sid "Mid-Day Meal" iso1, db1)).
  { rewrite (post_mark_recognised envV2 (Client.verificationPayload faceDescriptor iso3) db1
               (map Client.JSON_number faceDescriptor) iso3 best student
               eq_refl Hlen' eq_refl Hne3)
      by (rewrite Hst1, Hse1; exact Hmatch).
    cbn [Client.verificationPayload session sessionType].
    rewrite (markAttendance_existing envV2 student best iso3 (Some "Mid-Day Meal")
               (Some "meal") db1 att).
    - cbn [fst snd]. now destruct (writeOk envV2).
    - rewrite Hat1, Hdate3, find_snoc. fold sid.
      change (or_string (Some "Mid-Day Meal") (name (getCurrentTimeSlot (now envV2))))
        with "Mid-Day Meal".
      rewrite Hatt. unfold same_bucket at 1.
      cbn [att new_attendance Attendance.studentId Attendance.date Attendance.session].
      fold sid. rewrite !String.eqb_refl. reflexivity. }
  assert (Hmeal2 :
    post_meal_mark envM2
      {| MealBody.studentId := Some sid; MealBody.timestamp := Some iso4;
         MealBody.ip := ip; MealBody.userAgent := userAgent |} db1
    = (MealAlreadyMarked meal (summary s), db1)).
  { apply (post_meal_mark_already envM2
             {| MealBody.studentId := Some sid; MealBody.timestamp := Some iso4;
                MealBody.ip := ip; MealBody.userAgent := userAgent |}
             db1 sid iso4 s meal eq_refl eq_refl Hsid Hne4).
    - rewrite Hst1. exact Hfind.
    - rewrite Hme1, Hdate4, find_snoc, Hmeal. unfold same_day at 1.
      cbn [meal new_meal Meal.studentId Meal.date]. rewrite !String.eqb_refl. reflexivity. }
  exists att, meal, db1.
  split; [unfold Client.processMealDistribution; rewrite Hverify1, Hmeal1; reflexivity|].
  split; [exact Hst1|]. split; [exact Hat1|].
  split; [reflexivity|]. split; [reflexivity|].
  split; [exact Hme1|]. split; [reflexivity|].
  unfold Client.processMealDistribution. rewrite Hverify2, Hmeal2. reflexivity.
Qed.

Lemma processMealDistribution_twice_witness :
  exists attendanceRecord mealRecord db1,
    Client.processMealDistribution (Sample.at_time 12 5) (Sample.at_time 12 5)
      "2026-01-02T12:05:00.000Z" "2026-01-02T12:05:01.000Z" "::1" None (repeat 0 128)
      (Sample.fresh None [Sample.ann])
    = (Client.MealSuccess "Ann" "S001" mealRecord, db1)
    /\ Database.attendance db1 = [attendanceRecord]
    /\ Database.meals db1 = [mealRecord].
Proof.
  destruct (processMealDistribution_twice
              (Sample.at_time 12 5) (Sample.at_time 12 5)
              (Sample.at_time 12 40) (Sample.at_time 12 40)
              "2026-01-02T12:05:00.000Z" "2026-01-02T12:05:01.000Z"
              "2026-01-02T12:40:00.000Z" "2026-01-02T12:40:01.000Z"
              "::1" None (repeat 0 128) (Sample.fresh None [Sample.ann])
              {| distance := 0; confidence := 100 |} Sample.ann)
    as (a & m & db1 & H1 & _ & H3 & _ & _ & H6 & _);
    try discriminate; try (vm_compute; reflexivity).
  exists a, m, db1. split; [exact H1|]. split; [exact H3 | exact H6].
Defined.

(* ================================================================== *)
(** * Registration *)
(* ================================================================== *)

Lemma descriptor_errors_nil (ds : list JsValue) (i : nat) :
  Register.descriptor_errors ds i = [] ->
  Forall (fun d => Register.array_of_128 d = true) ds.
Proof.
  revert i. induction ds as [|d ds IH]; intros i H; [constructor|].
  cbn [Register.descriptor_errors] in H.
  destruct (Register.array_of_128 d) eqn:Hd; cbn [negb] in H; [|discriminate].
  constructor; [exact Hd | exact (IH _ H)].
Qed.

Lemma too_short_false (field : option string) :
  Register.too_short field = false ->
  exists s, field = Some s /\ (2 <= String.length (Register.trim s))%nat.
Proof.
  unfold Register.too_short. destruct field as [s|].
  - intros H. apply Bool.orb_false_iff in H. destruct H as [_ H].
    apply Nat.ltb_ge in H. now exists s.
  - cbn. discriminate.
Qed.

Lemma validateStudentData_nil (data : Register.Body) :
  Register.validateStudentData data = [] ->
  exists name studentId class parentName fd ds,
    Register.name data = Some name
    /\ Register.studentId data = Some studentId
    /\ Register.class data = Some class
    /\ Register.parentName data = Some parentName
    /\ Register.faceData data = Some fd
    /\ Register.descriptors fd = Some ds
    /\ (2 <= String.length (Register.trim name))%nat
    /\ Register.test_studentId (Register.trim studentId) = true
    /\ In class Register.classes
    /\ (2 <= String.length (Register.trim parentName))%nat
    /\ ds <> []
    /\ Forall (fun d => Register.array_of_128 d = true) ds.
Proof.
  unfold Register.validateStudentData. intros H.
  apply app_eq_nil in H. destruct H as [H1 H].
  apply app_eq_nil in H. destruct H as [H2 H].
  apply app_eq_nil in H. destruct H as [H3 H].
  apply app_eq_nil in H. destruct H as [H4 H].
  apply app_eq_nil in H. destruct H as [H5 H6].
  destruct (Register.too_short (Register.name data)) eqn:Hn; [discriminate|].
  destruct (Register.too_short (Register.parentName data)) eqn:Hp; [discriminate|].
  apply too_short_false in Hn. destruct Hn as [name [Hn Hnl]].
  apply too_short_false in Hp. destruct Hp as [parentName [Hp Hpl]].
  destruct (Register.studentId data) as [studentId|] eqn:Hi;
    [|rewrite Bool.orb_true_r in H2; discriminate].
  destruct (Register.test_studentId (Register.trim studentId)) eqn:Hti;
    [|rewrite Bool.orb_true_r in H2; discriminate].
  destruct (Register.class data) as [class|] eqn:Hc;
    [|rewrite Bool.orb_true_r in H3; discriminate].
  destruct (existsb (String.eqb class) Register.classes) eqn:Hcl;
    [|rewrite Bool.orb_true_r in H3; discriminate].
  destruct (Register.faceData data) as [fd|] eqn:Hfd; [|discriminate].
  destruct (Register.descriptors fd) as [ds|] eqn:Hds; [|discriminate].
  exists name, studentId, class, parentName, fd, ds.
  repeat split; try assumption; try reflexivity.
  - apply existsb_exists in Hcl. destruct Hcl as [c [Hin Heq]].
    apply String.eqb_eq in Heq. now subst c.
  - intros ->. discriminate.
  - exact (descriptor_errors_nil _ _ H6).
Qed.

Lemma as_descriptor_128 (ds : list JsValue) :
  Forall (fun d => Register.array_of_128 d = true) ds ->
  Forall (fun d => exists elems, d = Some elems /\ List.length elems = 128%nat)
         (map Register.as_descriptor ds).
Proof.
  induction 1 as [|d ds Hd _ IH]; cbn [map]; constructor; [|exact IH].
  destruct d; try discriminate. cbn [Register.as_descriptor].
  exists elems. split; [reflexivity|]. now apply Nat.eqb_eq.
Qed.

(** What the registration route does, case by case. *)
Lemma post_register_cases (env : Env) (data : Register.Body) (db : Database.t) :
  (exists errors, errors <> []
     /\ Register.validateStudentData data = errors
     /\ Register.post_register env data db = (Register.ValidationFailed errors, db))
  \/ exists name studentId class parentName fd ds,
       Register.validateStudentData data = []
       /\ Register.name data = Some name
       /\ Register.studentId data = Some studentId
       /\ Register.class data = Some class
       /\ Register.parentName data = Some parentName
       /\ Register.faceData data = Some fd
       /\ Register.descriptors fd = Some ds
       /\ ((existsb (Register.same_id_active studentId) (Database.students db) = true
            /\ Register.post_register env data db = (Register.AlreadyExists, db))
           \/ (existsb (Register.same_id_active studentId) (Database.students db) = false
               /\ writeOk env = false
               /\ Register.post_register env data db = (Register.SaveFailed, db))
           \/ (existsb (Register.same_id_active studentId) (Database.students db) = false
               /\ writeOk env = true
               /\ Register.post_register env data db
                  = (Register.Registered
                       ("stu_" ++ decimal (Date_now env) ++ "_" ++ random_suffix env)%string
                       (Register.trim name) (Register.trim studentId) class
                       (Register.trim parentName) (toISOString env),
                     Register.push_student
                       (Register.newStudent name studentId class ds) db))).
Proof.
  unfold Register.post_register.
  destruct (Register.validateStudentData data) as [|e errors] eqn:Hv.
  - right. destruct (validateStudentData_nil _ Hv)
      as (name & studentId & class & parentName & fd & ds
          & Hn & Hi & Hc & Hp & Hfd & Hds & _).
    exists name, studentId, class, parentName, fd, ds.
    rewrite Hn, Hi, Hc, Hp, Hfd, Hds.
    repeat (split; [reflexivity|]).
    destruct (existsb (Register.same_id_active studentId) (Database.students db));
      [left; split; reflexivity|].
    right. destruct (writeOk env); cbn [negb]; [right | left];
      (split; [reflexivity|]); split; reflexivity.
  - left. exists (e :: errors). split; [discriminate|]. split; reflexivity.
Qed.

Lemma alnum_not_space (c : ascii) :
  Register.alnum c = true -> Register.is_space c = false.
Proof.
  destruct c as [[] [] [] [] [] [] [] []]; vm_compute; intros H;
    first [reflexivity | discriminate H].
Qed.

Lemma lower_char_alnum (c : ascii) :
  Register.alnum c = true -> Register.alnum (Register.lower_char c) = true.
Proof.
  destruct c as [[] [] [] [] [] [] [] []]; vm_compute; intros H;
    first [reflexivity | discriminate H].
Qed.

Lemma lower_char_space (c : ascii) :
  Register.is_space c = true -> Register.lower_char c = c.
Proof.
  destruct c as [[] [] [] [] [] [] [] []]; vm_compute; intros H;
    first [reflexivity | discriminate H].
Qed.

Lemma all_alnum_no_space (s : string) :
  Register.all_alnum s = true -> Register.has_space (Register.toLowerCase s) = false.
Proof.
  induction s as [|c r IH]; cbn [Register.all_alnum Register.toLowerCase Register.has_space];
    [reflexivity|].
  intros H. apply andb_prop in H. destruct H as [Hc Hr].
  rewrite (alnum_not_space _ (lower_char_alnum _ Hc)). exact (IH Hr).
Qed.

Lemma toLowerCase_has_space (s : string) :
  Register.has_space s = true -> Register.has_space (Register.toLowerCase s) = true.
Proof.
  induction s as [|c r IH]; cbn [Register.toLowerCase Register.has_space];
    [discriminate|].
  destruct (Register.is_space c) eqn:Hc.
  - intros _. now rewrite (lower_char_space _ Hc), Hc.
  - intros H. rewrite (IH H). apply Bool.orb_true_r.
Qed.

Lemma trimEnd_no_space (s : string) :
  Register.has_space s = false -> Register.trimEnd s = s.
Proof.
  induction s as [|c r IH]; cbn [Register.trimEnd Register.has_space]; [reflexivity|].
  intros H. apply Bool.orb_false_iff in H. destruct H as [Hc Hr].
  now rewrite Hc, (IH Hr).
Qed.

Lemma trim_no_space (s : string) :
  Register.has_space s = false -> Register.trim s = s.
Proof.
  intros H. unfold Register.trim.
  assert (Hs : Register.trimStart s = s).
  { destruct s as [|c r]; [reflexivity|].
    cbn [Register.has_space] in H. apply Bool.orb_false_iff in H.
    cbn [Register.trimStart]. now rewrite (proj1 H). }
  rewrite Hs. now apply trimEnd_no_space.
Qed.

Lemma test_studentId_no_space (s : string) :
  Register.test_studentId s = true -> Register.has_space (Register.toLowerCase s) = false.
Proof.
  unfold Register.test_studentId. intros H. apply andb_prop in H.
  now apply all_alnum_no_space.
Qed.

Lemma same_id_active_true (studentId : string) (s : Student.t) :
  Register.same_id_active studentId s = true
  <-> Register.toLowerCase (Student.studentId s) = Register.toLowerCase studentId
      /\ Student.status s = "active".
Proof.
  unfold Register.same_id_active. rewrite Bool.andb_true_iff, !String.eqb_eq.
  reflexivity.
Qed.

Lemma filter_snoc {A : Type} (f : A -> bool) (l : list A) (x : A) :
  filter f (l ++ [x]) = filter f l ++ (if f x then [x] else []).
Proof.
  induction l as [|a l IH]; cbn [filter app]; [now destruct (f x)|].
  rewrite IH. now destruct (f a).
Qed.

Lemma active_ids_snoc (students : list Student.t) (name studentId class : string)
    (ds : list JsValue) :
  map (fun s => Register.toLowerCase (Student.studentId s))
      (filter is_active (students ++ [Register.newStudent name studentId class ds]))
  = map (fun s => Register.toLowerCase (Student.studentId s)) (filter is_active students)
    ++ [Register.toLowerCase (Register.trim studentId)].
Proof.
  rewrite filter_snoc. unfold is_active at 2.
  cbn [Register.newStudent Student.status]. rewrite String.eqb_refl.
  now rewrite map_app.
Qed.

Lemma In_active_ids (students : list Student.t) (k : string) :
  In k (map (fun s => Register.toLowerCase (Student.studentId s)) (filter is_active students))
  <-> exists s, In s students /\ Student.status s = "active"
                /\ Register.toLowerCase (Student.studentId s) = k.
Proof.
  rewrite in_map_iff. split.
  - intros [s [Hk Hin]]. apply filter_In in Hin. destruct Hin as [Hin Ha].
    exists s. repeat split; try assumption. now apply String.eqb_eq.
  - intros [s (Hin & Ha & Hk)]. exists s. split; [exact Hk|].
    apply filter_In. split; [exact Hin|]. now apply String.eqb_eq.
Qed.

(** X13.  What a registration stores.  The database changes only when the
    answer is 201, and then by one student appended at the end, with status
    "active", the trimmed name and identifier of the answer, an identifier
    of 3 to 10 letters and digits, a name of at least 2 characters, one of
    the ten classes, and a non-empty list of descriptors each of which is an
    array of 128 elements; the write had succeeded.  Every other answer
    (400, 409, 500) leaves the database as it was. *)
Theorem post_register_stores_valid_student
    (env : Env) (data : Register.Body) (db : Database.t) :
  match Register.post_register env data db with
  | (Register.Registered id name studentId class parentName ts, db') =>
      exists student ds,
        db' = Register.push_student student db
        /\ Student.studentId student = studentId
        /\ Student.name student = name
        /\ Student.class student = class
        /\ Student.status student = "active"
        /\ Student.faceData student = Some (FaceData.mk (Some ds))
        /\ Register.test_studentId studentId = true
        /\ (2 <= String.length name)%nat
        /\ (2 <= String.length parentName)%nat
        /\ In class Register.classes
        /\ ds <> []
        /\ Forall (fun d => exists elems, d = Some elems /\ List.length elems = 128%nat) ds
        /\ writeOk env = true
  | (_, db') => db' = db
  end.
Proof.
  destruct (post_register_cases env data db)
    as [(errors & _ & _ & ->)
       | (name & studentId & class & parentName & fd & ds & Hv & Hn & Hi & Hc & Hp
          & Hfd & Hds & [[_ ->] | [(_ & _ & ->) | (_ & Hw & ->)]])];
    try reflexivity.
  destruct (validateStudentData_nil _ Hv)
    as (name' & studentId' & class' & parentName' & fd' & ds'
        & Hn' & Hi' & Hc' & Hp' & Hfd' & Hds' & Hnl & Hti & Hcl & Hpl & Hne & Hall).
  rewrite Hn in Hn'. rewrite Hi in Hi'. rewrite Hc in Hc'. rewrite Hp in Hp'.
  rewrite Hfd in Hfd'. injection Hfd' as <-. rewrite Hds in Hds'.
  injection Hn' as <-. injection Hi' as <-. injection Hc' as <-.
  injection Hp' as <-. injection Hds' as <-.
  exists (Register.newStudent name studentId class ds), (map Register.as_descriptor ds).
  cbn [Register.newStudent Student.studentId Student.name Student.class
       Student.status Student.faceData].
  repeat (split; [first [reflexivity | assumption]|]).
  split; [|split; [|exact Hw]].
  - intros Hnil. apply map_eq_nil in Hnil. contradiction.
  - now apply as_descriptor_128.
Qed.

Lemma ids_unique_push (students : list Student.t) (name studentId class : string)
    (ds : list JsValue) :
  Register.ids_unique students ->
  existsb (Register.same_id_active studentId) students = false ->
  Register.trim studentId = studentId ->
  Register.ids_unique (students ++ [Register.newStudent name studentId class ds]).
Proof.
  intros Huniq Hnone Htrim.
  unfold Register.ids_unique. rewrite active_ids_snoc, Htrim.
  apply NoDup_snoc; [exact Huniq|].
  intros Hin. apply In_active_ids in Hin. destruct Hin as [s (Hin & Ha & Hk)].
  assert (Hex : existsb (Register.same_id_active studentId) students = true).
  { apply existsb_exists. exists s. split; [exact Hin|].
    now apply same_id_active_true. }
  congruence.
Qed.

(** X14.  The identifiers stay unique.  When no two active students have the
    same identifier up to the case of the letters, and the submitted
    identifier has no white space around it, the same holds after the
    registration request, whatever its answer. *)
Theorem post_register_keeps_ids_unique
    (env : Env) (data : Register.Body) (db : Database.t) :
  Register.ids_unique (Database.students db) ->
  (forall studentId, Register.studentId data = Some studentId ->
                     Register.trim studentId = studentId) ->
  Register.ids_unique (Database.students (snd (Register.post_register env data db))).
Proof.
  intros Huniq Htrim.
  destruct (post_register_cases env data db)
    as [(errors & _ & _ & ->)
       | (name & studentId & class & parentName & fd & ds & Hv & Hn & Hi & Hc & Hp
          & Hfd & Hds & [[_ ->] | [(_ & _ & ->) | (Hnone & Hw & ->)]])];
    try exact Huniq.
  cbn [snd Register.push_student Database.students].
  apply ids_unique_push; [exact Huniq | exact Hnone | exact (Htrim _ Hi)].
Qed.

Lemma post_register_keeps_ids_unique_witness :
  Register.ids_unique
    (Database.students
       (snd (Register.post_register (Sample.at_time 9 15)
               (Enrolment.form "S004" (Sample.axis 0.5)) Enrolment.school))).
Proof.
  apply (post_register_keeps_ids_unique (Sample.at_time 9 15)
           (Enrolment.form "S004" (Sample.axis 0.5)) Enrolment.school).
  - unfold Register.ids_unique. vm_compute.
    repeat constructor; cbn; intuition discriminate.
  - intros studentId H. vm_compute in H. injection H as <-. reflexivity.
Defined.

Lemma test_studentId_nonempty (s : string) :
  Register.test_studentId s = true -> s <> "".
Proof. intros H ->. discriminate H. Qed.

Lemma trim_nonempty (s : string) : Register.trim s <> "" -> s <> "".
Proof. intros H ->. now apply H. Qed.

(** X15.  White space around the identifier defeats the duplicate check.
    The check compares the identifier as submitted, and the identifier is
    stored trimmed.  So when an active student has the identifier [k], a
    form that is valid, whose identifier is [k] with white space before or
    after it, is answered 201 although [/check] answers that [k] exists:
    a second active student is stored under [k], and the identifiers of the
    active students are no longer unique. *)
Theorem post_register_duplicate_through_spaces
    (env : Env) (data : Register.Body) (db : Database.t)
    (s : Student.t) (studentId : string) :
  (forall s', In s' (Database.students db) ->
              Register.test_studentId (Student.studentId s') = true) ->
  In s (Database.students db) ->
  Student.status s = "active" ->
  Register.validateStudentData data = [] ->
  Register.studentId data = Some studentId ->
  Register.trim studentId = Student.studentId s ->
  studentId <> Student.studentId s ->
  writeOk env = true ->
  Register.post_check (Some (Student.studentId s)) db = Register.CheckAnswer true
  /\ exists id name class parentName ts student,
       Register.post_register env data db
       = (Register.Registered id name (Student.studentId s) class parentName ts,
          Register.push_student student db)
       /\ Student.studentId student = Student.studentId s
       /\ Student.status student = "active"
       /\ ~ Register.ids_unique (Database.students (Register.push_student student db)).
Proof.
  intros Hstored Hin Ha Hv Hi Htrim Hpad Hw. split.
  - unfold Register.post_check.
    cbn [truthy_opt].
    rewrite (truthy_string_nonempty _ (test_studentId_nonempty _ (Hstored _ Hin))).
    cbn [negb]. f_equal. apply existsb_exists. exists s. split; [exact Hin|].
    now apply same_id_active_true.
  - assert (Hsp : Register.has_space studentId = true).
    { destruct (Register.has_space studentId) eqn:E; [reflexivity|].
      apply trim_no_space in E. congruence. }
    assert (Hnone : existsb (Register.same_id_active studentId) (Database.students db) = false).
    { destruct (existsb (Register.same_id_active studentId) (Database.students db)) eqn:E;
        [exfalso | reflexivity].
      apply existsb_exists in E. destruct E as [s' [Hin' Hsame]].
      apply same_id_active_true in Hsame. destruct Hsame as [Hlow _].
      pose proof (test_studentId_no_space _ (Hstored _ Hin')) as Hno.
      rewrite Hlow, (toLowerCase_has_space _ Hsp) in Hno. discriminate. }
    destruct (post_register_cases env data db)
      as [(errors & Hne & He & _)
         | (name & studentId' & class & parentName & fd & ds & _ & Hn & Hi' & Hc & Hp
            & Hfd & Hds & Hcases)]; [congruence|].
    rewrite Hi in Hi'. injection Hi' as <-.
    destruct Hcases as [[Hex _] | [(_ & Hw' & _) | (_ & _ & Hpost)]]; try congruence.
    rewrite Htrim in Hpost.
    eexists _, _, _, _, _, _. split; [exact Hpost|].
    cbn [Register.newStudent Register.push_student Student.studentId Student.status
         Database.students].
    split; [exact Htrim|]. split; [reflexivity|].
    unfold Register.ids_unique. rewrite active_ids_snoc, Htrim. intros Hnd.
    apply NoDup_remove_2 in Hnd. apply Hnd. rewrite app_nil_r.
    apply In_active_ids. now exists s.
Qed.

Lemma post_register_duplicate_through_spaces_witness :
  Register.post_check (Some "S001") Enrolment.school = Register.CheckAnswer true
  /\ exists id name class parentName ts student,
       Register.post_register (Sample.at_time 9 15)
         (Enrolment.form " S001" (Sample.axis 0.5)) Enrolment.school
       = (Register.Registered id name "S001" class parentName ts,
          Register.push_student student Enrolment.school)
       /\ Student.studentId student = "S001"
       /\ Student.status student = "active"
       /\ ~ Register.ids_unique
             (Database.students (Register.push_student student Enrolment.school)).
Proof.
  apply (post_register_duplicate_through_spaces (Sample.at_time 9 15)
           (Enrolment.form " S001" (Sample.axis 0.5)) Enrolment.school
           Sample.ann " S001").
  - intros s' [<- | [<- | []]]; reflexivity.
  - now left.
  - reflexivity.
  - vm_compute. reflexivity.
  - reflexivity.
  - vm_compute. reflexivity.
  - discriminate.
  - reflexivity.
Defined.

(** X16.  [/check] predicts the registration.  For a form that passes the
    validation, [/check] on the identifier of the form answers (it is not
    a 400), and the registration is answered 409 exactly when [/check]
    answers that the identifier exists; when it answers that it does not,
    the registration is answered 201, or 500 if the file cannot be
    written. *)
Theorem post_check_predicts_post_register
    (env : Env) (data : Register.Body) (db : Database.t) (studentId : string) :
  Register.validateStudentData data = [] ->
  Register.studentId data = Some studentId ->
  exists taken,
    Register.post_check (Some studentId) db = Register.CheckAnswer taken
    /\ (taken = true ->
        Register.post_register env data db = (Register.AlreadyExists, db))
    /\ (taken = false ->
        if writeOk env
        then exists id name sid class parentName ts,
               fst (Register.post_register env data db)
               = Register.Registered id name sid class parentName ts
        else Register.post_register env data db = (Register.SaveFailed, db)).
Proof.
  intros Hv Hi.
  exists (existsb (Register.same_id_active studentId) (Database.students db)).
  destruct (validateStudentData_nil _ Hv)
    as (name' & studentId' & class' & parentName' & fd' & ds'
        & _ & Hi' & _ & _ & _ & _ & _ & Hti & _).
  rewrite Hi in Hi'. injection Hi' as <-.
  split.
  - unfold Register.post_check. cbn [truthy_opt].
    now rewrite (truthy_string_nonempty _
                   (trim_nonempty _ (test_studentId_nonempty _ Hti))).
  - destruct (post_register_cases env data db)
      as [(errors & Hne & He & _)
         | (name & studentId' & class & parentName & fd & ds & _ & Hn & Hi' & Hc & Hp
            & Hfd & Hds & Hcases)]; [congruence|].
    rewrite Hi in Hi'. injection Hi' as <-.
    destruct Hcases as [[Hex Hpost] | [(Hex & Hw & Hpost) | (Hex & Hw & Hpost)]];
      rewrite Hex; split; intros Ht; try discriminate Ht; try exact Hpost.
    + now rewrite Hw.
    + rewrite Hw, Hpost. cbn [fst]. now eexists _, _, _, _, _, _.
Qed.

Lemma post_check_predicts_post_register_witness :
  exists taken,
    Register.post_check (Some "s002") Enrolment.school = Register.CheckAnswer taken
    /\ (taken = true ->
        Register.post_register (Sample.at_time 9 15)
          (Enrolment.form "s002" (Sample.axis 0.5)) Enrolment.school
        = (Register.AlreadyExists, Enrolment.school))
    /\ (taken = false ->
        if writeOk (Sample.at_time 9 15)
        then exists id name sid class parentName ts,
               fst (Register.post_register (Sample.at_time 9 15)
                      (Enrolment.form "s002" (Sample.axis 0.5)) Enrolment.school)
               = Register.Registered id name sid class parentName ts
        else Register.post_register (Sample.at_time 9 15)
               (Enrolment.form "s002" (Sample.axis 0.5)) Enrolment.school
             = (Register.SaveFailed, Enrolment.school)).
Proof.
  apply (post_check_predicts_post_register (Sample.at_time 9 15)
           (Enrolment.form "s002" (Sample.axis 0.5)) Enrolment.school "s002").
  - vm_compute. reflexivity.
  - reflexivity.
Defined.

(* ================================================================== *)
(** * From the registration to the recognition *)
(* ================================================================== *)

Module FloatZero.

(** A finite number minus itself is [+0]. *)
Lemma sub_self (x : float) :
  match Prim2SF x with
  | S754_zero _ | S754_finite _ _ _ => True
  | _ => False
  end ->
  x - x = 0.
Proof.
  intros Hx. apply FloatAxioms.Prim2SF_inj. rewrite FloatAxioms.sub_spec.
  change (Prim2SF 0) with (S754_zero false).
  destruct (Prim2SF x) as [s|s| |s m e]; try contradiction.
  - now destruct s.
  - unfold SF64sub, SFsub. rewrite Z.sub_diag. reflexivity.
Qed.

(** A square root is never below zero. *)
Lemma sqrt_not_negative (x : float) : (sqrt x <? 0) = false.
Proof.
  rewrite FloatAxioms.ltb_spec, FloatAxioms.sqrt_spec.
  change (Prim2SF 0) with (S754_zero false).
  unfold SF64sqrt, SFsqrt.
  destruct (Prim2SF x) as [s|s| |s m e]; try reflexivity.
  - now destruct s.
  - destruct s; [reflexivity|].
    destruct (SFsqrt_core_binary _ _ _ _) as [[mz ez] lz].
    unfold binary_round_aux.
    destruct (shr_fexp _ _ _ _ _) as [mrs' e'].
    destruct (shr_fexp _ _ _ _ _) as [mrs'' e''].
    destruct (shr_m mrs''); try reflexivity.
    destruct (Z.leb _ _); reflexivity.
Qed.

(** A number that is neither below nor above zero, and is not NaN, is a
    zero. *)
Lemma zero_cases (d : float) :
  (d <? 0) = false -> (0 <? d) = false -> ordered d -> d = 0 \/ d = -0.
Proof.
  unfold ordered. rewrite !FloatAxioms.ltb_spec, FloatAxioms.leb_spec.
  change (Prim2SF 0) with (S754_zero false).
  intros H1 H2 H3.
  rewrite <- (FloatAxioms.SF2Prim_Prim2SF d).
  destruct (Prim2SF d) as [s|s| |s m e].
  - destruct s; [right | left]; reflexivity.
  - destruct s; discriminate.
  - discriminate.
  - destruct s; discriminate.
Qed.

End FloatZero.

Lemma sum_squares_self (elems : list JsElem) :
  forallb finite_element elems = true -> sum_squares elems elems 0 = 0.
Proof.
  induction elems as [|a elems IH]; [reflexivity|].
  cbn [forallb sum_squares]. intros H. apply andb_prop in H. destruct H as [Ha Hr].
  rewrite FloatZero.sub_self.
  - exact (IH Hr).
  - unfold finite_element in Ha. now destruct (Prim2SF (ToNumber a)).
Qed.

Lemma euclideanDistance_self (elems : list JsElem) :
  forallb finite_element elems = true ->
  euclideanDistance (Some elems) (Some elems) = 0.
Proof.
  intros H. unfold euclideanDistance.
  now rewrite Nat.eqb_refl, (sum_squares_self _ H).
Qed.

Lemma euclideanDistance_not_negative (desc1 desc2 : Descriptor) :
  (euclideanDistance desc1 desc2 <? 0) = false.
Proof.
  unfold euclideanDistance.
  destruct desc1 as [d1|], desc2 as [d2|]; try apply FloatOrder.Infinity_not_below.
  destruct (negb _); [apply FloatOrder.Infinity_not_below|].
  apply FloatZero.sqrt_not_negative.
Qed.

Lemma candidate_pairs_snoc (students : list Student.t) (name studentId class : string)
    (ds : list JsValue) :
  candidate_pairs (students ++ [Register.newStudent name studentId class ds])
  = candidate_pairs students
    ++ map (pair (Register.newStudent name studentId class ds))
           (map Register.as_descriptor ds).
Proof.
  unfold candidate_pairs. rewrite flat_map_app. f_equal.
  cbn [flat_map]. rewrite app_nil_r. reflexivity.
Qed.

Lemma confidence_of_zero (d : float) :
  d = 0 \/ d = -0 -> Math_round ((1 - d) * 100) = 100.
Proof. intros [-> | ->]; vm_compute; reflexivity. Qed.

(** X17.  A registered face is recognised.  After a registration that is
    answered 201, an attendance request that sends one of the registered
    descriptors, all of whose elements stand for finite numbers, against a
    threshold above 0, is never answered "not recognised": it is answered
    as marked, with the confidence 100, or as already marked.  When every
    descriptor that was stored before is at a distance above 0 from the
    one sent, the student of the answer is the one just registered, under
    the name and the identifier of the 201 answer. *)
Theorem registered_face_is_recognised
    (env1 env2 : Env) (data : Register.Body) (db db1 : Database.t)
    (id name studentId class parentName ts : string)
    (fd : Register.FaceDataIn) (ds : list JsValue) (elems : list JsElem)
    (stamp : string) (session sessionType : option string) :
  Register.post_register env1 data db
  = (Register.Registered id name studentId class parentName ts, db1) ->
  Register.faceData data = Some fd ->
  Register.descriptors fd = Some ds ->
  In (VArr elems) ds ->
  forallb finite_element elems = true ->
  (0 <? or_number (Settings.recognitionThreshold (Database.settings db)) 0.6) = true ->
  stamp <> "" ->
  exists who sid sess t,
    (fst (post_mark env2 (mkMarkBody (VArr elems) (Some stamp) session sessionType) db1)
     = Marked who sid sess t 100
     \/ fst (post_mark env2 (mkMarkBody (VArr elems) (Some stamp) session sessionType) db1)
        = AlreadyMarked who sid sess t)
    /\ ((forall q, In q (candidate_pairs (Database.students db)) ->
                   (0 <? dist_to (Some elems) q) = true) ->
        who = name /\ sid = studentId).
Proof.
  intros Hreg Hfd Hds Hin Hfin Hth Hstamp.
  destruct (post_register_cases env1 data db)
    as [(errors & _ & _ & Hpost)
       | (n & i & c & p' & fd' & ds' & Hv & Hn & Hi & Hc & Hp & Hfd' & Hds' & Hcases)];
    [congruence|].
  rewrite Hfd in Hfd'. injection Hfd' as <-.
  rewrite Hds in Hds'. injection Hds' as <-.
  destruct Hcases as [[_ Hpost] | [(_ & _ & Hpost) | (_ & _ & Hpost)]];
    try congruence.
  revert Hpost.
  generalize ("stu_" ++ decimal (Date_now env1) ++ "_" ++ random_suffix env1)%string.
  intros id0 Hpost. rewrite Hpost in Hreg.
  injection Hreg as _ Hname Hsid _ _ _ Hdb1.
  set (st := Register.newStudent n i c ds) in *.
  destruct (validateStudentData_nil _ Hv)
    as (_ & _ & _ & _ & fd' & ds' & _ & _ & _ & _ & Hfd' & Hds' & _ & _ & _ & _ & _ & Hall).
  rewrite Hfd in Hfd'. injection Hfd' as <-.
  rewrite Hds in Hds'. injection Hds' as <-.
  assert (Hlen : List.length elems = 128%nat).
  { rewrite Forall_forall in Hall. specialize (Hall _ Hin).
    now apply Nat.eqb_eq. }
  set (th := or_number (Settings.recognitionThreshold (Database.settings db)) 0.6) in *.
  assert (Hq0 : In (st, Some elems)
                   (map (pair st) (map Register.as_descriptor ds))).
  { apply in_map. change (Some elems) with (Register.as_descriptor (VArr elems)).
    now apply in_map. }
  assert (Hd0 : dist_to (Some elems) (st, Some elems) = 0).
  { unfold dist_to. cbn [snd]. now apply euclideanDistance_self. }
  assert (Hstudents : Database.students db1 = Database.students db ++ [st]).
  { now subst db1. }
  assert (Hsettings : Database.settings db1 = Database.settings db).
  { now subst db1. }
  assert (Hcp : candidate_pairs (Database.students db ++ [st])
                = candidate_pairs (Database.students db)
                  ++ map (pair st) (map Register.as_descriptor ds)).
  { apply candidate_pairs_snoc. }
  destruct (findBestMatch_outcome (Some elems) th (Database.students db ++ [st]))
    as [[_ Hnone] | (pre & p & post & Hsplit & Hr & Hpth & Hpre & Hpost')].
  { exfalso. specialize (Hnone (st, Some elems)). rewrite Hcp in Hnone.
    rewrite Hd0 in Hnone. rewrite Hnone in Hth; [discriminate|].
    apply in_or_app. now right. }
  assert (Hnot : (0 <? dist_to (Some elems) p) = false).
  { assert (Hin0 : In (st, Some elems) (pre ++ p :: post)).
    { rewrite <- Hsplit, Hcp. apply in_or_app. now right. }
    apply in_app_or in Hin0. destruct Hin0 as [Hin0 | [Heq | Hin0]].
    - specialize (Hpre _ Hin0). rewrite Hd0 in Hpre. specialize (Hpre Hth).
      unfold dist_to in Hpre. rewrite euclideanDistance_not_negative in Hpre.
      discriminate.
    - rewrite Heq, Hd0. apply FloatOrder.ltb_irrefl.
    - specialize (Hpost' _ Hin0). rewrite Hd0 in Hpost'. exact (Hpost' Hth). }
  assert (Hzero : dist_to (Some elems) p = 0 \/ dist_to (Some elems) p = -0).
  { apply FloatZero.zero_cases.
    - apply euclideanDistance_not_negative.
    - exact Hnot.
    - exact (FloatOrder.ltb_ordered_l _ _ Hpth). }
  pose (body := mkMarkBody (VArr elems) (Some stamp) session sessionType).
  pose (best := {| distance := dist_to (Some elems) p;
                   confidence := Math_round ((1 - dist_to (Some elems) p) * 100) |}).
  assert (Hmark : post_mark env2 body db1
                  = (fst (markAttendance env2 (fst p) best stamp session sessionType db1),
                     snd (post_mark env2 body db1))).
  { rewrite (post_mark_recognised env2 body db1 elems stamp best (fst p)
               eq_refl Hlen eq_refl Hstamp); [reflexivity|].
    rewrite Hstudents, Hsettings. exact Hr. }
  fold body. rewrite Hmark. cbn [fst].
  exists (Student.name (fst p)), (Student.studentId (fst p)).
  destruct (markAttendance_cases env2 (fst p) best stamp session sessionType db1)
    as [(existing & _ & ->) | (record & _ & -> & _)]; cbn [fst].
  - eexists _, _. split; [right; reflexivity|].
    intros Hothers.
    assert (Hpnew : In p (map (pair st) (map Register.as_descriptor ds))).
    { assert (Hin1 : In p (candidate_pairs (Database.students db ++ [st]))).
      { rewrite Hsplit. apply in_or_app. right. now left. }
      rewrite Hcp in Hin1.
      apply in_app_or in Hin1. destruct Hin1 as [Hold | Hnew]; [|exact Hnew].
      rewrite (Hothers _ Hold) in Hnot. discriminate. }
    apply in_map_iff in Hpnew. destruct Hpnew as [d [<- _]]. cbn [fst].
    now subst name studentId.
  - eexists _, _. split.
    + left. cbn [confidence best]. now rewrite (confidence_of_zero _ Hzero).
    + intros Hothers.
      assert (Hpnew : In p (map (pair st) (map Register.as_descriptor ds))).
      { assert (Hin1 : In p (candidate_pairs (Database.students db ++ [st]))).
        { rewrite Hsplit. apply in_or_app. right. now left. }
        rewrite Hcp in Hin1.
        apply in_app_or in Hin1. destruct Hin1 as [Hold | Hnew]; [|exact Hnew].
        rewrite (Hothers _ Hold) in Hnot. discriminate. }
      apply in_map_iff in Hpnew. destruct Hpnew as [d [<- _]]. cbn [fst].
      now subst name studentId.
Qed.

Lemma registered_face_is_recognised_witness :
  exists who sid sess t,
    (fst (post_mark (Sample.at_time 9 20)
            (mkMarkBody (VArr (Sample.axis 0.5)) (Some Sample.morning_stamp) None None)
            (snd (Register.post_register (Sample.at_time 9 15)
                    (Enrolment.form "S004" (Sample.axis 0.5)) Enrolment.school)))
     = Marked who sid sess t 100
     \/ fst (post_mark (Sample.at_time 9 20)
               (mkMarkBody (VArr (Sample.axis 0.5)) (Some Sample.morning_stamp) None None)
               (snd (Register.post_register (Sample.at_time 9 15)
                       (Enrolment.form "S004" (Sample.axis 0.5)) Enrolment.school)))
        = AlreadyMarked who sid sess t)
    /\ ((forall q, In q (candidate_pairs (Database.students Enrolment.school)) ->
                   (0 <? dist_to (Some (Sample.axis 0.5)) q) = true) ->
        who = "Dan" /\ sid = "S004").
Proof.
  apply (registered_face_is_recognised (Sample.at_time 9 15) (Sample.at_time 9 20)
           (Enrolment.form "S004" (Sample.axis 0.5)) Enrolment.school
           (snd (Register.post_register (Sample.at_time 9 15)
                   (Enrolment.form "S004" (Sample.axis 0.5)) Enrolment.school))
           "stu_1767348000000_k3x9qa" "Dan" "S004" "7" "Pat" "2026-01-02T10:00:00.000Z"
           {| Register.descriptors := Some [VArr (Sample.axis 0.5)];
              Register.confidence := None |}
           [VArr (Sample.axis 0.5)]).
  - vm_compute. reflexivity.
  - reflexivity.
  - reflexivity.
  - now left.
  - vm_compute. reflexivity.
  - vm_compute. reflexivity.
  - discriminate.
Defined.

(* ================================================================== *)
(** * The threshold of the class, and the batch of images *)
(* ================================================================== *)

Module FloatNaN.

Lemma ordered_eqb (x : float) : ordered x -> (x =? x) = true.
Proof.
  unfold ordered. rewrite FloatAxioms.leb_spec, FloatAxioms.eqb_spec.
  unfold SFleb, SFeqb.
  pose proof (FloatOrder.SFcompare_antisym (Prim2SF x) (Prim2SF x)) as H.
  destruct (SFcompare (Prim2SF x) (Prim2SF x)) as [[| |]|]; simpl in H; congruence.
Qed.

Lemma eqb_ordered (x : float) : (x =? x) = true -> ordered x.
Proof.
  unfold ordered. rewrite FloatAxioms.leb_spec, FloatAxioms.eqb_spec.
  unfold SFleb, SFeqb.
  destruct (SFcompare (Prim2SF x) (Prim2SF x)) as [[| |]|]; congruence.
Qed.

Lemma ltb_ordered_r (x y : float) : (x <? y) = true -> ordered y.
Proof.
  unfold ordered. rewrite FloatAxioms.ltb_spec, FloatAxioms.leb_spec.
  unfold SFltb, SFleb.
  destruct (Prim2SF y) as [sy|sy| |sy my ey].
  - reflexivity.
  - intros _. now destruct sy.
  - destruct (Prim2SF x) as [sx|sx| |sx mx ex]; simpl; try discriminate;
      destruct sx; discriminate.
  - intros _. simpl. change (Pos.compare_cont Eq) with Pos.compare.
    rewrite Z.compare_refl, Pos.compare_refl. now destruct sy.
Qed.

(** NaN is below nothing, and nothing is below NaN. *)
Lemma isNaN_not_ltb (x y : float) :
  isNaN x = true -> (x <? y) = false /\ (y <? x) = false.
Proof.
  unfold isNaN. intros H. apply Bool.negb_true_iff in H. split.
  - destruct (x <? y) eqn:E; [|reflexivity].
    rewrite (ordered_eqb _ (FloatOrder.ltb_ordered_l _ _ E)) in H. discriminate.
  - destruct (y <? x) eqn:E; [|reflexivity].
    rewrite (ordered_eqb _ (ltb_ordered_r _ _ E)) in H. discriminate.
Qed.

Lemma isNaN_false_ordered (x : float) : isNaN x = false -> ordered x.
Proof.
  unfold isNaN. intros H. apply Bool.negb_false_iff in H. now apply eqb_ordered.
Qed.

End FloatNaN.

(** X18.  [setRecognitionThreshold] and the matches.  The method throws
    exactly when the threshold is below 0 or above 1.  It therefore accepts
    NaN, with which no comparison is a match.  After it has returned, the
    threshold is the one given, it lies between 0 and 1 unless it is NaN,
    and every comparison that [compareFaces] reports as a match has a
    distance below 1. *)
Theorem setRecognitionThreshold_bounds (threshold : float) :
  match ClassMatcher.setRecognitionThreshold threshold with
  | FaceRecognitionUtils.Return t =>
      t = threshold
      /\ (isNaN threshold = true
          \/ ((0 <=? threshold) = true /\ (threshold <=? 1) = true))
      /\ forall d1 d2 c,
           FaceRecognitionUtils.compareFaces t d1 d2 = FaceRecognitionUtils.Return c ->
           FaceRecognitionUtils.isMatch c = true ->
           (FaceRecognitionUtils.distance c <? 1) = true /\ isNaN threshold = false
  | FaceRecognitionUtils.Throw message =>
      message = "Threshold must be between 0 and 1"
      /\ ((threshold <? 0) = true \/ (1 <? threshold) = true)
  end
  /\ (isNaN threshold = true ->
      ClassMatcher.setRecognitionThreshold threshold
      = FaceRecognitionUtils.Return threshold).
Proof.
  unfold ClassMatcher.setRecognitionThreshold. split.
  - destruct (threshold <? 0) eqn:H0; [split; [reflexivity | now left]|].
    destruct (1 <? threshold) eqn:H1; [split; [reflexivity | now right]|].
    cbn [orb]. split; [reflexivity|].
    assert (Hbounds : ordered threshold ->
                      (0 <=? threshold) = true /\ (threshold <=? 1) = true).
    { intros Ho. split; apply FloatOrder.not_ltb_leb; auto; reflexivity. }
    split.
    + destruct (isNaN threshold) eqn:Hn; [now left | right].
      apply Hbounds. now apply FloatNaN.isNaN_false_ordered.
    + intros d1 d2 c Hc Hm.
      destruct (compareFaces_returns _ _ _ _ Hc) as (a & b & -> & -> & Ha & Hb).
      rewrite (compareFaces_valid _ a b Ha Hb) in Hc. injection Hc as <-.
      cbn [FaceRecognitionUtils.isMatch FaceRecognitionUtils.distance] in *.
      pose proof (FloatNaN.ltb_ordered_r _ _ Hm) as Ho.
      split.
      * eapply FloatOrder.ltb_leb_trans; [exact Hm | now apply Hbounds].
      * unfold isNaN. now rewrite (FloatNaN.ordered_eqb _ Ho).
  - intros Hn. destruct (FloatNaN.isNaN_not_ltb threshold 0 Hn) as [-> _].
    destruct (FloatNaN.isNaN_not_ltb threshold 1 Hn) as [_ ->]. reflexivity.
Qed.

Lemma forEach_selected recognitionThreshold useThreshold targetDescriptor
    (stored : list JsValue) (index : Z) (vars vars' : ClassMatcher.Vars) :
  (forall c, ClassMatcher.bestMatch vars = Some c ->
             (FaceRecognitionUtils.distance c <? useThreshold) = true
             /\ FaceRecognitionUtils.isMatch c
                = (FaceRecognitionUtils.distance c <? recognitionThreshold)
             /\ FaceRecognitionUtils.threshold c = recognitionThreshold) ->
  ClassMatcher.forEach recognitionThreshold useThreshold targetDescriptor stored index vars
  = FaceRecognitionUtils.Return vars' ->
  forall c, ClassMatcher.bestMatch vars' = Some c ->
            (FaceRecognitionUtils.distance c <? useThreshold) = true
            /\ FaceRecognitionUtils.isMatch c
               = (FaceRecognitionUtils.distance c <? recognitionThreshold)
            /\ FaceRecognitionUtils.threshold c = recognitionThreshold.
Proof.
  revert index vars. induction stored as [|d stored IH]; intros index vars Hinv.
  - cbn [ClassMatcher.forEach]. intros H. injection H as <-. exact Hinv.
  - cbn [ClassMatcher.forEach]. unfold ClassMatcher.callback.
    destruct (FaceRecognitionUtils.compareFaces recognitionThreshold targetDescriptor d)
      as [cmp|message] eqn:Hc; [|discriminate].
    apply IH.
    destruct ((FaceRecognitionUtils.distance cmp <? ClassMatcher.minDistance vars)
              && (FaceRecognitionUtils.distance cmp <? useThreshold)) eqn:Hsel;
      [|exact Hinv].
    cbn [ClassMatcher.bestMatch]. intros c Heq. injection Heq as <-.
    apply andb_prop in Hsel. destruct Hsel as [_ Hth].
    split; [exact Hth|].
    destruct (compareFaces_returns _ _ _ _ Hc) as (a & b & -> & -> & Ha & Hb).
    rewrite (compareFaces_valid _ a b Ha Hb) in Hc. injection Hc as <-.
    split; reflexivity.
Qed.

(** X19.  What the method [findBestMatch] of the class calls a match.  The
    comparison it returns was selected below the threshold in use (the
    argument, or the threshold of the instance when the argument is absent,
    0 or NaN), but its [isMatch] and [threshold] are those of the instance.
    They agree when the threshold in use is not above the one of the
    instance; with a larger argument the method can answer [found] with a
    comparison whose [isMatch] is false. *)
Theorem ClassMatcher_found_and_isMatch
    (recognitionThreshold : float) (targetDescriptor : JsValue)
    (storedDescriptors : list JsValue) (threshold : option float)
    (best : ClassMatcher.Best) :
  ClassMatcher.findBestMatch recognitionThreshold targetDescriptor storedDescriptors threshold
  = FaceRecognitionUtils.Return best ->
  (ClassMatcher.found best = true <-> exists c, ClassMatcher.match_ best = Some c)
  /\ ClassMatcher.threshold best = or_number threshold recognitionThreshold
  /\ forall c,
       ClassMatcher.match_ best = Some c ->
       (FaceRecognitionUtils.distance c <? ClassMatcher.threshold best) = true
       /\ FaceRecognitionUtils.threshold c = recognitionThreshold
       /\ FaceRecognitionUtils.isMatch c
          = (FaceRecognitionUtils.distance c <? recognitionThreshold)
       /\ ((ClassMatcher.threshold best <=? recognitionThreshold) = true ->
           FaceRecognitionUtils.isMatch c = true).
Proof.
  unfold ClassMatcher.findBestMatch.
  destruct (ClassMatcher.forEach _ _ _ _ _ _) as [vars|message] eqn:Hloop; [|discriminate].
  intros H. injection H as <-.
  cbn [ClassMatcher.found ClassMatcher.match_ ClassMatcher.threshold].
  split.
  { destruct (ClassMatcher.bestMatch vars) as [c|].
    - split; [intros _; now exists c | reflexivity].
    - split; [discriminate | intros [c Hc]; discriminate]. }
  split; [reflexivity|].
  intros c Hc.
  assert (Hinit : forall c0 : FaceRecognitionUtils.Comparison,
             ClassMatcher.bestMatch
               {| ClassMatcher.bestMatch := None;
                  ClassMatcher.minDistance := Infinity;
                  ClassMatcher.bestIndex := (-1)%Z |} = Some c0 ->
             (FaceRecognitionUtils.distance c0 <? or_number threshold recognitionThreshold)
             = true
             /\ FaceRecognitionUtils.isMatch c0
                = (FaceRecognitionUtils.distance c0 <? recognitionThreshold)
             /\ FaceRecognitionUtils.threshold c0 = recognitionThreshold).
  { intros c0 H0. discriminate H0. }
  destruct (forEach_selected _ _ _ _ _ _ _ Hinit Hloop c Hc) as (Hsel & Hm & Ht).
  repeat split; try assumption.
  intros Hle. rewrite Hm. eapply FloatOrder.ltb_leb_trans; eassumption.
Qed.

Lemma ClassMatcher_found_and_isMatch_witness :
  exists best c,
    ClassMatcher.findBestMatch 0.4 (VArr Sample.zeros) [VArr (Sample.axis 0.5)] (Some 0.6)
    = FaceRecognitionUtils.Return best
    /\ ClassMatcher.found best = true
    /\ ClassMatcher.match_ best = Some c
    /\ FaceRecognitionUtils.isMatch c = false
    /\ (FaceRecognitionUtils.distance c <? ClassMatcher.threshold best) = true.
Proof.
  eexists. eexists.
  split; [vm_compute; reflexivity|].
  split; [reflexivity|]. split; [reflexivity|]. split; [reflexivity|].
  exact (proj1 (proj2 (proj2
           (ClassMatcher_found_and_isMatch 0.4 (VArr Sample.zeros)
              [VArr (Sample.axis 0.5)] (Some 0.6) _ eq_refl)) _ eq_refl)).
Defined.

Lemma process_loop_spec {Buffer : Type}
    (detectFaces : Buffer -> FaceRecognitionUtils.result (list (list float)))
    (imageBuffers : list Buffer) (i : nat)
    (descriptors : list (nat * list float)) (errors : list (nat * string)) :
  exists found failed,
    ImageBatch.process_loop Buffer detectFaces imageBuffers i descriptors errors
    = (descriptors ++ found, errors ++ failed)
    /\ (List.length found + List.length failed = List.length imageBuffers)%nat
    /\ map snd found
       = flat_map (fun b => match ImageBatch.extractDescriptor Buffer detectFaces b with
                            | FaceRecognitionUtils.Return d => [d]
                            | FaceRecognitionUtils.Throw _ => []
                            end) imageBuffers
    /\ forall k message,
         In (k, message) failed
         <-> exists b, (i <= k)%nat
                       /\ nth_error imageBuffers (k - i) = Some b
                       /\ ImageBatch.extractDescriptor Buffer detectFaces b
                          = FaceRecognitionUtils.Throw message.
Proof.
  revert i descriptors errors.
  induction imageBuffers as [|b rest IH]; intros i descriptors errors.
  - exists [], []. cbn [ImageBatch.process_loop]. rewrite !app_nil_r.
    repeat split; try reflexivity.
    + intros [].
    + intros (b & _ & Hnth & _). destruct (k - i)%nat; discriminate.
  - cbn [ImageBatch.process_loop flat_map].
    destruct (ImageBatch.extractDescriptor Buffer detectFaces b) as [d|m] eqn:Hb.
    + destruct (IH (S i) (descriptors ++ [(i, d)]) errors)
        as (found & failed & -> & Hlen & Hmap & Hin).
      exists ((i, d) :: found), failed. rewrite <- app_assoc.
      split; [reflexivity|]. split; [cbn [List.length]; lia|].
      split; [cbn [map snd app]; now rewrite Hmap|].
      intros k message. rewrite Hin. split.
      * intros (b' & Hk & Hnth & Hthrow). exists b'. split; [lia|].
        replace (k - i)%nat with (S (k - S i)) by lia. now split.
      * intros (b' & Hk & Hnth & Hthrow).
        destruct (Nat.eq_dec k i) as [->|Hne].
        -- rewrite Nat.sub_diag in Hnth. cbn in Hnth. injection Hnth as <-. congruence.
        -- exists b'. split; [lia|].
           replace (k - i)%nat with (S (k - S i)) in Hnth by lia. now split.
    + destruct (IH (S i) descriptors (errors ++ [(i, m)]))
        as (found & failed & -> & Hlen & Hmap & Hin).
      exists found, ((i, m) :: failed). rewrite <- app_assoc.
      split; [reflexivity|]. split; [cbn [List.length]; lia|].
      split; [exact Hmap|].
      intros k message. cbn [In]. rewrite Hin. split.
      * intros [Heq | (b' & Hk & Hnth & Hthrow)].
        -- injection Heq as <- <-. exists b. rewrite Nat.sub_diag. now repeat split.
        -- exists b'. split; [lia|].
           replace (k - i)%nat with (S (k - S i)) by lia. now split.
      * intros (b' & Hk & Hnth & Hthrow).
        destruct (Nat.eq_dec k i) as [->|Hne].
        -- left. rewrite Nat.sub_diag in Hnth. cbn in Hnth. injection Hnth as <-.
           congruence.
        -- right. exists b'. split; [lia|].
           replace (k - i)%nat with (S (k - S i)) in Hnth by lia. now split.
Qed.

(** X20.  A batch of images is processed to the end.  Whatever the detector
    does on each image, [processFaceImages] returns: every image is counted
    once, as successful or as failed; the descriptors are those of the first
    face of the images where a face was found, in the order of the images;
    and the errors are exactly the images on which [extractDescriptor]
    throws, with their positions and messages - an image without a face
    among them, with the message "No face detected in the image". *)
Theorem processFaceImages_counts_every_image {Buffer : Type}
    (detectFaces : Buffer -> FaceRecognitionUtils.result (list (list float)))
    (imageBuffers : list Buffer) :
  let r := ImageBatch.processFaceImages Buffer detectFaces imageBuffers in
  (ImageBatch.successful r + ImageBatch.failed r = List.length imageBuffers)%nat
  /\ List.length (ImageBatch.descriptors r) = ImageBatch.successful r
  /\ ImageBatch.descriptors r
     = flat_map (fun b => match detectFaces b with
                          | FaceRecognitionUtils.Return (face :: _) => [face]
                          | _ => []
                          end) imageBuffers
  /\ (forall k message,
        In (k, message) (ImageBatch.errors r)
        <-> exists b, nth_error imageBuffers k = Some b
                      /\ match detectFaces b with
                         | FaceRecognitionUtils.Return [] =>
                             message = "No face detected in the image"
                         | FaceRecognitionUtils.Return (_ :: _) => False
                         | FaceRecognitionUtils.Throw thrown => message = thrown
                         end).
Proof.
  intros r. subst r. unfold ImageBatch.processFaceImages.
  destruct (process_loop_spec detectFaces imageBuffers 0 [] [])
    as (found & failed & -> & Hlen & Hmap & Hin).
  cbn [app ImageBatch.successful ImageBatch.failed ImageBatch.descriptors
       ImageBatch.errors].
  split; [exact Hlen|]. split; [apply length_map|]. split.
  - rewrite Hmap. apply flat_map_ext. intros b. unfold ImageBatch.extractDescriptor.
    now destruct (detectFaces b) as [[|face faces]|m].
  - intros k message. rewrite Hin. rewrite Nat.sub_0_r.
    split; intros (b & H); exists b.
    + destruct H as (_ & Hnth & Hthrow). split; [exact Hnth|].
      unfold ImageBatch.extractDescriptor in Hthrow.
      destruct (detectFaces b) as [[|face faces]|m]; try discriminate; congruence.
    + destruct H as (Hnth & Hcase). split; [lia|]. split; [exact Hnth|].
      unfold ImageBatch.extractDescriptor.
      destruct (detectFaces b) as [[|face faces]|m]; try contradiction; congruence.
Qed.

(* ================================================================== *)
(** * What the registration page sends *)
(* ================================================================== *)

Lemma trimEnd_idempotent (s : string) :
  Register.trimEnd (Register.trimEnd s) = Register.trimEnd s.
Proof.
  induction s as [|c r IH]; [reflexivity|].
  cbn [Register.trimEnd].
  destruct (Register.is_space c && String.eqb (Register.trimEnd r) "") eqn:E;
    [reflexivity|].
  cbn [Register.trimEnd]. now rewrite IH, E.
Qed.

(** What is left of [trimStart] does not begin with white space. *)
Lemma trimStart_head (s : string) :
  match Register.trimStart s with
  | EmptyString => True
  | String c _ => Register.is_space c = false
  end.
Proof.
  induction s as [|c r IH]; cbn [Register.trimStart]; [exact I|].
  destruct (Register.is_space c) eqn:E; [exact IH | exact E].
Qed.

Lemma trimStart_trimEnd (t : string) :
  match t with
  | EmptyString => True
  | String c _ => Register.is_space c = false
  end ->
  Register.trimStart (Register.trimEnd t) = Register.trimEnd t.
Proof.
  destruct t as [|c r]; [reflexivity|]. intros Hc.
  cbn [Register.trimEnd]. rewrite Hc. cbn [andb Register.trimStart]. now rewrite Hc.
Qed.

Lemma trim_idempotent (s : string) : Register.trim (Register.trim s) = Register.trim s.
Proof.
  unfold Register.trim.
  rewrite (trimStart_trimEnd _ (trimStart_head s)). apply trimEnd_idempotent.
Qed.

Lemma JSON_number_finite (x : float) : finite_element (Client.JSON_number x) = true.
Proof.
  unfold Client.JSON_number, isNaN.
  rewrite !FloatAxioms.eqb_spec, FloatAxioms.abs_spec.
  change (Prim2SF Infinity) with (S754_infinity false).
  change (Prim2SF 0) with (S754_zero false).
  unfold finite_element.
  destruct (Prim2SF x) as [s|s| |s m e] eqn:E; cbn [SFabs].
  - now destruct s.
  - now destruct s.
  - reflexivity.
  - assert (Hx : SFeqb (S754_finite s m e) (S754_finite s m e) = true).
    { unfold SFeqb. simpl. change (Pos.compare_cont Eq) with Pos.compare.
      rewrite Z.compare_refl, Pos.compare_refl. now destruct s. }
    rewrite Hx. cbn [negb orb].
    replace (SFeqb (S754_finite false m e) (S754_infinity false)) with false
      by reflexivity.
    replace (SFeqb (S754_finite s m e) (S754_zero false)) with false
      by (now destruct s).
    cbn [ToNumber]. now rewrite E.
Qed.

(** X21.  What the registration page sends.  The page sends the identifier
    trimmed, so a registration that comes from the page, whatever was typed
    and captured and whatever the answer, leaves the identifiers of the
    active students unique up to the case when they were; and every element
    of every descriptor it sends stands for a finite number, NaN and the
    infinities having become [null] on the way. *)
Theorem page_registration_keeps_ids_unique
    (env : Env) (studentName studentId studentClass parentName : string)
    (capturedImages : list RegisterPage.Captured) (db : Database.t) :
  let data := RegisterPage.registrationData studentName studentId studentClass
                parentName capturedImages in
  (Register.ids_unique (Database.students db) ->
   Register.ids_unique (Database.students (snd (Register.post_register env data db))))
  /\ (forall fd ds elems,
        Register.faceData data = Some fd ->
        Register.descriptors fd = Some ds ->
        In (VArr elems) ds ->
        forallb finite_element elems = true).
Proof.
  intros data. split.
  - intros Huniq.
    destruct (post_register_cases env data db)
      as [(errors & _ & _ & ->)
         | (name & i & class & parent & fd & ds & Hv & Hn & Hi & Hc & Hp
            & Hfd & Hds & [[_ ->] | [(_ & _ & ->) | (Hnone & Hw & ->)]])];
      try exact Huniq.
    cbn [snd Register.push_student Database.students].
    apply ids_unique_push; [exact Huniq | exact Hnone |].
    subst data. cbn [RegisterPage.registrationData Register.studentId] in Hi.
    injection Hi as <-. apply trim_idempotent.
  - intros fd ds elems Hfd Hds Hin. subst data.
    cbn [RegisterPage.registrationData Register.faceData] in Hfd. injection Hfd as <-.
    cbn [Register.descriptors] in Hds. injection Hds as <-.
    apply in_map_iff in Hin. destruct Hin as [img [Heq _]]. injection Heq as <-.
    apply forallb_forall. intros v Hv. apply in_map_iff in Hv.
    destruct Hv as [x [<- _]]. apply JSON_number_finite.
Qed.
